(** * jira-helper: the verification workflow, the script listing and the
      settings store

    A shallow embedding of
    - [routes/verify.js]   (GET /scripts, POST /run, GET /history),
    - [utils/jiraApi.js]   (the Jira REST client),
    - [utils/config.js]    (encrypted settings, templates),
    - [utils/csvUtils.js], [routes/create.js], [routes/settings.js] and
      the comment route of [routes/search.js],
    with the Jira server modelled as an explicit tracker state and the
    file system around the verification scripts as the paths that exist. *)

From Stdlib Require Import Ascii.
From stdpp Require Import base option list strings gmap pretty.

(** ** JavaScript string primitives *)

Module Js.

(** [s.startsWith(p)] *)
Fixpoint startsWith (s p : string) {struct p} : bool :=
  match p with
  | EmptyString => true
  | String a p' =>
      match s with
      | EmptyString => false
      | String b s' => if decide (a = b) then startsWith s' p' else false
      end
  end.

(** [s.includes(k)]: some suffix of [s] starts with [k]. *)
Fixpoint includes (s k : string) : bool :=
  startsWith s k ||
  match s with
  | EmptyString => false
  | String _ s' => includes s' k
  end.

(** [s.endsWith(suf)] *)
Fixpoint endsWith (s suf : string) : bool :=
  if decide (s = suf) then true
  else match s with
       | EmptyString => false
       | String _ s' => endsWith s' suf
       end.

(** One code unit of [toLowerCase]: the letters A-Z move to a-z, every
    other unit is left alone (names are modelled as byte strings). *)
Definition lower_char (c : ascii) : ascii :=
  let n := nat_of_ascii c in
  if (65 <=? n) && (n <=? 90) then ascii_of_nat (n + 32) else c.

Fixpoint toLowerCase (s : string) : string :=
  match s with
  | EmptyString => EmptyString
  | String c s' => String (lower_char c) (toLowerCase s')
  end.

(** Truthiness of a string value: only the empty string is falsy. *)
Definition truthy (s : string) : bool :=
  match s with EmptyString => false | _ => true end.

(** [a || b] on strings. *)
Definition or_else (a b : string) : string := if truthy a then a else b.

(** [path.basename(file, ext)] for a bare file name and a non-empty [ext]:
    the extension is dropped when the name ends with it (a name that is
    the extension itself gives the empty string). *)
Fixpoint strip_suffix (s suf : string) : string :=
  if decide (s = suf) then EmptyString
  else match s with
       | EmptyString => EmptyString
       | String c s' => String c (strip_suffix s' suf)
       end.

Definition basename (file ext : string) : string :=
  if endsWith file ext then strip_suffix file ext else file.

End Js.

(** [k] occurs in [s], as a statement about the text. *)
Definition occurs_in (k s : string) : Prop :=
  exists before after, s = before +:+ k +:+ after.

(** ** Values exchanged with a verification script *)

(** A value as the handler sees it: a primitive string, or anything else
    together with the text a template literal renders it to. A non-string
    is never [===] to a string. [VOpaque] is a value that [JSON.stringify]
    throws on (a BigInt, an object that contains itself), with the message
    of the TypeError. Values whose conversion to text throws are not
    modelled. *)
Inductive JsVal :=
| VStr (s : string)
| VOther (rendered : string)
| VOpaque (rendered : string) (json_message : string).

Definition render (v : JsVal) : string :=
  match v with VStr s => s | VOther r => r | VOpaque r _ => r end.

(** The message of the TypeError that serialising [v] throws, if any. *)
Definition json_error (v : JsVal) : option string :=
  match v with VOpaque _ m => Some m | _ => None end.

(** The two values that have no properties. *)
Inductive Nothing := JsNull | JsUndefined.

Definition nothing_text (n : Nothing) : string :=
  match n with JsNull => "null" | JsUndefined => "undefined" end.

(** What a [throw] (or a rejected promise) carries. *)
Inductive Thrown :=
| ErrorObj (message : string)   (* an Error, or any object with a message *)
| NonError                      (* a value without a [message] property *)
| Nullish (n : Nothing).        (* [null] or [undefined] *)

(** What [error.message] renders to in a template literal, when it can be
    read at all. *)
Definition message_text (e : Thrown) : option string :=
  match e with
  | ErrorObj m => Some m
  | NonError => Some "undefined"
  | Nullish _ => None
  end.

(** [verificationResult === 'ok' || verificationResult === 'OK'] *)
Definition isSuccess (v : JsVal) : bool :=
  match v with
  | VStr s => bool_decide (s = "ok") || bool_decide (s = "OK")
  | VOther _ => false
  | VOpaque _ _ => false
  end.

(** The two-variant outcome of the specification. *)
Inductive VerificationOutcome :=
| Pass (evidence : string)
| Fail (reason : string).

Definition classify (v : JsVal) : VerificationOutcome :=
  if isSuccess v then Pass (render v) else Fail (render v).

(** ** Transitions and the close heuristic (jiraApi.findCloseTransition) *)

Record Transition := mkTransition {
  tid : string;
  name : string;
  to_status : string
}.

Definition closeKeywords : list string :=
  ["close"; "resolve"; "done"; "complete"; "finish"].

(** [closeKeywords.some(keyword => name.includes(keyword))] *)
Fixpoint some_keyword (lname : string) (kws : list string) : bool :=
  match kws with
  | [] => false
  | kw :: kws' => if Js.includes lname kw then true else some_keyword lname kws'
  end.

Definition close_capable (t : Transition) : bool :=
  some_keyword (Js.toLowerCase (name t)) closeKeywords.

(** The [for ... of] loop: the first hit is returned at once. *)
Fixpoint find_close (ts : list Transition) : option Transition :=
  match ts with
  | [] => None
  | t :: rest => if close_capable t then Some t else find_close rest
  end.

(** *** The selection in the words of the specification

    "The first, by the tracker's own listing order, whose name,
    case-insensitively, contains any of close, resolve, done, complete,
    finish": written without the functions of the code above. *)

(** Each small letter with its capital. *)
Definition letter_cases : list (ascii * ascii) :=
  [("a", "A"); ("b", "B"); ("c", "C"); ("d", "D"); ("e", "E"); ("f", "F");
   ("g", "G"); ("h", "H"); ("i", "I"); ("j", "J"); ("k", "K"); ("l", "L");
   ("m", "M"); ("n", "N"); ("o", "O"); ("p", "P"); ("q", "Q"); ("r", "R");
   ("s", "S"); ("t", "T"); ("u", "U"); ("v", "V"); ("w", "W"); ("x", "X");
   ("y", "Y"); ("z", "Z")]%char.

(** The same character, or the same letter in its two cases. *)
Definition same_letter (a b : ascii) : Prop :=
  a = b \/ (a, b) ∈ letter_cases \/ (b, a) ∈ letter_cases.

(** Two texts that read the same when case is ignored. *)
Fixpoint same_text (s k : string) : Prop :=
  match s, k with
  | EmptyString, EmptyString => True
  | String a s', String b k' => same_letter a b /\ same_text s' k'
  | _, _ => False
  end.

(** A character that is not a capital letter, and a text without capital
    letters. *)
Definition no_capital (k : ascii) : bool :=
  negb ((65 <=? nat_of_ascii k) && (nat_of_ascii k <=? 90)).

Fixpoint no_capitals (k : string) : bool :=
  match k with
  | EmptyString => true
  | String c k' => no_capital c && no_capitals k'
  end.

(** [s] contains [k], case-insensitively. *)
Definition contains_ignoring_case (s k : string) : Prop :=
  exists before part after,
    s = before +:+ part +:+ after /\ same_text part k.

(** The name of [t] contains, case-insensitively, one of the five
    keywords. *)
Definition names_close (t : Transition) : Prop :=
  exists kw,
    kw ∈ ["close"; "resolve"; "done"; "complete"; "finish"] /\
    contains_ignoring_case (name t) kw.

(** [r] is the first element of [ts], in the order of [ts], that
    [names_close]; it is [None] when there is none. *)
Definition first_close_capable (ts : list Transition)
    (r : option Transition) : Prop :=
  match r with
  | Some t =>
      exists before after,
        ts = before ++ t :: after /\
        names_close t /\
        Forall (fun x => ~ names_close x) before
  | None => Forall (fun x => ~ names_close x) ts
  end.

(** ** The tracker: the Jira server behind the REST API *)

Record Comment := mkComment {
  cid : nat;
  body : string
}.

Record Issue := mkIssue {
  status : string;
  comments : list Comment;
  transitions : list Transition
}.

(** Every request that changed an issue, in the order served. *)
Inductive Mutation :=
| CommentAdded (key : string) (c : Comment)
| CommentUpdated (key : string) (id : nat) (text : string)
| Transitioned (key : string) (transition : string) (comment : option string).

Record Tracker := mkTracker {
  issues : gmap string Issue;
  journal : list Mutation
}.

(** What the server answers to one request: an error status, or the data
    of a 2xx response and the state it leaves. Of the body of an error
    response the client reads [errorMessages[0]] and [message]; either is
    "" when the body has none. *)
Inductive Reply (A : Type) :=
| Rejected (status : nat) (errorMessage message : string)
| Served (a : A) (t : Tracker).
Arguments Rejected {A} status errorMessage message.
Arguments Served {A} a t.

(** A new comment is numbered above every comment already on the issue. *)
Definition fresh_cid (cs : list Comment) : nat := S (max_list (cid <$> cs)).

Definition set_body (id : nat) (text : string) (c : Comment) : Comment :=
  if decide (cid c = id) then mkComment id text else c.

Definition has_cid (id : nat) (c : Comment) : bool := bool_decide (cid c = id).

Definition with_comments (i : Issue) (cs : list Comment) : Issue :=
  mkIssue (status i) cs (transitions i).

Definition record (m : Mutation) (key : string) (i : Issue) (t : Tracker) : Tracker :=
  mkTracker (<[key := i]> (issues t)) (journal t ++ [m]).

Definition no_issue : string := "Issue Does Not Exist".

(** GET /issue/{key} *)
Definition serve_getIssue (key : string) (t : Tracker) : Reply Issue :=
  match issues t !! key with
  | Some i => Served i t
  | None => Rejected 404 no_issue ""
  end.

(** GET /issue/{key}/comment *)
Definition serve_getComments (key : string) (t : Tracker) : Reply (list Comment) :=
  match issues t !! key with
  | Some i => Served (comments i) t
  | None => Rejected 404 no_issue ""
  end.

(** GET /issue/{key}/transitions *)
Definition serve_getTransitions (key : string) (t : Tracker)
  : Reply (list Transition) :=
  match issues t !! key with
  | Some i => Served (transitions i) t
  | None => Rejected 404 no_issue ""
  end.

(** POST /issue/{key}/comment *)
Definition serve_addComment (key text : string) (t : Tracker) : Reply Comment :=
  match issues t !! key with
  | Some i =>
      let c := mkComment (fresh_cid (comments i)) text in
      Served c (record (CommentAdded key c) key
                       (with_comments i (comments i ++ [c])) t)
  | None => Rejected 404 no_issue ""
  end.

(** PUT /issue/{key}/comment/{id} *)
Definition serve_updateComment (key : string) (id : nat) (text : string)
    (t : Tracker) : Reply Comment :=
  match issues t !! key with
  | Some i =>
      if existsb (has_cid id) (comments i)
      then Served (mkComment id text)
                  (record (CommentUpdated key id text) key
                          (with_comments i (set_body id text <$> comments i)) t)
      else Rejected 404 "Comment does not exist" ""
  | None => Rejected 404 no_issue ""
  end.

(** POST /issue/{key}/transitions, with the optional [update.comment]. *)
Definition serve_transition (key tr : string) (comment : option string)
    (t : Tracker) : Reply unit :=
  match issues t !! key with
  | Some i =>
      match List.find (fun x => bool_decide (tid x = tr)) (transitions i) with
      | Some x =>
          let cs := match comment with
                    | Some text =>
                        comments i ++ [mkComment (fresh_cid (comments i)) text]
                    | None => comments i
                    end in
          Served tt (record (Transitioned key tr comment) key
                            (mkIssue (to_status x) cs (transitions i)) t)
      | None => Rejected 400 "Transition is not valid for this issue" ""
      end
  | None => Rejected 404 no_issue ""
  end.

(** ** The world a request handler runs in *)

Record World := mkWorld {
  tracker : Tracker;
  (** transport outcome of the coming requests, oldest first: [Some m] is a
      failure with message [m]; past the end of the list nothing fails *)
  faults : list (option string);
  (** [jiraApi.initialized] *)
  initialized : bool;
  (** the stored settings carry url, user name and token *)
  has_settings : bool;
  (** the calls of a script's [verify] made so far: script id, issue key *)
  invocations : list (string * string)
}.

Definition set_tracker (t : Tracker) (w : World) : World :=
  mkWorld t (faults w) (initialized w) (has_settings w) (invocations w).
Definition set_faults (f : list (option string)) (w : World) : World :=
  mkWorld (tracker w) f (initialized w) (has_settings w) (invocations w).
Definition set_initialized (b : bool) (w : World) : World :=
  mkWorld (tracker w) (faults w) b (has_settings w) (invocations w).
Definition log_invocation (script key : string) (w : World) : World :=
  mkWorld (tracker w) (faults w) (initialized w) (has_settings w)
          (invocations w ++ [(script, key)]).

(** ** Asynchronous code that may throw: state and exception monad *)

Inductive Res (A : Type) :=
| Ok (a : A)
| Throw (e : Thrown).
Arguments Ok {A} a.
Arguments Throw {A} e.

Definition M (A : Type) : Type := World -> Res A * World.

Definition ret {A} (a : A) : M A := fun w => (Ok a, w).

Definition throw {A} (e : Thrown) : M A := fun w => (Throw e, w).

Definition bind {A B} (c : M A) (k : A -> M B) : M B :=
  fun w => match c w with
           | (Ok a, w') => k a w'
           | (Throw e, w') => (Throw e, w')
           end.

(** [try { body } catch (error) { handler }]: what the body did to the world
    before it threw stays done. *)
Definition try_catch {A} (body : M A) (handler : Thrown -> M A) : M A :=
  fun w => match body w with
           | (Ok a, w') => (Ok a, w')
           | (Throw e, w') => handler e w'
           end.

Notation "x <- c ;; k" := (bind c (fun x => k))
  (at level 100, c at next level, right associativity).

(** [error.message]: reading a property of [null] or [undefined] is itself
    a TypeError; a missing property renders as "undefined". *)
Definition message_of (e : Thrown) : M string :=
  match e with
  | ErrorObj m => ret m
  | NonError => ret "undefined"
  | Nullish n =>
      throw (ErrorObj ("Cannot read properties of " +:+ nothing_text n
                       +:+ " (reading 'message')"))
  end.

(** ** utils/jiraApi.js *)

Module JiraAPI.

Definition not_configured : string :=
  "Jira connection not configured. Please configure settings first.".

(** [if (!this.initialized) { ... await this.initialize() ... }] *)
Definition ensure_initialized : M unit := fun w =>
  if initialized w then (Ok tt, w)
  else if has_settings w then (Ok tt, set_initialized true w)
  else (Throw (ErrorObj not_configured), w).

(** [error.message] of the error axios raises for an error status. *)
Definition status_message (status : nat) : string :=
  "Request failed with status code " +:+ pretty status.

(** The Error that [makeRequest] rethrows (lines 53-58); its message is the
    first non-empty of [error.response.data.errorMessages[0]],
    [error.response.data.message], [error.message] and a fixed text. *)
Definition wrap (errorMessage message error_message : string) : Thrown :=
  ErrorObj
    (Js.or_else errorMessage
       (Js.or_else message
          (Js.or_else error_message "Jira API request failed"))).

(** The axios call. The transport may fail with [error.message] = [m] and
    no response; else the server answers, and an error status makes axios
    throw. *)
Definition send {A} (serve : Tracker -> Reply A) : M A := fun w =>
  let w1 := set_faults (tail (faults w)) w in
  match head (faults w) with
  | Some (Some m) => (Throw (wrap "" "" m), w1)
  | _ =>
      match serve (tracker w) with
      | Rejected status errorMessage message =>
          (Throw (wrap errorMessage message (status_message status)), w1)
      | Served a t => (Ok a, set_tracker t w1)
      end
  end.

Definition makeRequest {A} (serve : Tracker -> Reply A) : M A :=
  _ <- ensure_initialized ;;
  send serve.

(** The calls below splice the issue key into the path of the request as
    it is. The tracker is modelled as receiving that key, which is what
    happens for a key of the form PROJECT-NUMBER: such a key is one path
    segment ([plain_key]). *)
Definition getIssue (issueKey : string) : M Issue :=
  makeRequest (serve_getIssue issueKey).

Definition addComment (issueKey comment : string) : M Comment :=
  makeRequest (serve_addComment issueKey comment).

Definition updateComment (issueKey : string) (commentId : nat)
    (comment : string) : M Comment :=
  makeRequest (serve_updateComment issueKey commentId comment).

Definition getComments (issueKey : string) : M (list Comment) :=
  makeRequest (serve_getComments issueKey).

Definition getTransitions (issueKey : string) : M (list Transition) :=
  makeRequest (serve_getTransitions issueKey).

(** [if (comment)] attaches the comment only when it is a non-empty string. *)
Definition transitionIssue (issueKey transitionId : string)
    (comment : option string) : M unit :=
  let attached := match comment with
                  | Some c => if Js.truthy c then Some c else None
                  | None => None
                  end in
  makeRequest (serve_transition issueKey transitionId attached).

Definition findCloseTransition (issueKey : string) : M (option Transition) :=
  ts <- getTransitions issueKey ;;
  ret (find_close ts).

End JiraAPI.

(** ** The verification-scripts directory *)

Definition Params := list (string * string).

Record ParamSpec := mkParamSpec {
  pname : string;
  ptype : string;
  pdescription : string;
  required : bool;
  default_value : option string
}.

(** What one call of a script's [verify] does. *)
Inductive VerifyResult :=
| Returns (v : JsVal)
| Raises (e : Thrown).

(** [module.exports] of a script; a field is [None] when the property is
    missing, and [verify] is [Some f] exactly when
    [typeof script.verify === 'function']. *)
Record Script := mkScript {
  sname : option string;
  sdescription : option string;
  sparameters : option (list ParamSpec);
  verify : option (string -> Params -> VerifyResult)
}.

(** What [require(scriptPath)] gives for a path that exists. A module
    whose exports are [null] or [undefined] counts as [LoadFails]: reading
    its first property throws inside the same [try]. *)
Inductive Loaded :=
| LoadFails (e : Thrown)
| Exports (s : Script).

(** Node's [path.join] on a POSIX system. *)
Module Path.

(** The pieces of [s] between its slashes. *)
Fixpoint segments (s : string) : list string :=
  match s with
  | EmptyString => [EmptyString]
  | String c r =>
      if decide (c = "/"%char) then EmptyString :: segments r
      else match segments r with
           | seg :: rest => String c seg :: rest
           | [] => [String c EmptyString]
           end
  end.

(** [path.normalize] on an absolute path; [kept] holds the segments kept
    so far, the last one first. An empty segment and "." are dropped; ".."
    drops the segment before it, and is dropped itself at the root. *)
Fixpoint walk (kept segs : list string) : list string :=
  match segs with
  | [] => rev kept
  | seg :: rest =>
      if decide (seg = "" \/ seg = ".") then walk kept rest
      else if decide (seg = "..") then walk (tail kept) rest
      else walk (seg :: kept) rest
  end.

(** [path.join(dir, rel)] for an absolute, normalised [dir], given by its
    segments, and a [rel] that does not end in a slash. *)
Definition join (dir : list string) (rel : string) : list string :=
  walk (rev dir) (segments rel).

(** A path with a NUL byte is refused by [fs] and by [require]. *)
Fixpoint has_nul (s : string) : bool :=
  match s with
  | EmptyString => false
  | String c r => bool_decide (c = Ascii.zero) || has_nul r
  end.

End Path.

(** The file system the server runs on, as far as the two routes see it:
    where the verification-scripts directory is, whether it can be listed,
    and every path that exists, with what [require] gives for it. The
    scripts are the paths directly below [location]; the files of the
    application itself (utils/config.js, ...) are in [tree] as well. *)
Record ScriptDir := mkScriptDir {
  location : list string;
  readable : bool;
  tree : list (list string * Loaded)
}.

Fixpoint lookup_path (path : list string) (tree : list (list string * Loaded))
  : option Loaded :=
  match tree with
  | [] => None
  | (p, l) :: rest => if decide (p = path) then Some l else lookup_path path rest
  end.

(** [path.join(VERIFICATION_SCRIPTS_DIR, file)] *)
Definition script_path (dir : ScriptDir) (file : string) : list string :=
  Path.join (location dir) file.

(** [fs.access(scriptPath)] succeeds *)
Definition access (dir : ScriptDir) (file : string) : bool :=
  negb (Path.has_nul file)
  && bool_decide (is_Some (lookup_path (script_path dir file) (tree dir))).

Definition cannot_find (file : string) : Loaded :=
  LoadFails (ErrorObj ("Cannot find module '" +:+ file +:+ "'")).

(** [require(scriptPath)], the module cache being cleared before. *)
Definition require (dir : ScriptDir) (file : string) : Loaded :=
  if Path.has_nul file then cannot_find file
  else match lookup_path (script_path dir file) (tree dir) with
       | Some l => l
       | None => cannot_find file
       end.

(** The name of [path] when it lies directly in [loc]. *)
Fixpoint child (loc path : list string) : option string :=
  match loc, path with
  | [], [name] => Some name
  | l :: loc', p :: path' => if decide (l = p) then child loc' path' else None
  | _, _ => None
  end.

(** [fs.readdir(VERIFICATION_SCRIPTS_DIR)]: the names in the directory, or
    [None] when it cannot be listed. *)
Definition readdir (dir : ScriptDir) : option (list string) :=
  if readable dir
  then Some (omap (fun entry => child (location dir) entry.1) (tree dir))
  else None.

(** ** HTTP responses *)

Record ScriptInfo := mkScriptInfo {
  info_id : string;
  info_name : string;
  info_description : string;
  info_parameters : list ParamSpec
}.

Record RunResult := mkRunResult {
  success : bool;
  action : option string;
  message : string;
  verificationResult : JsVal;
  transition : option string
}.

Inductive Body :=
| ErrorBody (error : string)
| ScriptsBody (scripts : list ScriptInfo)
| RunBody (r : RunResult).

Record Response := mkResponse {
  code : nat;
  payload : Body
}.

(** ** routes/verify.js *)

Module Verify.

(** *** GET /scripts *)

(** [x || y] where [x] may be missing *)
Definition opt_or (x : option string) (y : string) : string :=
  match x with
  | Some s => Js.or_else s y
  | None => y
  end.

Definition script_info (file : string) (script : Script) : ScriptInfo :=
  mkScriptInfo
    (Js.basename file ".js")
    (opt_or (sname script) (Js.basename file ".js"))
    (opt_or (sdescription script) "No description available")
    (match sparameters script with Some ps => ps | None => [] end).

(** The [for (const file of files)] loop with its two accumulators: the
    [scripts] array and what [console.error] has printed. *)
Fixpoint scan (dir : ScriptDir) (files : list string)
    (scripts : list ScriptInfo) (console : list string)
  : list ScriptInfo * list string :=
  match files with
  | [] => (scripts, console)
  | file :: rest =>
      if Js.endsWith file ".js" then
        match require dir file with
        | Exports script =>
            scan dir rest (scripts ++ [script_info file script]) console
        | LoadFails _ =>
            scan dir rest scripts
              (console ++ ["Error loading script " +:+ file +:+ ":"])
        end
      else scan dir rest scripts console
  end.

Definition get_scripts (dir : ScriptDir) : Response * list string :=
  match readdir dir with
  | Some files =>
      let (scripts, console) := scan dir files [] [] in
      (mkResponse 200 (ScriptsBody scripts), console)
  | None =>
      (mkResponse 500 (ErrorBody "Failed to get verification scripts"),
       ["Error getting verification scripts:"])
  end.

(** *** POST /run *)

Record Request := mkRequest {
  issueKey : string;
  scriptId : string;
  parameters : Params;
  commentPrefix : option string
}.

Definition prefix_of (req : Request) : string :=
  match commentPrefix req with
  | Some p => p
  | None => "[Verification]"
  end.

(** Calling [script.verify(issueKey, parameters)] *)
Definition call_verify (script_id : string)
    (f : string -> Params -> VerifyResult) (key : string) (ps : Params)
  : M JsVal := fun w =>
  let w' := log_invocation script_id key w in
  match f key ps with
  | Returns v => (Ok v, w')
  | Raises e => (Throw e, w')
  end.

(** Lines 66-81: load the script, run it, turn a throw into a result. *)
Definition run_script (dir : ScriptDir) (req : Request) : M JsVal :=
  try_catch
    (match require dir (scriptId req +:+ ".js") with
     | LoadFails e => throw e
     | Exports script =>
         match verify script with
         | Some f => call_verify (scriptId req) f (issueKey req) (parameters req)
         | None => throw (ErrorObj "Script does not export a verify function")
         end
     end)
    (fun error =>
       m <- message_of error ;;
       ret (VStr ("Script error: " +:+ m))).

Definition closed (v : JsVal) (t : Transition) : Response :=
  mkResponse 200 (RunBody (mkRunResult true (Some "closed")
    "Verification passed. Issue has been closed." v (Some (name t)))).

Definition commented_pass (v : JsVal) : Response :=
  mkResponse 200 (RunBody (mkRunResult true (Some "commented")
    "Verification passed, but issue could not be auto-closed. Comment added."
    v None)).

Definition verified_no_update (v : JsVal) (m : string) : Response :=
  mkResponse 200 (RunBody (mkRunResult true (Some "verified")
    ("Verification passed, but failed to update issue: " +:+ m) v None)).

Definition commented_fail (v : JsVal) : Response :=
  mkResponse 200 (RunBody (mkRunResult true (Some "commented")
    "Verification failed. Comment added to issue." v None)).

Definition update_failed (v : JsVal) (m : string) : Response :=
  mkResponse 200 (RunBody (mkRunResult false None
    ("Verification failed and could not update issue: " +:+ m) v None)).

(** The [try] block of the success branch (lines 88-115). *)
Definition pass_body (key prefix : string) (v : JsVal) : M Response :=
  closeTransition <- JiraAPI.findCloseTransition key ;;
  match closeTransition with
  | Some t =>
      _ <- JiraAPI.transitionIssue key (tid t)
             (Some (prefix +:+ " Verification passed. Issue auto-closed.")) ;;
      ret (closed v t)
  | None =>
      _ <- JiraAPI.addComment key
             (prefix +:+ " Verification passed, but no close transition available.") ;;
      ret (commented_pass v)
  end.

Definition tagged (prefix : string) (c : Comment) : bool :=
  Js.startsWith (body c) prefix.

(** The [try] block of the failure branch (lines 128-148). *)
Definition fail_body (key prefix : string) (v : JsVal) : M Response :=
  cs <- JiraAPI.getComments key ;;
  let existingComment := List.find (tagged prefix) cs in
  let commentText := prefix +:+ " " +:+ render v in
  _ <- match existingComment with
       | Some c => JiraAPI.updateComment key (cid c) commentText
       | None => JiraAPI.addComment key commentText
       end ;;
  ret (commented_fail v).

(** Lines 83-157: from the verification result to the remote side effect
    and the body of the answer. Each branch hands its body to [res.json],
    at the end of its [try] and in its [catch]; a body that cannot be
    serialised is thrown at both places with the same TypeError, so that
    the branch then ends in that throw. [run] below therefore serialises
    the body once, after the resolution. *)
Definition resolve (key prefix : string) (v : JsVal) : M Response :=
  if isSuccess v then
    try_catch (pass_body key prefix v)
      (fun error => m <- message_of error ;; ret (verified_no_update v m))
  else
    try_catch (fail_body key prefix v)
      (fun error => m <- message_of error ;; ret (update_failed v m)).

Definition bad_request : Response :=
  mkResponse 400 (ErrorBody "Issue key and script ID are required").

Definition issue_not_found (m : string) : Response :=
  mkResponse 404 (ErrorBody ("Issue not found: " +:+ m)).

Definition script_not_found : Response :=
  mkResponse 404 (ErrorBody "Verification script not found").

(** [res.json(body)]: the body is serialised before anything is sent. *)
Definition res_json (r : Response) : M Response :=
  match payload r with
  | RunBody rr =>
      match json_error (verificationResult rr) with
      | Some m => throw (ErrorObj m)
      | None => ret r
      end
  | _ => ret r
  end.

Definition run (dir : ScriptDir) (req : Request) : M Response :=
  try_catch
    (if negb (Js.truthy (issueKey req)) || negb (Js.truthy (scriptId req))
     then ret bad_request
     else
       missing <- try_catch (_ <- JiraAPI.getIssue (issueKey req) ;; ret None)
                    (fun error =>
                       m <- message_of error ;;
                       ret (Some (issue_not_found m))) ;;
       match missing with
       | Some response => ret response
       | None =>
           if negb (access dir (scriptId req +:+ ".js"))
           then ret script_not_found
           else
             verificationResult <- run_script dir req ;;
             response <-
               resolve (issueKey req) (prefix_of req) verificationResult ;;
             res_json response
       end)
    (fun error =>
       m <- message_of error ;;
       ret (mkResponse 500 (ErrorBody ("Failed to run verification: " +:+ m)))).

(** Several requests served one after the other; the scripts directory may
    change between two of them. *)
Fixpoint run_all (reqs : list (ScriptDir * Request)) (w : World)
  : list (Res Response) * World :=
  match reqs with
  | [] => ([], w)
  | (dir, req) :: rest =>
      let (r, w1) := run dir req w in
      let (rs, w2) := run_all rest w1 in
      (r :: rs, w2)
  end.

End Verify.

(** ** utils/config.js *)

Module Config.

(** CryptoJS.AES with the fixed passphrase [ENCRYPTION_KEY]: encryption
    draws a random salt and throws on a text it cannot encode as UTF-8 (a
    text with a lone surrogate), which is when [encryptable] is [false];
    decryption throws ([None]) on malformed input. *)
Class Cipher := {
  Salt : Type;
  encryptable : string -> bool;
  encrypt : Salt -> string -> string;
  decrypt : string -> option string
}.

Record Settings := mkSettings {
  jiraUrl : string;
  username : string;
  apiToken : string;
  configured : bool
}.

(** [JSON.stringify(_, null, 2)] and [JSON.parse] on a settings object. *)
Class Json := {
  Text : Type;
  stringify : Settings -> Text;
  parse : Text -> option Settings
}.

Section Store.
Context {cipher : Cipher} {json : Json}.

(** config/settings.json: its content when it exists, and whether
    [fs.writeFile] goes through. *)
Record Disk := mkDisk {
  config_file : option Text;
  writable : bool
}.

Definition default_settings : Settings := mkSettings "" "" "" false.

Definition with_token (s : Settings) (t : string) : Settings :=
  mkSettings (jiraUrl s) (username s) t (configured s).

Definition getSettings (d : Disk) : Settings :=
  match config_file d with
  | Some data =>
      match parse data with
      | Some settings =>
          if Js.truthy (apiToken settings) then
            match decrypt (apiToken settings) with
            | Some t => with_token settings t
            | None => default_settings
            end
          else settings
      | None => default_settings
      end
  | None => default_settings
  end.

(** The whole body is one [try]: a throw of [encrypt] and a failing
    [fs.writeFile] both end in [return false]. *)
Definition saveSettings (settings : Settings) (salt : Salt) (d : Disk)
  : bool * Disk :=
  if Js.truthy (apiToken settings) && negb (encryptable (apiToken settings))
  then (false, d)
  else
    let settingsToSave :=
      if Js.truthy (apiToken settings)
      then with_token settings (encrypt salt (apiToken settings))
      else settings in
    if writable d
    then (true, mkDisk (Some (stringify settingsToSave)) (writable d))
    else (false, d).

End Store.

(** The contract of the two libraries. *)
Class Lawful (cipher : Cipher) (json : Json) : Prop := {
  decrypt_encrypt : forall salt t,
    encryptable t = true -> decrypt (encrypt salt t) = Some t;
  (** the salted, Base64 output is longer than its input *)
  encrypt_longer : forall salt t,
    encryptable t = true -> String.length t < String.length (encrypt salt t);
  parse_stringify : forall s, parse (stringify s) = Some s
}.

End Config.

(** ** Vocabulary of the properties *)

(** The client can reach the server: it is initialised or can be. *)
Definition ready (w : World) : Prop :=
  initialized w = true \/ has_settings w = true.

(** None of the next [n] requests fails in transport. *)
Fixpoint transport_ok (n : nat) (f : list (option string)) : Prop :=
  match n with
  | 0 => True
  | S n' =>
      match f with
      | [] => True
      | Some _ :: _ => False
      | None :: f' => transport_ok n' f'
      end
  end.

(** The world after one request that the server answered with [t]. *)
Definition answered (t : Tracker) (w : World) : World :=
  mkWorld t (tail (faults w)) true (has_settings w) (invocations w).

(** The comments of an issue after the failure branch went through: the
    first tagged comment is rewritten, or a new one is appended. *)
Definition reconcile (prefix text : string) (cs : list Comment) : list Comment :=
  match List.find (Verify.tagged prefix) cs with
  | Some c => set_body (cid c) text <$> cs
  | None => cs ++ [mkComment (fresh_cid cs) text]
  end.

(** What a script without a [verify] function is reported as. *)
Definition no_verify_result : JsVal :=
  VStr "Script error: Script does not export a verify function".

(** A run on the issue [key] with the tag [tag]. *)
Definition same_target (key tag : string) (run : ScriptDir * Verify.Request)
  : Prop :=
  Verify.issueKey run.2 = key /\ Verify.prefix_of run.2 = tag.

(** The body of the comment that reports the failure [v]. *)
Definition failure_text (tag : string) (v : JsVal) : string :=
  tag +:+ " " +:+ render v.

(** The bodies of the two comments of the success branch. *)
Definition closing_comment (prefix : string) : string :=
  prefix +:+ " Verification passed. Issue auto-closed.".

Definition no_transition_comment (prefix : string) : string :=
  prefix +:+ " Verification passed, but no close transition available.".

(** *** The listing in the words of the specification *)

(** A candidate unit: a name of the collection that ends in ".js". *)
Definition candidate (file : string) : Prop :=
  exists stem, file = stem +:+ ".js".

(** [d] is the definition of the unit [file] that loaded as [script]: its
    id comes from the identity of the source (the file name without
    ".js"); name, description and parameterSpec are what the unit exposes.
    A unit without a name is shown under its id, one without a description
    under "No description available", one without parameters has none. *)
Definition defines (file : string) (script : Script) (d : ScriptInfo) : Prop :=
  file = info_id d +:+ ".js" /\
  info_name d =
    match sname script with
    | Some (String c n) => String c n
    | _ => info_id d
    end /\
  info_description d =
    match sdescription script with
    | Some (String c t) => String c t
    | _ => "No description available"
    end /\
  info_parameters d =
    match sparameters script with
    | Some ps => ps
    | None => []
    end.

(** What listing the names [files] has to give: [defs] holds, in order,
    the definitions of the candidate units that load, [log], in order, one
    line for each candidate unit whose loading throws. *)
Inductive listed (dir : ScriptDir)
  : list string -> list ScriptInfo -> list string -> Prop :=
| listed_nil : listed dir [] [] []
| listed_other file files defs log :
    ~ candidate file ->
    listed dir files defs log ->
    listed dir (file :: files) defs log
| listed_unit file files script d defs log :
    candidate file ->
    require dir file = Exports script ->
    defines file script d ->
    listed dir files defs log ->
    listed dir (file :: files) (d :: defs) log
| listed_broken file files e defs log :
    candidate file ->
    require dir file = LoadFails e ->
    listed dir files defs log ->
    listed dir (file :: files) defs
      (("Error loading script " +:+ file +:+ ":") :: log).

(** The outcome a response reports. *)
Definition outcome_of (r : Res Response) : option VerificationOutcome :=
  match r with
  | Ok (mkResponse _ (RunBody rr)) => Some (classify (verificationResult rr))
  | _ => None
  end.

(** A 4xx answer with an error body. *)
Definition request_error (r : Response) : Prop :=
  exists e, payload r = ErrorBody e /\ (code r = 400 \/ code r = 404).

(** The five results of the resolution, for the verification result [v]. *)
Inductive resolved (v : JsVal) : Response -> Prop :=
| Closed t : resolved v (Verify.closed v t)
| CommentedPassNoTransition : resolved v (Verify.commented_pass v)
| VerifiedNoUpdate m : resolved v (Verify.verified_no_update v m)
| CommentedFail : resolved v (Verify.commented_fail v)
| UpdateFailed m : resolved v (Verify.update_failed v m).

(** ** A small tracker used in the examples *)

Module Demo.

Definition start_progress : Transition :=
  mkTransition "11" "Start Progress" "In Progress".
Definition close_issue : Transition :=
  mkTransition "21" "Close Issue" "Closed".
Definition mark_done : Transition := mkTransition "31" "Done" "Done".
Definition reopen : Transition := mkTransition "41" "Reopen" "Open".

Definition key : string := "PROJ-1".

Definition world_of (i : Issue) (f : list (option string)) : World :=
  mkWorld (mkTracker {[ key := i ]} []) f false true [].

(** An open issue without comments that can be closed. *)
Definition closable : Issue :=
  mkIssue "Open" [] [start_progress; close_issue; mark_done].

(** An open issue without comments and without a closing transition. *)
Definition stuck : Issue := mkIssue "Open" [] [start_progress; reopen].

(** The scripts of the examples. *)
Definition passing : Script :=
  mkScript (Some "Sample Test") (Some "Always passes")
    (Some [mkParamSpec "successRate" "number" "Success rate (0-100)" false (Some "70")])
    (Some (fun _ _ => Returns (VStr "ok"))).
Definition timing_out : Script :=
  mkScript (Some "Deployment Check") None None
    (Some (fun _ _ => Returns (VStr "timeout"))).
Definition throwing : Script :=
  mkScript None None None
    (Some (fun _ _ => Raises (ErrorObj "connect ECONNREFUSED"))).
Definition no_verify : Script := mkScript (Some "Broken") None None None.

(** [verify] returns a BigInt. *)
Definition counting : Script :=
  mkScript None None None
    (Some (fun _ _ =>
             Returns (VOpaque "42" "Do not know how to serialize a BigInt"))).

(** [verify] returns [Promise.reject()]; [verify] runs [throw null]. *)
Definition rejecting : Script :=
  mkScript None None None (Some (fun _ _ => Raises (Nullish JsUndefined))).
Definition throwing_null : Script :=
  mkScript None None None (Some (fun _ _ => Raises (Nullish JsNull))).

(** What a module of the application exports, utils/config.js for one:
    functions, none called [verify], and no name, description or
    parameters. *)
Definition app_module : Script := mkScript None None None None.

(** Where the application is installed. *)
Definition app : list string := ["srv"; "jira-helper"].

Definition scripts_location : list string := app ++ ["verification-scripts"].

(** The files of the machine: the scripts directory and two modules of
    the application. *)
Definition scripts : ScriptDir :=
  mkScriptDir scripts_location true
    [(scripts_location ++ ["sample-test.js"], Exports passing);
     (scripts_location ++ ["timeout.js"], Exports timing_out);
     (scripts_location ++ ["flaky.js"], Exports throwing);
     (scripts_location ++ ["broken.js"], Exports no_verify);
     (scripts_location ++ ["syntax.js"], LoadFails (ErrorObj "Unexpected token"));
     (scripts_location ++ ["README.md"], LoadFails (ErrorObj "Unexpected token"));
     (app ++ ["utils"; "config.js"], Exports app_module);
     (app ++ ["utils"; "jiraApi.js"], Exports app_module)].

(** Three units of which the second cannot be loaded, and three units of
    which the second loads but has no [verify]. *)
Definition three_units : ScriptDir :=
  mkScriptDir scripts_location true
    [(scripts_location ++ ["sample-test.js"], Exports passing);
     (scripts_location ++ ["syntax.js"], LoadFails (ErrorObj "Unexpected token"));
     (scripts_location ++ ["timeout.js"], Exports timing_out)].

Definition three_with_stub : ScriptDir :=
  mkScriptDir scripts_location true
    [(scripts_location ++ ["sample-test.js"], Exports passing);
     (scripts_location ++ ["broken.js"], Exports no_verify);
     (scripts_location ++ ["timeout.js"], Exports timing_out)].

(** A machine whose scripts directory holds the one script [file]. *)
Definition only (file : string) (script : Script) : ScriptDir :=
  mkScriptDir scripts_location true
    [(scripts_location ++ [file], Exports script)].

Definition request (script_id : string) : Verify.Request :=
  Verify.mkRequest key script_id [] None.

(** The code unit U+D800 on its own, in the byte form a string that is
    not well formed is carried in. *)
Definition lone_surrogate : string :=
  String (ascii_of_nat 237) (String (ascii_of_nat 160)
    (String (ascii_of_nat 128) EmptyString)).

(** A stand-in for the two libraries of utils/config.js: the "cipher"
    puts a mark in front of the text and refuses a text with a lone
    surrogate, the "JSON text" is the object. *)
Definition mark : Config.Cipher :=
  {| Config.Salt := nat;
     Config.encryptable := fun t => negb (Js.includes t lone_surrogate);
     Config.encrypt := fun _ t => String "#" t;
     Config.decrypt := fun c => match c with
                                | String _ t => Some t
                                | EmptyString => None
                                end |}.

Definition objects : Config.Json :=
  {| Config.Text := Config.Settings;
     Config.stringify := fun s => s;
     Config.parse := fun s => Some s |}.

Definition settings : Config.Settings :=
  Config.mkSettings "https://jira.example.com" "alice" "s3cret" true.

Definition empty_disk : @Config.Disk objects := @Config.mkDisk objects None true.

Definition saved_disk : @Config.Disk objects :=
  @Config.mkDisk objects (Some (Config.with_token settings "#s3cret")) true.

End Demo.

(** ** What a request may do to the tracker *)

(** An issue key as Jira forms it, PROJECT-NUMBER: letters, digits, "_"
    and "-" only. The client splices the key into the path of the request
    as it is; a key of this form is one path segment, and it reaches the
    tracker unchanged. *)
Definition key_char (c : ascii) : bool :=
  let n := nat_of_ascii c in
  ((48 <=? n) && (n <=? 57)) || ((65 <=? n) && (n <=? 90))
  || ((97 <=? n) && (n <=? 122)) || (n =? 95) || (n =? 45).

Fixpoint plain_key (key : string) : bool :=
  match key with
  | EmptyString => true
  | String c rest => key_char c && plain_key rest
  end.

Definition mutation_key (m : Mutation) : string :=
  match m with
  | CommentAdded key _ => key
  | CommentUpdated key _ _ => key
  | Transitioned key _ _ => key
  end.

(** Between [t] and [t'] nothing happened, or one request changed the
    issue [key], which was there before. *)
Inductive effect (key : string) (t t' : Tracker) : Prop :=
| Untouched : t' = t -> effect key t t'
| Changed i i' m :
    issues t !! key = Some i ->
    mutation_key m = key ->
    t' = record m key i' t ->
    effect key t t'.

(** ** routes/verify.js, GET /history/:issueKey *)

Module VerifyHistory.

(** One listed comment. The tracker model carries the id and the body of
    a comment; its author and dates are not modelled. *)
Record Entry := mkEntry {
  entry_id : nat;
  entry_body : string
}.

Inductive Response :=
| History (issueKey : string) (verificationComments : list Entry) (total : nat)
| Failure (status : nat) (error : string).

Definition entry_of (comment : Comment) : Entry :=
  mkEntry (cid comment) (body comment).

Definition get_history (issueKey : string) (commentPrefix : option string)
  : M Response :=
  let prefix := match commentPrefix with
                | Some p => p
                | None => "[Verification]"
                end in
  try_catch
    (cs <- JiraAPI.getComments issueKey ;;
     let verificationComments :=
       List.map entry_of (List.filter (Verify.tagged prefix) cs) in
     ret (History issueKey verificationComments (length verificationComments)))
    (fun error =>
       m <- message_of error ;;
       ret (Failure 500 ("Failed to get verification history: " +:+ m))).

End VerifyHistory.

(** The tag a history request filters by. *)
Definition history_prefix (commentPrefix : option string) : string :=
  match commentPrefix with Some p => p | None => "[Verification]" end.

(** ** More JavaScript string primitives *)

Module JsStr.

(** The byte length of the white space or line terminator (ECMAScript
    WhiteSpace and LineTerminator, in UTF-8) that [s] begins with; 0 when
    it begins with none. *)
Definition ws_len (s : string) : nat :=
  match s with
  | EmptyString => 0
  | String c r =>
      let n := nat_of_ascii c in
      if (9 <=? n) && (n <=? 13) || (n =? 32) then 1
      else
        match r with
        | String c2 r2 =>
            let n2 := nat_of_ascii c2 in
            if (n =? 194) && (n2 =? 160) then 2
            else
              match r2 with
              | String c3 _ =>
                  let n3 := nat_of_ascii c3 in
                  if (n =? 225) && (n2 =? 154) && (n3 =? 128)
                     || (n =? 226) && (n2 =? 128)
                        && ((128 <=? n3) && (n3 <=? 138)
                            || (n3 =? 168) || (n3 =? 169) || (n3 =? 175))
                     || (n =? 226) && (n2 =? 129) && (n3 =? 159)
                     || (n =? 227) && (n2 =? 128) && (n3 =? 128)
                     || (n =? 239) && (n2 =? 187) && (n3 =? 191)
                  then 3 else 0
              | EmptyString => 0
              end
        | EmptyString => 0
        end
  end.

(** The same for the end of a string, read backwards. *)
Definition ws_len_rev (s : string) : nat :=
  match s with
  | EmptyString => 0
  | String c r =>
      let n3 := nat_of_ascii c in
      if (9 <=? n3) && (n3 <=? 13) || (n3 =? 32) then 1
      else
        match r with
        | String c2 r2 =>
            let n2 := nat_of_ascii c2 in
            if (n2 =? 194) && (n3 =? 160) then 2
            else
              match r2 with
              | String c1 _ =>
                  let n := nat_of_ascii c1 in
                  if (n =? 225) && (n2 =? 154) && (n3 =? 128)
                     || (n =? 226) && (n2 =? 128)
                        && ((128 <=? n3) && (n3 <=? 138)
                            || (n3 =? 168) || (n3 =? 169) || (n3 =? 175))
                     || (n =? 226) && (n2 =? 129) && (n3 =? 159)
                     || (n =? 227) && (n2 =? 128) && (n3 =? 128)
                     || (n =? 239) && (n2 =? 187) && (n3 =? 191)
                  then 3 else 0
              | EmptyString => 0
              end
        | EmptyString => 0
        end
  end.

(** Drop characters from the front while [len] finds one; [skip] counts
    the bytes of the current character still to drop. *)
Fixpoint drop_while (len : string -> nat) (skip : nat) (s : string)
    {struct s} : string :=
  match s with
  | EmptyString => EmptyString
  | String _ r =>
      match skip with
      | S k => drop_while len k r
      | 0 => match len s with
             | 0 => s
             | S k => drop_while len k r
             end
      end
  end.

Definition trimStart (s : string) : string := drop_while ws_len 0 s.

Definition trimEnd (s : string) : string :=
  String.rev (drop_while ws_len_rev 0 (String.rev s)).

(** [s.trim()] *)
Definition trim (s : string) : string := trimEnd (trimStart s).

(** [s.split(',')] *)
Fixpoint split_comma (s : string) : list string :=
  match s with
  | EmptyString => [EmptyString]
  | String c r =>
      if decide (c = ","%char) then EmptyString :: split_comma r
      else match split_comma r with
           | piece :: pieces => String c piece :: pieces
           | [] => [String c EmptyString]
           end
  end.

(** [l.join(sep)] *)
Fixpoint join (sep : string) (l : list string) : string :=
  match l with
  | [] => EmptyString
  | [x] => x
  | x :: rest => x +:+ sep +:+ join sep rest
  end.

Definition is_digit (c : ascii) : bool :=
  let n := nat_of_ascii c in (48 <=? n) && (n <=? 57).

(** [/^\d{4}-\d{2}-\d{2}$/.test(s)] *)
Definition date_format (s : string) : bool :=
  match s with
  | String y1 (String y2 (String y3 (String y4 (String d1
      (String m1 (String m2 (String d2 (String a1 (String a2
        EmptyString))))))))) =>
      is_digit y1 && is_digit y2 && is_digit y3 && is_digit y4
      && bool_decide (d1 = "-"%char)
      && is_digit m1 && is_digit m2
      && bool_decide (d2 = "-"%char)
      && is_digit a1 && is_digit a2
  | _ => false
  end.

End JsStr.

(** ** utils/config.js: the issue templates *)

Module Templates.

(** A template object; a field is [None] when the property is missing. *)
Record Template := mkTemplate {
  tpl_id : option string;
  tpl_name : option string;
  issueType : option string;
  summary : option string;
  description : option string;
  labels : option (list string);
  priority : option string;
  project : option string;
  assignee : option string;
  dueDate : option string
}.

Definition getDefaultTemplates : list Template :=
  [ mkTemplate (Some "bug-report") (Some "Bug Report") (Some "Bug")
      (Some "Bug: [Brief description]")
      (Some "**Bug Description:**
[Describe the bug clearly and concisely]

**Steps to Reproduce:**
1. [First step]
2. [Second step]
3. [Third step]

**Expected Behavior:**
[What you expected to happen]

**Actual Behavior:**
[What actually happened]

**Environment:**
- Browser: [e.g., Chrome 91.0]
- OS: [e.g., Windows 10]
- Version: [e.g., 1.0.0]

**Additional Information:**
[Any additional information, screenshots, or logs]")
      (Some ["bug"]) (Some "Medium") None None None;
    mkTemplate (Some "feature-request") (Some "Feature Request") (Some "Story")
      (Some "Feature: [Brief description]")
      (Some "**Feature Description:**
[Describe the feature you'd like to see]

**Use Case:**
[Explain why this feature would be useful]

**Acceptance Criteria:**
- [ ] [Criterion 1]
- [ ] [Criterion 2]
- [ ] [Criterion 3]

**Additional Notes:**
[Any additional information or context]")
      (Some ["feature"; "enhancement"]) (Some "Low") None None None;
    mkTemplate (Some "task") (Some "General Task") (Some "Task")
      (Some "Task: [Brief description]")
      (Some "**Task Description:**
[Describe what needs to be done]

**Requirements:**
- [Requirement 1]
- [Requirement 2]
- [Requirement 3]

**Definition of Done:**
- [ ] [Done criterion 1]
- [ ] [Done criterion 2]
- [ ] [Done criterion 3]")
      (Some ["task"]) (Some "Medium") None None None ].

(** [JSON.stringify(_, null, 2)] and [JSON.parse] on config/templates.json.
    The file is taken to hold an array of template objects, the only thing
    the application writes to it, or something [JSON.parse] rejects. *)
Class Json := {
  Text : Type;
  stringify : list Template -> Text;
  parse : Text -> option (list Template)
}.

Section Store.
Context {json : Json}.

Record Disk := mkDisk {
  templates_file : option Text;
  writable : bool
}.

Definition getTemplates (d : Disk) : list Template :=
  match templates_file d with
  | Some data =>
      match parse data with
      | Some templates => templates
      | None => getDefaultTemplates
      end
  | None => getDefaultTemplates
  end.

Definition saveTemplates (templates : list Template) (d : Disk) : bool * Disk :=
  if writable d
  then (true, mkDisk (Some (stringify templates)) (writable d))
  else (false, d).

End Store.

Class Lossless (json : Json) : Prop :=
  parse_stringify : forall ts, parse (stringify ts) = Some ts.

(** A missing or empty property is falsy. *)
Definition present (x : option string) : bool :=
  match x with Some s => Js.truthy s | None => false end.

(** [x || y] *)
Definition or_default (x : option string) (y : string) : string :=
  match x with Some s => Js.or_else s y | None => y end.

(** [templates.find(t => t.id === templateId)] for a string [templateId] *)
Definition find_template (templateId : string) (templates : list Template)
  : option Template :=
  List.find (fun t => bool_decide (tpl_id t = Some templateId)) templates.

End Templates.

(** ** utils/csvUtils.js *)

Module Csv.

Definition requiredHeaders : list string := ["summary"].

Definition optionalHeaders : list string :=
  ["description"; "issueType"; "project"; "assignee";
   "labels"; "dueDate"; "priority"; "components"].

Definition validHeaders : list string := requiredHeaders ++ optionalHeaders.

(** [headers.includes(h)] *)
Definition includes (headers : list string) (h : string) : bool :=
  bool_decide (h ∈ headers).

Record Validation := mkValidation {
  valid : bool;
  errors : list string
}.

Definition missing_header (required : string) : string :=
  "Missing required header: " +:+ required.

Definition invalid_header (header : string) : string :=
  "Invalid header: " +:+ header +:+ ". Valid headers are: "
    +:+ JsStr.join ", " validHeaders.

(** The first loop: one error for each required header that is absent. *)
Fixpoint check_required (headers required : list string) (errors : list string)
  : list string :=
  match required with
  | [] => errors
  | r :: rest =>
      check_required headers rest
        (if includes headers r then errors else errors ++ [missing_header r])
  end.

(** The second loop: one error for each header that is not a valid one. *)
Fixpoint check_valid (headers : list string) (errors : list string)
  : list string :=
  match headers with
  | [] => errors
  | h :: rest =>
      check_valid rest
        (if includes validHeaders h then errors else errors ++ [invalid_header h])
  end.

Definition validateIssueCSVHeaders (headers : list string) : Validation :=
  let errors := check_valid headers (check_required headers requiredHeaders []) in
  mkValidation (bool_decide (length errors = 0)) errors.

(** A parsed CSV row: its cells in the order of [Object.keys]. *)
Definition Row := list (string * string).

(** [processedRow.data]; a field is [None] while the property is unset. *)
Record Data := mkData {
  summary : option string;
  description : option string;
  issueType : option string;
  project : option string;
  assignee : option string;
  labels : option (list string);
  dueDate : option string;
  priority : option string;
  components : option (list string);
  (** the [customfield_...] properties, oldest first *)
  custom : list (string * string)
}.

Definition empty : Data :=
  mkData None None None None None None None None None [].

(** The template defaults of lines 80-87. *)
Definition from_template (t : Templates.Template) : Data :=
  mkData None
    (Some (Templates.or_default (Templates.description t) ""))
    (Some (Templates.or_default (Templates.issueType t) "Task"))
    (Some (Templates.or_default (Templates.project t) ""))
    (Some (Templates.or_default (Templates.assignee t) ""))
    (Some (match Templates.labels t with Some l => l | None => [] end))
    None
    (Some (Templates.or_default (Templates.priority t) "Medium"))
    None [].

Definition set_summary (v : string) (d : Data) : Data :=
  mkData (Some v) (description d) (issueType d) (project d) (assignee d)
    (labels d) (dueDate d) (priority d) (components d) (custom d).
Definition set_description (v : string) (d : Data) : Data :=
  mkData (summary d) (Some v) (issueType d) (project d) (assignee d)
    (labels d) (dueDate d) (priority d) (components d) (custom d).
Definition set_issueType (v : string) (d : Data) : Data :=
  mkData (summary d) (description d) (Some v) (project d) (assignee d)
    (labels d) (dueDate d) (priority d) (components d) (custom d).
Definition set_project (v : string) (d : Data) : Data :=
  mkData (summary d) (description d) (issueType d) (Some v) (assignee d)
    (labels d) (dueDate d) (priority d) (components d) (custom d).
Definition set_assignee (v : string) (d : Data) : Data :=
  mkData (summary d) (description d) (issueType d) (project d) (Some v)
    (labels d) (dueDate d) (priority d) (components d) (custom d).
Definition set_labels (v : list string) (d : Data) : Data :=
  mkData (summary d) (description d) (issueType d) (project d) (assignee d)
    (Some v) (dueDate d) (priority d) (components d) (custom d).
Definition set_dueDate (v : string) (d : Data) : Data :=
  mkData (summary d) (description d) (issueType d) (project d) (assignee d)
    (labels d) (Some v) (priority d) (components d) (custom d).
Definition set_priority (v : string) (d : Data) : Data :=
  mkData (summary d) (description d) (issueType d) (project d) (assignee d)
    (labels d) (dueDate d) (Some v) (components d) (custom d).
Definition set_components (v : list string) (d : Data) : Data :=
  mkData (summary d) (description d) (issueType d) (project d) (assignee d)
    (labels d) (dueDate d) (priority d) (Some v) (custom d).

(** [data[key] = value] on the custom properties *)
Fixpoint assign (key value : string) (props : list (string * string))
  : list (string * string) :=
  match props with
  | [] => [(key, value)]
  | (k, v) :: rest =>
      if decide (k = key) then (k, value) :: rest
      else (k, v) :: assign key value rest
  end.

Definition set_custom (key value : string) (d : Data) : Data :=
  mkData (summary d) (description d) (issueType d) (project d) (assignee d)
    (labels d) (dueDate d) (priority d) (components d)
    (assign key value (custom d)).

(** [value.split(',').map(x => x.trim()).filter(x => x)] *)
Definition split_list (value : string) : list string :=
  List.filter Js.truthy (List.map JsStr.trim (JsStr.split_comma value)).

Definition invalid_date (value : string) : string :=
  "Invalid date format for dueDate: " +:+ value +:+ ". Expected YYYY-MM-DD".

Record ProcessedRow := mkProcessedRow {
  rowNumber : nat;
  data : Data;
  row_errors : list string
}.

(** One turn of [Object.keys(row).forEach]: the cell [key], [cell]. *)
Definition process_cell (key cell : string) (r : ProcessedRow) : ProcessedRow :=
  let value := JsStr.trim cell in
  if negb (Js.truthy value) then r
  else
    let store f := mkProcessedRow (rowNumber r) (f (data r)) (row_errors r) in
    let k := Js.toLowerCase key in
    if decide (k = "summary") then store (set_summary value)
    else if decide (k = "description") then store (set_description value)
    else if decide (k = "issuetype" \/ k = "issue_type")
      then store (set_issueType value)
    else if decide (k = "project") then store (set_project value)
    else if decide (k = "assignee") then store (set_assignee value)
    else if decide (k = "labels") then store (set_labels (split_list value))
    else if decide (k = "duedate" \/ k = "due_date") then
      if JsStr.date_format value then store (set_dueDate value)
      else mkProcessedRow (rowNumber r) (data r)
             (row_errors r ++ [invalid_date value])
    else if decide (k = "priority") then store (set_priority value)
    else if decide (k = "components")
      then store (set_components (split_list value))
    else if Js.startsWith key "customfield_" then store (set_custom key value)
    else r.

Fixpoint process_cells (row : Row) (r : ProcessedRow) : ProcessedRow :=
  match row with
  | [] => r
  | (key, cell) :: rest => process_cells rest (process_cell key cell r)
  end.

(** The body of [csvData.forEach((row, index) => ...)] up to the push. *)
Definition process_row (template : option Templates.Template) (index : nat)
    (row : Row) : ProcessedRow :=
  let start :=
    mkProcessedRow (index + 1)
      (match template with Some t => from_template t | None => empty end) [] in
  let r := process_cells row start in
  if Templates.present (summary (data r)) then r
  else mkProcessedRow (rowNumber r) (data r)
         (row_errors r ++ ["Summary is required"]).

Record RowErrors := mkRowErrors {
  row : nat;
  errors_of_row : list string
}.

Record Processed := mkProcessed {
  processedData : list ProcessedRow;
  rowErrors : list RowErrors;
  all_valid : bool
}.

(** [csvData.forEach] with its two accumulators. *)
Fixpoint process_rows (template : option Templates.Template) (index : nat)
    (csvData : list Row) (processedData : list ProcessedRow)
    (errors : list RowErrors) : list ProcessedRow * list RowErrors :=
  match csvData with
  | [] => (processedData, errors)
  | row :: rest =>
      let r := process_row template index row in
      process_rows template (S index) rest (processedData ++ [r])
        (if 0 <? length (row_errors r)
         then errors ++ [mkRowErrors (rowNumber r) (row_errors r)]
         else errors)
  end.

Definition processIssueCSVData (csvData : list Row)
    (template : option Templates.Template) : Processed :=
  let (processedData, errors) := process_rows template 0 csvData [] [] in
  mkProcessed processedData errors (bool_decide (length errors = 0)).

End Csv.

(** ** Vocabulary of the CSV properties *)

(** The cell names the summary of the row: its column is "summary" in any
    letter case and it is not blank. *)
Definition summary_cell (cell : string * string) : bool :=
  bool_decide (Js.toLowerCase cell.1 = "summary")
  && Js.truthy (JsStr.trim cell.2).

(** The cell is in a due-date column and not blank. *)
Definition due_date_cell (cell : string * string) : bool :=
  (bool_decide (Js.toLowerCase cell.1 = "duedate")
   || bool_decide (Js.toLowerCase cell.1 = "due_date"))
  && Js.truthy (JsStr.trim cell.2).

(** The column names the switch of [processIssueCSVData] knows, lowercased. *)
Definition known_columns : list string :=
  ["summary"; "description"; "issuetype"; "issue_type"; "project"; "assignee";
   "labels"; "duedate"; "due_date"; "priority"; "components"].

(** The cell can influence the processing of its row. *)
Definition relevant_cell (cell : string * string) : bool :=
  Js.truthy (JsStr.trim cell.2)
  && (bool_decide (Js.toLowerCase cell.1 ∈ known_columns)
      || Js.startsWith cell.1 "customfield_").

(** What a processed row contributes to the error list. *)
Definition reported (r : Csv.ProcessedRow) : option Csv.RowErrors :=
  match Csv.row_errors r with
  | [] => None
  | _ :: _ => Some (Csv.mkRowErrors (Csv.rowNumber r) (Csv.row_errors r))
  end.

(** The error a cell causes: a non-blank due date that is malformed. *)
Definition date_error (cell : string * string) : option string :=
  if due_date_cell cell && negb (JsStr.date_format (JsStr.trim cell.2))
  then Some (Csv.invalid_date (JsStr.trim cell.2))
  else None.

(** The labels a row starts with. *)
Definition initial_labels (template : option Templates.Template)
  : option (list string) :=
  match template with
  | Some t => Some (match Templates.labels t with Some l => l | None => [] end)
  | None => None
  end.

(** ** routes/create.js *)

Module Create.

(** The [fields] of the body sent to POST /issue; a field is [None] when
    the property is missing or undefined. *)
Record IssueData := mkIssueData {
  project_key : option string;
  issuetype_name : string;
  summary : option string;
  description : string;
  assignee_name : option string;
  labels : option (list string);
  duedate : option string;
  priority_name : option string;
  components : option (list string)
}.

(** What Jira answers to POST /issue. *)
Record Created := mkCreated {
  key : string;
  id : string;
  self : string
}.

(** [x.length > 0] guarded by [x &&] *)
Definition non_empty (l : option (list string)) : option (list string) :=
  match l with
  | Some (x :: rest) => Some (x :: rest)
  | _ => None
  end.

(** [if (x) ...] on an optional string *)
Definition given (x : option string) : option string :=
  if Templates.present x then x else None.

(** [x || y] where both may be missing *)
Definition or_opt (x y : option string) : option string :=
  if Templates.present x then x else y.

Section Routes.
(** The uploaded file and csv-parser, the templates file, and what the
    Jira server does with POST /issue. *)
Context {Buffer : Type} (parseCSV : Buffer -> Thrown + list Csv.Row).
Context {json : Templates.Json}.
Context (serve_createIssue : IssueData -> Tracker -> Reply Created).

Definition createIssue (issueData : IssueData) : M Created :=
  JiraAPI.makeRequest (serve_createIssue issueData).

(** *** POST /single *)

Record SingleRequest := mkSingleRequest {
  s_project : option string;
  s_issueType : option string;
  s_summary : option string;
  s_description : option string;
  s_assignee : option string;
  s_labels : option (list string);
  s_dueDate : option string;
  s_priority : option string;
  s_components : option (list string)
}.

Inductive Answer :=
| Refused (status : nat) (error : string)
| IssueCreated (message : string) (issue : Created).

Definition single_data (req : SingleRequest) : IssueData :=
  mkIssueData (s_project req)
    (Templates.or_default (s_issueType req) "")
    (s_summary req)
    (Templates.or_default (s_description req) "")
    (given (s_assignee req))
    (non_empty (s_labels req))
    (given (s_dueDate req))
    (given (s_priority req))
    (non_empty (s_components req)).

Definition single (req : SingleRequest) : M Answer :=
  try_catch
    (if negb (Templates.present (s_project req))
        || negb (Templates.present (s_issueType req))
        || negb (Templates.present (s_summary req))
     then ret (Refused 400 "Project, issue type, and summary are required")
     else
       result <- createIssue (single_data req) ;;
       ret (IssueCreated "Issue created successfully" result))
    (fun error =>
       m <- message_of error ;;
       ret (Refused 500 ("Failed to create issue: " +:+ m))).

(** *** POST /from-template *)

Record Overrides := mkOverrides {
  o_project : option string;
  o_issueType : option string;
  o_summary : option string;
  o_description : option string;
  o_assignee : option string;
  o_labels : option (list string);
  o_dueDate : option string;
  o_priority : option string
}.

(** [overrides.labels || template.labels]: an array is truthy. *)
Definition labels_of (o : Overrides) (t : Templates.Template)
  : option (list string) :=
  match o_labels o with
  | Some l => Some l
  | None => Templates.labels t
  end.

Definition template_data (t : Templates.Template) (o : Overrides) : IssueData :=
  mkIssueData
    (or_opt (o_project o) (Templates.project t))
    (match or_opt (o_issueType o) (Templates.issueType t) with
     | Some s => Js.or_else s "Task"
     | None => "Task"
     end)
    (or_opt (o_summary o) (Templates.summary t))
    (match or_opt (o_description o) (Templates.description t) with
     | Some s => Js.or_else s ""
     | None => ""
     end)
    (given (or_opt (o_assignee o) (Templates.assignee t)))
    (non_empty (labels_of o t))
    (given (or_opt (o_dueDate o) (Templates.dueDate t)))
    (given (or_opt (o_priority o) (Templates.priority t)))
    None.

Definition from_template (templateId : option string) (o : Overrides)
    (d : Templates.Disk) : M Answer :=
  try_catch
    (match given templateId with
     | None => ret (Refused 400 "Template ID is required")
     | Some tid =>
         match Templates.find_template tid (Templates.getTemplates d) with
         | None => ret (Refused 404 "Template not found")
         | Some template =>
             result <- createIssue (template_data template o) ;;
             ret (IssueCreated "Issue created from template successfully" result)
         end
     end)
    (fun error =>
       m <- message_of error ;;
       ret (Refused 500 ("Failed to create issue from template: " +:+ m))).

(** *** POST /bulk *)

Record BulkRequest := mkBulkRequest {
  file : option Buffer;
  templateId : option string
}.

Record CreatedRow := mkCreatedRow {
  created_row : nat;
  created_key : string;
  created_id : string;
  created_summary : option string
}.

Inductive FailedRow :=
| RowRejected (row : nat) (errors : list string)
| RowFailed (row : nat) (error : string).

Definition failed_row (f : FailedRow) : nat :=
  match f with RowRejected n _ => n | RowFailed n _ => n end.

Inductive BulkAnswer :=
| BulkRefused (status : nat) (error : string)
| ValidationFailed (errors : list Csv.RowErrors)
| Completed (message : string) (created : list CreatedRow)
    (errors : list FailedRow) (total successful failed : nat).

Definition row_data (d : Csv.Data) : IssueData :=
  mkIssueData (Csv.project d)
    (Templates.or_default (Csv.issueType d) "Task")
    (Csv.summary d)
    (Templates.or_default (Csv.description d) "")
    (given (Csv.assignee d))
    (non_empty (Csv.labels d))
    (given (Csv.dueDate d))
    (given (Csv.priority d))
    (non_empty (Csv.components d)).

(** One turn of the [for (const row of processed.data)] loop. *)
Definition create_row (row : Csv.ProcessedRow)
    (acc : list CreatedRow * list FailedRow)
  : M (list CreatedRow * list FailedRow) :=
  let (results, errors) := acc in
  try_catch
    (if 0 <? length (Csv.row_errors row)
     then ret (results,
               errors ++ [RowRejected (Csv.rowNumber row) (Csv.row_errors row)])
     else
       result <- createIssue (row_data (Csv.data row)) ;;
       ret (results ++ [mkCreatedRow (Csv.rowNumber row) (key result)
                          (id result) (Csv.summary (Csv.data row))],
            errors))
    (fun error =>
       m <- message_of error ;;
       ret (results, errors ++ [RowFailed (Csv.rowNumber row) m])).

Fixpoint create_rows (rows : list Csv.ProcessedRow)
    (acc : list CreatedRow * list FailedRow)
  : M (list CreatedRow * list FailedRow) :=
  match rows with
  | [] => ret acc
  | row :: rest =>
      acc' <- create_row row acc ;;
      create_rows rest acc'
  end.

Definition completed_message (created failed : nat) : string :=
  "Bulk creation completed. " +:+ pretty created +:+ " issues created, "
    +:+ pretty failed +:+ " failed.".

Definition bulk (req : BulkRequest) (d : Templates.Disk) : M BulkAnswer :=
  try_catch
    (match file req with
     | None => ret (BulkRefused 400 "CSV file is required")
     | Some buffer =>
         let lookup :=
           match given (templateId req) with
           | Some tid =>
               match Templates.find_template tid (Templates.getTemplates d) with
               | Some t => inr (Some t)
               | None => inl tt
               end
           | None => inr None
           end in
         match lookup with
         | inl _ => ret (BulkRefused 404 "Template not found")
         | inr template =>
             match parseCSV buffer with
             | inl e => throw e
             | inr csvData =>
                 if length csvData =? 0
                 then ret (BulkRefused 400 "CSV file is empty")
                 else
                   let processed := Csv.processIssueCSVData csvData template in
                   if negb (Csv.all_valid processed)
                   then ret (ValidationFailed (Csv.rowErrors processed))
                   else
                     acc <- create_rows (Csv.processedData processed) ([], []) ;;
                     let (results, errors) := acc in
                     ret (Completed
                            (completed_message (length results) (length errors))
                            results errors
                            (length (Csv.processedData processed))
                            (length results) (length errors))
             end
         end
     end)
    (fun error =>
       m <- message_of error ;;
       ret (BulkRefused 500 ("Failed to process bulk create: " +:+ m))).

(** *** The requests of a bulk creation, row by row *)

(** What POST /issue gave for each of [rows], one after the other. *)
Fixpoint row_requests (rows : list Csv.ProcessedRow) (w : World)
  : list (Res Created) * World :=
  match rows with
  | [] => ([], w)
  | row :: rest =>
      let (r, w1) := createIssue (row_data (Csv.data row)) w in
      let (rs, w2) := row_requests rest w1 in
      (r :: rs, w2)
  end.

End Routes.

(** The line a row has in the report, given what its request gave: under
    [created] the key and id Jira returned, under [errors] the message of
    the Error the request threw. *)
Definition created_entry (x : Csv.ProcessedRow * Res Created)
  : option CreatedRow :=
  match x.2 with
  | Ok c => Some (mkCreatedRow (Csv.rowNumber x.1) (key c) (id c)
                    (Csv.summary (Csv.data x.1)))
  | Throw _ => None
  end.

Definition failed_entry (x : Csv.ProcessedRow * Res Created)
  : option FailedRow :=
  match x.2 with
  | Throw (ErrorObj m) => Some (RowFailed (Csv.rowNumber x.1) m)
  | _ => None
  end.

End Create.

(** ** Stand-ins used in the examples of the create routes *)

Module DemoCreate.

(** csv-parser, with the rows already given. *)
Definition parse (buffer : list Csv.Row) : Thrown + list Csv.Row := inr buffer.

(** The templates file as the list it holds. *)
Definition lists : Templates.Json :=
  {| Templates.Text := list Templates.Template;
     Templates.stringify := fun ts => ts;
     Templates.parse := fun ts => Some ts |}.

(** A server that knows the project PROJ only; like Jira, it reports a
    bad field under [errors], where the client does not look. *)
Definition serve (data : Create.IssueData) (t : Tracker)
  : Reply Create.Created :=
  if decide (Create.project_key data = Some "PROJ")
  then Served (Create.mkCreated "PROJ-7" "10007"
                 "https://jira.example.com/rest/api/2/issue/10007") t
  else Rejected 400 "" "".

Definition no_templates : @Templates.Disk lists :=
  @Templates.mkDisk lists None true.

(** Two rows that pass the validation; Jira will refuse the second. *)
Definition two_rows : list Csv.Row :=
  [ [("summary", "Fix login bug"); ("project", "PROJ")];
    [("summary", "Add dark mode"); ("project", "NOPE")] ].

(** A row without summary. *)
Definition bad_rows : list Csv.Row :=
  [ [("summary", "Fix login bug"); ("project", "PROJ")];
    [("description", "no summary"); ("dueDate", "tomorrow")] ].

Definition upload (rows : list Csv.Row) : @Create.BulkRequest (list Csv.Row) :=
  Create.mkBulkRequest (Some rows) None.

(** A single issue for a project the server does not know. *)
Definition unknown_project : Create.SingleRequest :=
  Create.mkSingleRequest (Some "NOPE") (Some "Bug") (Some "Add dark mode")
    None None None None None None.

End DemoCreate.

(** ** routes/settings.js and the client's [initialize] *)

Module Settings.

(** [s.replace(/\/$/, '')] *)
Fixpoint strip_slash (s : string) : string :=
  match s with
  | EmptyString => EmptyString
  | String c r =>
      match r with
      | EmptyString => if decide (c = "/"%char) then EmptyString else s
      | _ => String c (strip_slash r)
      end
  end.

(** The fields of the JiraAPI object that [initialize] sets. *)
Record Client := mkClient {
  baseURL : option string;
  auth : option (string * string);
  initialized : bool
}.

(** What GET / sends: the token itself is left out. *)
Record SafeSettings := mkSafeSettings {
  jiraUrl : string;
  username : string;
  configured : bool;
  hasApiToken : bool
}.

Inductive Answer :=
| Refused (status : nat) (error : string)
| Saved (message : string).

Record Body := mkBody {
  b_jiraUrl : string;
  b_username : string;
  b_apiToken : string
}.

Section Routes.
Context {cipher : Config.Cipher} {json : Config.Json}.
(** [new URL(jiraUrl)] does not throw *)
Context (valid_url : string -> bool).

(** jiraApi.initialize *)
Definition initialize (d : Config.Disk) (c : Client) : bool * Client :=
  let settings := Config.getSettings d in
  if Js.truthy (Config.jiraUrl settings)
     && Js.truthy (Config.username settings)
     && Js.truthy (Config.apiToken settings)
  then (true,
        mkClient (Some (strip_slash (Config.jiraUrl settings)))
                 (Some (Config.username settings, Config.apiToken settings))
                 true)
  else (false, c).

(** GET / *)
Definition get (d : Config.Disk) : SafeSettings :=
  let settings := Config.getSettings d in
  mkSafeSettings (Config.jiraUrl settings) (Config.username settings)
    (Config.configured settings) (Js.truthy (Config.apiToken settings)).

(** POST / *)
Definition post (body : Body) (salt : Config.Salt) (d : Config.Disk)
    (c : Client) : Answer * Config.Disk * Client :=
  if negb (Js.truthy (b_jiraUrl body)) || negb (Js.truthy (b_username body))
     || negb (Js.truthy (b_apiToken body))
  then (Refused 400 "Jira URL, username, and API token are required", d, c)
  else if negb (valid_url (b_jiraUrl body))
  then (Refused 400 "Invalid Jira URL format", d, c)
  else
    let settings :=
      Config.mkSettings (strip_slash (b_jiraUrl body)) (b_username body)
        (b_apiToken body) true in
    let (saved, d') := Config.saveSettings settings salt d in
    if negb saved then (Refused 500 "Failed to save settings", d', c)
    else (Saved "Settings saved successfully", d',
          mkClient (baseURL c) (auth c) false).

End Routes.

(** *** GET /templates and POST /templates *)

Section TemplateRoutes.
Context {json : Templates.Json}.

Definition get_templates (d : Templates.Disk) : list Templates.Template :=
  Templates.getTemplates d.

(** The first template without an id or a name stops the loop. *)
Definition well_formed (t : Templates.Template) : bool :=
  Templates.present (Templates.tpl_id t)
  && Templates.present (Templates.tpl_name t).

(** [templates] is [None] when the body holds no array. *)
Definition post_templates (templates : option (list Templates.Template))
    (d : Templates.Disk) : Answer * Templates.Disk :=
  match templates with
  | None => (Refused 400 "Templates must be an array", d)
  | Some ts =>
      if negb (forallb well_formed ts)
      then (Refused 400 "Each template must have an id and name", d)
      else
        let (saved, d') := Templates.saveTemplates ts d in
        if negb saved then (Refused 500 "Failed to save templates", d')
        else (Saved "Templates saved successfully", d')
  end.

(** Several POST /templates requests, one after the other. *)
Fixpoint post_all (bodies : list (option (list Templates.Template)))
    (d : Templates.Disk) : Templates.Disk :=
  match bodies with
  | [] => d
  | body :: rest => post_all rest (post_templates body d).2
  end.

End TemplateRoutes.

End Settings.

(** ** routes/search.js, POST /issue/:issueKey/comment *)

Module Search.

Inductive Answer :=
| Refused (status : nat) (error : string)
| CommentAdded (message : string) (comment : Comment).

(** [comment] is [None] when the body has no such property. *)
Definition add_comment (issueKey : string) (comment : option string)
  : M Answer :=
  try_catch
    (match comment with
     | Some text =>
         if negb (Js.truthy text) || bool_decide (JsStr.trim text = "")
         then ret (Refused 400 "Comment text is required")
         else
           result <- JiraAPI.addComment issueKey text ;;
           ret (CommentAdded "Comment added successfully" result)
     | None => ret (Refused 400 "Comment text is required")
     end)
    (fun error =>
       m <- message_of error ;;
       ret (Refused 500 ("Failed to add comment: " +:+ m))).

End Search.

(** ** Stand-ins used in the examples of the settings routes *)

Module DemoSettings.

(** A URL check that asks for a scheme. *)
Definition valid_url (u : string) : bool := Js.includes u "://".

Definition body : Settings.Body :=
  Settings.mkBody "https://jira.example.com/" "alice" "s3cret".

Definition client : Settings.Client := Settings.mkClient None None true.

(** A template without a name. *)
Definition nameless : Templates.Template :=
  Templates.mkTemplate (Some "x") None None None None None None None None None.

End DemoSettings.

(** * Properties *)

(** ** Strings *)

Section StringFacts.

Lemma append_nil_l (s : string) : "" +:+ s = s.
Proof. reflexivity. Qed.

Lemma append_cons (a : ascii) (s1 s2 : string) :
  String a s1 +:+ s2 = String a (s1 +:+ s2).
Proof. reflexivity. Qed.

Lemma append_assoc (s1 s2 s3 : string) : (s1 +:+ s2) +:+ s3 = s1 +:+ s2 +:+ s3.
Proof.
  induction s1 as [|a s1 IH]; [reflexivity|].
  rewrite !append_cons. by rewrite IH.
Qed.

Lemma startsWith_spec (s p : string) :
  Js.startsWith s p = true <-> exists r, s = p +:+ r.
Proof.
  revert s. induction p as [|a p IH]; intros s; simpl.
  - split; [intros _; by exists s | reflexivity].
  - destruct s as [|b s].
    + split; [done | intros [r Hr]; by rewrite append_cons in Hr].
    + destruct (decide (a = b)) as [->|Hne].
      * rewrite IH. split; intros [r Hr]; exists r.
        -- rewrite append_cons. by f_equal.
        -- rewrite append_cons in Hr. by injection Hr.
      * split; [done | intros [r Hr]].
        rewrite append_cons in Hr. injection Hr as Hab _. by destruct Hne.
Qed.

Lemma startsWith_append (p r : string) : Js.startsWith (p +:+ r) p = true.
Proof. apply startsWith_spec. by exists r. Qed.

Lemma includes_spec (s k : string) :
  Js.includes s k = true <-> occurs_in k s.
Proof.
  induction s as [|c s IH].
  - simpl. rewrite orb_false_r, startsWith_spec. split.
    + intros [r Hr]. by exists "", r.
    + intros ([|b before] & after & H).
      * by exists after.
      * by rewrite append_cons in H.
  - cbn [Js.includes]. rewrite orb_true_iff, IH, startsWith_spec. split.
    + intros [[r Hr] | (before & after & H)].
      * by exists "", r.
      * exists (String c before), after. rewrite append_cons. by f_equal.
    + intros ([|b before] & after & H).
      * left. by exists after.
      * right. rewrite append_cons in H. injection H as _ H.
        by exists before, after.
Qed.

Lemma some_keyword_spec (lname : string) (kws : list string) :
  some_keyword lname kws = true <-> exists kw, kw ∈ kws /\ occurs_in kw lname.
Proof.
  induction kws as [|kw kws IH]; simpl.
  - split; [done | intros (kw & Hin & _); by apply elem_of_nil in Hin].
  - destruct (Js.includes lname kw) eqn:E.
    + split; [intros _ | done]. exists kw. split; [left | by apply includes_spec].
    + rewrite IH. split.
      * intros (k & Hin & Hk). exists k. split; [by right | done].
      * intros (k & Hin & Hk). apply elem_of_cons in Hin as [-> | Hin].
        -- apply includes_spec in Hk. congruence.
        -- by exists k.
Qed.

End StringFacts.

(** ** C1: classification of the returned string *)

(** C1. A string returned by [verify] is a pass exactly when it is "ok" or
    "OK"; any other string is a failure whose reason is that very string,
    and the handler takes the success branch in the first case and the
    failure branch, which writes the string into the comment, in the
    second. *)
Theorem C1_exact_match_classification (s : string) :
  (isSuccess (VStr s) = true <-> (s = "ok" \/ s = "OK")) /\
  (classify (VStr s) = Pass s <-> (s = "ok" \/ s = "OK")) /\
  (classify (VStr s) = Fail s <-> ~ (s = "ok" \/ s = "OK")) /\
  (forall key prefix,
     Verify.resolve key prefix (VStr s) =
       if decide (s = "ok" \/ s = "OK")
       then try_catch (Verify.pass_body key prefix (VStr s))
              (fun error => m <- message_of error ;;
                            ret (Verify.verified_no_update (VStr s) m))
       else try_catch (Verify.fail_body key prefix (VStr s))
              (fun error => m <- message_of error ;;
                            ret (Verify.update_failed (VStr s) m))) /\
  classify (VStr "ok") = Pass "ok" /\
  classify (VStr "OK") = Pass "OK" /\
  classify (VStr "Ok") = Fail "Ok" /\
  classify (VStr "success") = Fail "success" /\
  classify (VStr "") = Fail "" /\
  classify (VStr "ok ") = Fail "ok ".
Proof.
  assert (Hs : isSuccess (VStr s) = true <-> (s = "ok" \/ s = "OK")).
  { simpl. rewrite orb_true_iff, !bool_decide_eq_true. tauto. }
  unfold Verify.resolve, classify.
  destruct (decide (s = "ok" \/ s = "OK")) as [H|H].
  - rewrite (proj2 Hs H). simpl render.
    split_and!; try reflexivity; try (intros; reflexivity);
      try (split; [intros _; exact H | reflexivity]).
    split; [discriminate | intros Hn; by destruct Hn].
  - assert (E : isSuccess (VStr s) = false).
    { destruct (isSuccess (VStr s)); [|reflexivity]. exfalso. tauto. }
    rewrite E. simpl render.
    split_and!; try reflexivity; try (intros; reflexivity).
    + split; [discriminate | tauto].
    + split; [discriminate | tauto].
    + split; [intros _; exact H | reflexivity].
Qed.

(** ** C4: the close heuristic *)

(** *** Lowercasing and reading case-insensitively *)

Lemma toLowerCase_app (a b : string) :
  Js.toLowerCase (a +:+ b) = Js.toLowerCase a +:+ Js.toLowerCase b.
Proof.
  induction a as [|c a IH]; [reflexivity|].
  rewrite append_cons. simpl. by rewrite IH, append_cons.
Qed.

(** A split of the lowercased text is the lowercased split of the text. *)
Lemma toLowerCase_split (n b' r' : string) :
  Js.toLowerCase n = b' +:+ r' ->
  exists b r, n = b +:+ r /\ Js.toLowerCase b = b' /\ Js.toLowerCase r = r'.
Proof.
  revert n. induction b' as [|c b' IH]; intros n H.
  - exists "", n. by rewrite !append_nil_l in *.
  - destruct n as [|a n]; [by rewrite append_cons in H|].
    rewrite append_cons in H. simpl in H. injection H as Hc H.
    destruct (IH n H) as (b & r & -> & Hb & Hr).
    exists (String a b), r. rewrite append_cons. simpl. by rewrite Hc, Hb.
Qed.

Lemma same_letter_lower (c : ascii) : same_letter c (Js.lower_char c).
Proof.
  destruct c as [[] [] [] [] [] [] [] []];
    apply (bool_decide_unpack _); vm_compute; exact I.
Qed.

Lemma lower_of_same_letter (c k : ascii) :
  same_letter c k -> no_capital k = true -> Js.lower_char c = k.
Proof.
  intros [-> | [H | H]] Hk.
  - unfold Js.lower_char. unfold no_capital in Hk.
    by destruct ((65 <=? nat_of_ascii k) && (nat_of_ascii k <=? 90)).
  - unfold letter_cases in H.
    repeat (apply elem_of_cons in H as [H | H];
            [injection H as -> ->; discriminate Hk|]).
    by apply elem_of_nil in H.
  - unfold letter_cases in H.
    repeat (apply elem_of_cons in H as [H | H];
            [injection H as -> ->; reflexivity|]).
    by apply elem_of_nil in H.
Qed.

Lemma same_text_lower (s : string) : same_text s (Js.toLowerCase s).
Proof.
  induction s as [|c s IH]; simpl; [done|].
  split; [apply same_letter_lower | done].
Qed.

Lemma lower_of_same_text (s k : string) :
  no_capitals k = true -> same_text s k -> Js.toLowerCase s = k.
Proof.
  revert k. induction s as [|a s IH]; intros [|b k]; simpl; try done.
  rewrite andb_true_iff. intros [Hb Hk] [Hab Hs].
  by rewrite (lower_of_same_letter a b Hab Hb), (IH k Hk Hs).
Qed.

(** For a keyword without capitals, occurring in the lowercased name is
    occurring in the name, case-insensitively. *)
Lemma occurs_lowercased (n kw : string) :
  no_capitals kw = true ->
  occurs_in kw (Js.toLowerCase n) <-> contains_ignoring_case n kw.
Proof.
  intros Hkw. split.
  - intros (before' & after' & H).
    apply toLowerCase_split in H as (before & rest & -> & _ & H).
    apply toLowerCase_split in H as (part & after & -> & Hp & _).
    exists before, part, after. split; [done|].
    rewrite <- Hp. apply same_text_lower.
  - intros (before & part & after & -> & Hp).
    exists (Js.toLowerCase before), (Js.toLowerCase after).
    by rewrite !toLowerCase_app, (lower_of_same_text _ _ Hkw Hp).
Qed.

(** The test of the code decides the wording of the specification. *)
Lemma close_capable_spec (t : Transition) :
  close_capable t = true <-> names_close t.
Proof.
  unfold close_capable, names_close. rewrite some_keyword_spec.
  assert (Hkw : forall kw, kw ∈ closeKeywords -> no_capitals kw = true).
  { intros kw H. unfold closeKeywords in H.
    repeat (apply elem_of_cons in H as [-> | H]; [reflexivity|]).
    by apply elem_of_nil in H. }
  split; intros (kw & Hin & H); exists kw; (split; [exact Hin|]);
    by apply (occurs_lowercased _ _ (Hkw kw Hin)).
Qed.

Lemma find_close_first (ts : list Transition) :
  first_close_capable ts (find_close ts).
Proof.
  induction ts as [|t ts IH]; simpl.
  - constructor.
  - destruct (close_capable t) eqn:E.
    + exists [], ts. split_and!; [done | by apply close_capable_spec | constructor].
    + assert (Ht : ~ names_close t).
      { rewrite <- close_capable_spec. congruence. }
      destruct (find_close ts) as [t'|]; simpl in *.
      * destruct IH as (before & after & -> & Hc & Hb).
        exists (t :: before), after. split_and!; [done | done | by constructor].
      * by constructor.
Qed.

(** The first close-capable transition of a list is determined by the
    list. *)
Lemma first_close_capable_unique (ts : list Transition)
    (r1 r2 : option Transition) :
  first_close_capable ts r1 -> first_close_capable ts r2 -> r1 = r2.
Proof.
  assert (Hsame : forall b1 b2 (t1 t2 : Transition) a1 a2,
            b1 ++ t1 :: a1 = b2 ++ t2 :: a2 ->
            names_close t1 -> names_close t2 ->
            Forall (fun x => ~ names_close x) b1 ->
            Forall (fun x => ~ names_close x) b2 -> t1 = t2).
  { induction b1 as [|x b1 IH]; intros [|y b2] t1 t2 a1 a2 E H1 H2 F1 F2;
      simpl in E; injection E as E1 E2.
    - done.
    - subst y. by destruct (Forall_inv F2).
    - subst x. by destruct (Forall_inv F1).
    - apply (IH b2 t1 t2 a1 a2 E2 H1 H2);
        [exact (Forall_inv_tail F1) | exact (Forall_inv_tail F2)]. }
  destruct r1 as [t1|], r2 as [t2|]; simpl.
  - intros (b1 & a1 & -> & H1 & F1) (b2 & a2 & E & H2 & F2).
    f_equal. by eapply Hsame.
  - intros (b1 & a1 & -> & H1 & _) F.
    apply Forall_app in F as [_ F]. by destruct (Forall_inv F).
  - intros F (b2 & a2 & -> & H2 & _).
    apply Forall_app in F as [_ F]. by destruct (Forall_inv F).
  - done.
Qed.

Lemma findCloseTransition_run (key : string) (w w' : World)
    (ts : list Transition) :
  JiraAPI.getTransitions key w = (Ok ts, w') ->
  JiraAPI.findCloseTransition key w = (Ok (find_close ts), w').
Proof. intros H. unfold JiraAPI.findCloseTransition, bind. by rewrite H. Qed.

(** C4. Whatever ordered list of transitions the tracker returns for an
    issue, [findCloseTransition] returns the first one, in that order,
    whose name contains, case-insensitively, one of close, resolve, done,
    complete, finish, and [null] when no name contains any of them. *)
Theorem C4_first_close_transition (key : string) (w w' : World)
    (ts : list Transition) :
  JiraAPI.getTransitions key w = (Ok ts, w') ->
  exists r,
    JiraAPI.findCloseTransition key w = (Ok r, w') /\
    first_close_capable ts r.
Proof.
  intros H. exists (find_close ts).
  split; [by apply findCloseTransition_run | apply find_close_first].
Qed.

(** "Close Issue" has the keyword close in it, "Start Progress" has none
    of the five. *)
Lemma close_issue_names_close : names_close Demo.close_issue.
Proof.
  exists "close". split; [by left|].
  exists "", "Close", " Issue". split; [reflexivity|].
  simpl. split_and!; try exact I;
    apply (bool_decide_unpack _); vm_compute; exact I.
Qed.

Lemma start_progress_does_not : ~ names_close Demo.start_progress.
Proof. rewrite <- close_capable_spec. discriminate. Qed.

(** With the transitions Start Progress, Close Issue, Done, in this order,
    the selection is Close Issue. *)
Lemma C4_witness :
  JiraAPI.findCloseTransition Demo.key (Demo.world_of Demo.closable []) =
    (Ok (Some Demo.close_issue),
     set_initialized true (Demo.world_of Demo.closable [])) /\
  first_close_capable [Demo.start_progress; Demo.close_issue; Demo.mark_done]
    (Some Demo.close_issue).
Proof.
  destruct (C4_first_close_transition Demo.key
              (Demo.world_of Demo.closable [])
              (set_initialized true (Demo.world_of Demo.closable []))
              [Demo.start_progress; Demo.close_issue; Demo.mark_done]
              eq_refl) as (r & Hr & Hfirst).
  assert (Hclose : first_close_capable
                     [Demo.start_progress; Demo.close_issue; Demo.mark_done]
                     (Some Demo.close_issue)).
  { exists [Demo.start_progress], [Demo.mark_done].
    split_and!; [reflexivity | exact close_issue_names_close |].
    constructor; [exact start_progress_does_not | constructor]. }
  rewrite (first_close_capable_unique _ _ _ Hfirst Hclose) in Hr.
  split; [exact Hr | exact Hclose].
Defined.

Example lowercased_name : Js.toLowerCase "Close Issue" = "close issue".
Proof. reflexivity. Qed.

Example close_issue_selected :
  find_close [Demo.start_progress; Demo.close_issue; Demo.mark_done]
  = Some Demo.close_issue.
Proof. reflexivity. Qed.

Example nothing_to_select : find_close [Demo.start_progress; Demo.reopen] = None.
Proof. reflexivity. Qed.

(** ** The Jira client *)

Section Client.
Context {A : Type} (serve : Tracker -> Reply A).

Lemma makeRequest_ok (w : World) (a : A) (t : Tracker) :
  ready w -> transport_ok 1 (faults w) ->
  serve (tracker w) = Served a t ->
  JiraAPI.makeRequest serve w = (Ok a, answered t w).
Proof.
  intros Hr Hf Hs. destruct w as [tr f ini cfg inv]; simpl in *.
  unfold JiraAPI.makeRequest, bind, JiraAPI.ensure_initialized, JiraAPI.send.
  destruct Hr as [Hr|Hr]; simpl in Hr; subst.
  - simpl. destruct f as [|[m|] f]; simpl in *; [|done|]; by rewrite Hs.
  - destruct ini; simpl; destruct f as [|[m|] f]; simpl in *;
      try done; by rewrite Hs.
Qed.

(** Whatever happens, a request throws only Errors, changes the tracker
    only as the server answered, and calls no script. *)
Lemma makeRequest_inv (w w' : World) (r : Res A) :
  JiraAPI.makeRequest serve w = (r, w') ->
  invocations w' = invocations w /\
  match r with
  | Ok a => serve (tracker w) = Served a (tracker w')
  | Throw e => (exists m, e = ErrorObj m) /\ tracker w' = tracker w
  end.
Proof.
  destruct w as [tr f ini cfg inv].
  unfold JiraAPI.makeRequest, bind, JiraAPI.ensure_initialized, JiraAPI.send,
    JiraAPI.wrap.
  simpl. intros H.
  destruct ini, cfg; simpl in H;
    destruct f as [|[m|] f]; simpl in H;
    try destruct (serve tr) as [m'|a t] eqn:E; simpl in H;
    simplify_eq; simpl; eauto.
Qed.

(** What a request throws is an Error with a message that is not empty. *)
Lemma makeRequest_throws_message (w w' : World) (e : Thrown) :
  JiraAPI.makeRequest serve w = (Throw e, w') ->
  exists m, e = ErrorObj m /\ m <> "".
Proof.
  assert (Hw : forall a b c,
            Js.or_else a (Js.or_else b (Js.or_else c "Jira API request failed"))
            <> "").
  { intros [|] [|] [|]; done. }
  assert (Hsend : forall w0, JiraAPI.send serve w0 = (Throw e, w') ->
                             exists m, e = ErrorObj m /\ m <> "").
  { intros w0. unfold JiraAPI.send, JiraAPI.wrap.
    destruct (head (faults w0)) as [[m|]|];
      [| destruct (serve (tracker w0)) as [st em dm|a t]
       | destruct (serve (tracker w0)) as [st em dm|a t]];
      intros ?; simplify_eq; eauto. }
  unfold JiraAPI.makeRequest, bind, JiraAPI.ensure_initialized.
  destruct (initialized w); [apply Hsend|].
  destruct (has_settings w); [apply Hsend|].
  intros ?; simplify_eq. by eexists.
Qed.

End Client.

(** ** The resolution (POST /run, lines 83-157) *)

Lemma pass_body_inv (key prefix : string) (v : JsVal) (w w' : World)
    (r : Res Response) :
  Verify.pass_body key prefix v w = (r, w') ->
  invocations w' = invocations w /\
  match r with
  | Ok resp => (exists t, resp = Verify.closed v t) \/ resp = Verify.commented_pass v
  | Throw e => exists m, e = ErrorObj m
  end.
Proof.
  unfold Verify.pass_body, JiraAPI.findCloseTransition, bind, ret.
  destruct (JiraAPI.getTransitions key w) as [[ts|e] w1] eqn:E1;
    apply makeRequest_inv in E1 as [Hi1 H1].
  - destruct (find_close ts) as [t|].
    + destruct (JiraAPI.transitionIssue _ _ _ w1) as [[[]|e] w2] eqn:E2;
        apply makeRequest_inv in E2 as [Hi2 H2]; intros ?; simplify_eq.
      * split; [congruence | eauto].
      * split; [congruence | tauto].
    + destruct (JiraAPI.addComment _ _ w1) as [[c|e] w2] eqn:E2;
        apply makeRequest_inv in E2 as [Hi2 H2]; intros ?; simplify_eq.
      * split; [congruence | eauto].
      * split; [congruence | tauto].
  - intros ?; simplify_eq. tauto.
Qed.

Lemma fail_body_inv (key prefix : string) (v : JsVal) (w w' : World)
    (r : Res Response) :
  Verify.fail_body key prefix v w = (r, w') ->
  invocations w' = invocations w /\
  match r with
  | Ok resp =>
      resp = Verify.commented_fail v /\
      exists i,
        issues (tracker w) !! key = Some i /\
        issues (tracker w') =
          <[key := with_comments i
                     (reconcile prefix (prefix +:+ " " +:+ render v) (comments i))]>
            (issues (tracker w)) /\
        length (journal (tracker w')) = S (length (journal (tracker w)))
  | Throw e => exists m, e = ErrorObj m
  end.
Proof.
  unfold Verify.fail_body, bind, ret.
  destruct (JiraAPI.getComments key w) as [[cs|e] w1] eqn:E1;
    apply makeRequest_inv in E1 as [Hi1 H1]; [|intros; simplify_eq; tauto].
  unfold serve_getComments in H1.
  destruct (issues (tracker w) !! key) as [i|] eqn:Ei; [|done].
  injection H1 as <- Ht.
  unfold reconcile. cbv beta zeta.
  destruct (List.find (Verify.tagged prefix) (comments i)) as [c|] eqn:Ef.
  - destruct (JiraAPI.updateComment _ _ _ w1) as [[c'|e] w2] eqn:E2;
      apply makeRequest_inv in E2 as [Hi2 H2]; intros ?; simplify_eq;
      (split; [congruence|]); [|tauto].
    split; [done|]. exists i. split; [done|]. rewrite Ef.
    unfold serve_updateComment in H2. rewrite <- Ht, Ei in H2.
    destruct (existsb _ _); [|done].
    injection H2 as _ <-. simpl. by rewrite length_app, Nat.add_1_r.
  - destruct (JiraAPI.addComment _ _ w1) as [[c'|e] w2] eqn:E2;
      apply makeRequest_inv in E2 as [Hi2 H2]; intros ?; simplify_eq;
      (split; [congruence|]); [|tauto].
    split; [done|]. exists i. split; [done|]. rewrite Ef.
    unfold serve_addComment in H2. rewrite <- Ht, Ei in H2.
    injection H2 as _ <-. simpl. by rewrite length_app, Nat.add_1_r.
Qed.

(** The resolution never throws and never calls a script; it answers with
    one of the results of its branch. *)
Lemma resolve_total (key prefix : string) (v : JsVal) (w : World) :
  exists resp w',
    Verify.resolve key prefix v w = (Ok resp, w') /\
    invocations w' = invocations w /\
    if isSuccess v
    then (exists t, resp = Verify.closed v t) \/
         resp = Verify.commented_pass v \/
         (exists m, resp = Verify.verified_no_update v m)
    else resp = Verify.commented_fail v \/
         (exists m, resp = Verify.update_failed v m).
Proof.
  unfold Verify.resolve, try_catch.
  destruct (isSuccess v).
  - destruct (Verify.pass_body key prefix v w) as [[resp|e] w1] eqn:E;
      apply pass_body_inv in E as [Hi H].
    + exists resp, w1. split_and!; [done | done | tauto].
    + destruct H as [m ->]. eexists _, w1. split_and!; [done | done | eauto].
  - destruct (Verify.fail_body key prefix v w) as [[resp|e] w1] eqn:E;
      apply fail_body_inv in E as [Hi H].
    + destruct H as [-> _]. exists (Verify.commented_fail v), w1.
      split_and!; [done | done | tauto].
    + destruct H as [m ->]. eexists _, w1. split_and!; [done | done | eauto].
Qed.

Lemma resolve_resolved (key prefix : string) (v : JsVal) (w w' : World)
    (resp : Response) :
  Verify.resolve key prefix v w = (Ok resp, w') -> resolved v resp.
Proof.
  intros H.
  destruct (resolve_total key prefix v w) as (resp' & w'' & H' & _ & Hb).
  rewrite H in H'. simplify_eq.
  destruct (isSuccess v).
  - destruct Hb as [[t ->] | [-> | [m ->]]]; constructor.
  - destruct Hb as [-> | [m ->]]; constructor.
Qed.

(** Sending the answer of a resolution fails exactly when the
    verification result cannot be serialised. *)
Lemma res_json_resolved (v : JsVal) (resp : Response) (w : World) :
  resolved v resp ->
  Verify.res_json resp w =
    match json_error v with
    | Some m => (Throw (ErrorObj m), w)
    | None => (Ok resp, w)
    end.
Proof.
  intros H. unfold Verify.res_json, throw, ret.
  destruct H; simpl; by destruct (json_error v).
Qed.

(** ** Running the script (POST /run, lines 66-81) *)

Section RunScript.
Context (dir : ScriptDir) (req : Verify.Request) (script : Script).
Hypothesis loads :
  require dir (Verify.scriptId req +:+ ".js") = Exports script.

Lemma run_script_returns f v (w : World) :
  verify script = Some f ->
  f (Verify.issueKey req) (Verify.parameters req) = Returns v ->
  Verify.run_script dir req w =
    (Ok v, log_invocation (Verify.scriptId req) (Verify.issueKey req) w).
Proof.
  intros Hf Hv. unfold Verify.run_script, try_catch, Verify.call_verify.
  by rewrite loads, Hf, Hv.
Qed.

Lemma run_script_raises f e m (w : World) :
  verify script = Some f ->
  f (Verify.issueKey req) (Verify.parameters req) = Raises e ->
  message_text e = Some m ->
  Verify.run_script dir req w =
    (Ok (VStr ("Script error: " +:+ m)),
     log_invocation (Verify.scriptId req) (Verify.issueKey req) w).
Proof.
  intros Hf Hv Hm. unfold Verify.run_script, try_catch, Verify.call_verify.
  rewrite loads, Hf, Hv.
  destruct e; simpl in Hm; simplify_eq; reflexivity.
Qed.

Lemma run_script_no_verify (w : World) :
  verify script = None ->
  Verify.run_script dir req w =
    (Ok (VStr "Script error: Script does not export a verify function"), w).
Proof.
  intros Hf. unfold Verify.run_script, try_catch. by rewrite loads, Hf.
Qed.

End RunScript.

Lemma script_error_is_failure (m : string) :
  isSuccess (VStr ("Script error: " +:+ m)) = false.
Proof. reflexivity. Qed.

(** Once the issue was fetched and the script file is there, the request
    is answered by the resolution of what the script produced. *)
Lemma run_resolves (dir : ScriptDir) (req : Verify.Request) (w w1 w2 : World)
    (i : Issue) (v : JsVal) :
  Js.truthy (Verify.issueKey req) = true ->
  Js.truthy (Verify.scriptId req) = true ->
  JiraAPI.getIssue (Verify.issueKey req) w = (Ok i, w1) ->
  access dir (Verify.scriptId req +:+ ".js") = true ->
  Verify.run_script dir req w1 = (Ok v, w2) ->
  json_error v = None ->
  Verify.run dir req w =
    Verify.resolve (Verify.issueKey req) (Verify.prefix_of req) v w2.
Proof.
  intros Hk Hs Hi Ha Hv Hj.
  destruct (resolve_total (Verify.issueKey req) (Verify.prefix_of req) v w2)
    as (resp & w' & Hr & _).
  unfold Verify.run, try_catch, bind, ret.
  rewrite Hk, Hs. simpl. rewrite Hi, Ha. simpl. rewrite Hv, Hr.
  by rewrite (res_json_resolved v resp w' (resolve_resolved _ _ _ _ _ _ Hr)), Hj.
Qed.

(** Fetching the issue leaves the tracker alone. *)
Lemma getIssue_inv (key : string) (w w' : World) (r : Res Issue) :
  JiraAPI.getIssue key w = (r, w') ->
  tracker w' = tracker w /\
  invocations w' = invocations w /\
  match r with
  | Ok i => issues (tracker w) !! key = Some i
  | Throw e => exists m, e = ErrorObj m
  end.
Proof.
  intros H. apply makeRequest_inv in H as [Hi H].
  unfold serve_getIssue in H.
  destruct r as [i|e].
  - destruct (issues (tracker w) !! key) as [i0|]; [|done].
    injection H as -> Ht. by rewrite <- Ht.
  - tauto.
Qed.

Lemma run_script_throws (dir : ScriptDir) (req : Verify.Request)
    (w w' : World) (e : Thrown) :
  Verify.run_script dir req w = (Throw e, w') -> exists m, e = ErrorObj m.
Proof.
  unfold Verify.run_script, try_catch, Verify.call_verify, bind, message_of,
    ret, throw.
  intros H. repeat case_match; simplify_eq; eauto.
Qed.

(** No request makes the handler itself throw: every path ends in a
    response. *)
Lemma run_never_throws (dir : ScriptDir) (req : Verify.Request) (w : World) :
  exists resp w', Verify.run dir req w = (Ok resp, w').
Proof.
  unfold Verify.run, try_catch, bind, ret.
  destruct (negb _ || negb _); [by eexists _, _|].
  destruct (JiraAPI.getIssue (Verify.issueKey req) w) as [[i|e] w1] eqn:E1;
    apply getIssue_inv in E1 as (_ & _ & H1).
  2:{ destruct H1 as [m ->]. by eexists _, _. }
  destruct (negb _); [by eexists _, _|].
  destruct (Verify.run_script dir req w1) as [[v|e] w2] eqn:E2.
  - destruct (resolve_total (Verify.issueKey req) (Verify.prefix_of req) v w2)
      as (resp & w3 & Hr & _).
    rewrite Hr.
    rewrite (res_json_resolved v resp w3 (resolve_resolved _ _ _ _ _ _ Hr)).
    destruct (json_error v); by eexists _, _.
  - apply run_script_throws in E2 as [m ->]. by eexists _, _.
Qed.

Lemma require_access (dir : ScriptDir) (file : string) (script : Script) :
  require dir file = Exports script -> access dir file = true.
Proof.
  unfold require, access, cannot_find.
  destruct (Path.has_nul file); [done|]. simpl.
  destruct (lookup_path _ _); [|done].
  intros _. by apply bool_decide_eq_true.
Qed.

(** ** C2: a throwing check *)

(** When the issue was fetched and the check's [verify] throws a value
    whose message reads [m] (an Error with message [m]; any other value
    that is not null or undefined reads as "undefined"), the request is
    answered normally: the outcome is Fail("Script error: " + m), and the
    response is the result of the failure branch, CommentedFail or
    UpdateFailed; nothing is thrown. *)
Lemma throw_with_message_is_contained (dir : ScriptDir)
    (req : Verify.Request) (w w1 : World) (i : Issue) (script : Script)
    (f : string -> Params -> VerifyResult) (e : Thrown) (m : string) :
  Js.truthy (Verify.issueKey req) = true ->
  Js.truthy (Verify.scriptId req) = true ->
  JiraAPI.getIssue (Verify.issueKey req) w = (Ok i, w1) ->
  require dir (Verify.scriptId req +:+ ".js") = Exports script ->
  verify script = Some f ->
  f (Verify.issueKey req) (Verify.parameters req) = Raises e ->
  message_text e = Some m ->
  exists resp w',
    Verify.run dir req w = (Ok resp, w') /\
    outcome_of (Ok resp) = Some (Fail ("Script error: " +:+ m)) /\
    resolved (VStr ("Script error: " +:+ m)) resp /\
    (resp = Verify.commented_fail (VStr ("Script error: " +:+ m)) \/
     exists m', resp = Verify.update_failed (VStr ("Script error: " +:+ m)) m').
Proof.
  intros Hk Hs Hi Hl Hf Hv Hm.
  pose proof (run_script_raises dir req script Hl f e m w1 Hf Hv Hm) as Hrun.
  rewrite (run_resolves dir req w w1 _ i _ Hk Hs Hi (require_access _ _ _ Hl)
             Hrun eq_refl).
  destruct (resolve_total (Verify.issueKey req) (Verify.prefix_of req)
              (VStr ("Script error: " +:+ m))
              (log_invocation (Verify.scriptId req) (Verify.issueKey req) w1))
    as (resp & w' & Hr & _ & Hb).
  exists resp, w'. rewrite script_error_is_failure in Hb.
  split_and!; [done | | by eapply resolve_resolved | done].
  destruct Hb as [-> | [m' ->]]; reflexivity.
Qed.

Example flaky_check_is_contained :
  Verify.run Demo.scripts (Demo.request "flaky")
    (Demo.world_of Demo.closable [])
  = (Ok (Verify.commented_fail (VStr "Script error: connect ECONNREFUSED")),
     mkWorld
       (mkTracker
          {[ Demo.key :=
               with_comments Demo.closable
                 [mkComment 1
                    "[Verification] Script error: connect ECONNREFUSED"] ]}
          [CommentAdded Demo.key
             (mkComment 1 "[Verification] Script error: connect ECONNREFUSED")])
       [] true true [("flaky", Demo.key)]).
Proof. vm_compute. reflexivity. Qed.

(** C2. A check whose [verify] rejects without a reason (or throws
    [undefined]), or throws [null], is not contained. The [catch] block
    that builds "Script error: " + error.message reads a property of a
    value that has none and throws in turn; the outer [catch] answers 500
    "Failed to run verification: ...". The run produces no outcome and no
    ResolutionResult, and the issue is left as it was, although [verify]
    was called. *)
Theorem C2_null_rejection_escapes :
  let w := Demo.world_of Demo.closable [] in
  let rejected :=
    Verify.run (Demo.only "rejects.js" Demo.rejecting)
      (Demo.request "rejects") w in
  let thrown :=
    Verify.run (Demo.only "throws-null.js" Demo.throwing_null)
      (Demo.request "throws-null") w in
  fst rejected =
    Ok (mkResponse 500
          (ErrorBody
             "Failed to run verification: Cannot read properties of undefined (reading 'message')")) /\
  fst thrown =
    Ok (mkResponse 500
          (ErrorBody
             "Failed to run verification: Cannot read properties of null (reading 'message')")) /\
  outcome_of (fst rejected) = None /\
  outcome_of (fst thrown) = None /\
  (forall v resp, fst rejected = Ok resp -> ~ resolved v resp) /\
  invocations (snd rejected) = [("rejects", Demo.key)] /\
  tracker (snd rejected) = tracker w /\
  tracker (snd thrown) = tracker w.
Proof.
  split_and!; try (vm_compute; reflexivity).
  intros v resp H. vm_compute in H. injection H as <-.
  inversion 1.
Qed.

(** ** C3: a script without [verify] *)

Lemma resolve_fail_commented (key prefix : string) (v : JsVal) (w w' : World) :
  isSuccess v = false ->
  Verify.resolve key prefix v w = (Ok (Verify.commented_fail v), w') ->
  exists i,
    issues (tracker w) !! key = Some i /\
    issues (tracker w') =
      <[key := with_comments i
                 (reconcile prefix (prefix +:+ " " +:+ render v) (comments i))]>
        (issues (tracker w)) /\
    length (journal (tracker w')) = S (length (journal (tracker w))).
Proof.
  intros Hv. unfold Verify.resolve, try_catch. rewrite Hv.
  destruct (Verify.fail_body key prefix v w) as [[resp|e] w1] eqn:E;
    apply fail_body_inv in E as [_ H].
  - intros ?; simplify_eq. tauto.
  - destruct H as [m ->]. simpl. intros ?; simplify_eq.
Qed.

(** C3 (amended). A script that loads but exports no [verify] function is
    not a request-level error. Once the issue was fetched, the run goes on
    with the verification result "Script error: Script does not export a
    verify function": no script code is called, the outcome is that
    failure, the response is CommentedFail or UpdateFailed, and in the
    first case the tagged comment of the issue was created or rewritten. *)
Theorem C3_missing_verify_is_a_failed_verification (dir : ScriptDir)
    (req : Verify.Request) (w w1 : World) (i : Issue) (script : Script) :
  Js.truthy (Verify.issueKey req) = true ->
  Js.truthy (Verify.scriptId req) = true ->
  JiraAPI.getIssue (Verify.issueKey req) w = (Ok i, w1) ->
  require dir (Verify.scriptId req +:+ ".js") = Exports script ->
  verify script = None ->
  exists resp w',
    Verify.run dir req w = (Ok resp, w') /\
    invocations w' = invocations w /\
    outcome_of (Ok resp) =
      Some (Fail "Script error: Script does not export a verify function") /\
    (resp = Verify.commented_fail no_verify_result \/
     exists m, resp = Verify.update_failed no_verify_result m) /\
    (resp = Verify.commented_fail no_verify_result ->
     issues (tracker w') =
       <[Verify.issueKey req :=
           with_comments i
             (reconcile (Verify.prefix_of req)
                (Verify.prefix_of req +:+ " " +:+ render no_verify_result)
                (comments i))]> (issues (tracker w)) /\
     length (journal (tracker w')) = S (length (journal (tracker w)))).
Proof.
  intros Hk Hs Hi Hl Hf.
  pose proof (run_script_no_verify dir req script Hl w1 Hf) as Hrun.
  rewrite (run_resolves dir req w w1 _ i _ Hk Hs Hi (require_access _ _ _ Hl)
             Hrun eq_refl).
  apply getIssue_inv in Hi as (Ht & Hinv & Hi).
  destruct (resolve_total (Verify.issueKey req) (Verify.prefix_of req)
              no_verify_result w1) as (resp & w' & Hr & Hinv' & Hb).
  exists resp, w'. simpl in Hb.
  split_and!; [done | congruence | | done |].
  - destruct Hb as [-> | [m' ->]]; reflexivity.
  - intros ->. apply resolve_fail_commented in Hr as (i' & Hi' & Hiss & Hj); [|done].
    rewrite Ht in Hi', Hiss, Hj. by simplify_eq.
Qed.

Lemma C3_witness :
  exists resp w',
    Verify.run Demo.scripts (Demo.request "broken")
      (Demo.world_of Demo.closable []) = (Ok resp, w') /\
    invocations w' = invocations (Demo.world_of Demo.closable []) /\
    outcome_of (Ok resp) =
      Some (Fail "Script error: Script does not export a verify function") /\
    (resp = Verify.commented_fail no_verify_result \/
     exists m, resp = Verify.update_failed no_verify_result m) /\
    (resp = Verify.commented_fail no_verify_result ->
     issues (tracker w') =
       <[Demo.key :=
           with_comments Demo.closable
             (reconcile "[Verification]"
                ("[Verification]" +:+ " " +:+ render no_verify_result)
                (comments Demo.closable))]>
         (issues (tracker (Demo.world_of Demo.closable []))) /\
     length (journal (tracker w')) =
       S (length (journal (tracker (Demo.world_of Demo.closable []))))).
Proof.
  apply (C3_missing_verify_is_a_failed_verification Demo.scripts
           (Demo.request "broken") (Demo.world_of Demo.closable [])
           (answered (tracker (Demo.world_of Demo.closable []))
                     (Demo.world_of Demo.closable []))
           Demo.closable Demo.no_verify);
    vm_compute; reflexivity.
Defined.

(** C3, as stated, fails: the unit "broken.js" loads and has no [verify],
    yet the request is answered 200 with a CommentedFail result, and the
    issue has received a comment. *)
Lemma C3_counterexample :
  let w := Demo.world_of Demo.closable [] in
  let r := Verify.run Demo.scripts (Demo.request "broken") w in
  require Demo.scripts "broken.js" = Exports Demo.no_verify /\
  verify Demo.no_verify = None /\
  fst r = Ok (Verify.commented_fail no_verify_result) /\
  comments <$> (issues (tracker (snd r)) !! Demo.key) =
    Some [mkComment 1
            "[Verification] Script error: Script does not export a verify function"] /\
  ~ (exists resp, fst r = Ok resp /\ request_error resp) /\
  tracker (snd r) <> tracker w.
Proof.
  split_and!; try (vm_compute; reflexivity).
  - intros (resp & H & e & He & _). vm_compute in H. injection H as <-.
    discriminate He.
  - intros H. apply (f_equal journal) in H. vm_compute in H. discriminate H.
Qed.

(** ** C8: request-level errors *)

(** When the tracker has no issue under the key of the request, or no
    file exists at the path the script id is joined to, the request is
    answered at once with a 4xx error body, no script is called and the
    tracker is left as it was. With both identifiers given the answer is
    404: "Issue not found: ..." when the issue is missing, and otherwise
    one of the two not-found errors. *)
Lemma request_level_errors (dir : ScriptDir) (req : Verify.Request)
    (w : World) :
  issues (tracker w) !! Verify.issueKey req = None \/
  access dir (Verify.scriptId req +:+ ".js") = false ->
  exists resp w',
    Verify.run dir req w = (Ok resp, w') /\
    request_error resp /\
    tracker w' = tracker w /\
    invocations w' = invocations w /\
    (Js.truthy (Verify.issueKey req) = true ->
     Js.truthy (Verify.scriptId req) = true ->
     ((exists m, resp = Verify.issue_not_found m) \/
      resp = Verify.script_not_found) /\
     (issues (tracker w) !! Verify.issueKey req = None ->
      exists m, resp = Verify.issue_not_found m)).
Proof.
  intros Hmiss. unfold Verify.run, try_catch, bind, ret.
  destruct (Js.truthy (Verify.issueKey req)) eqn:Hk; simpl;
    [destruct (Js.truthy (Verify.scriptId req)) eqn:Hs; simpl|].
  - destruct (JiraAPI.getIssue (Verify.issueKey req) w) as [[i|e] w1] eqn:E;
      apply getIssue_inv in E as (Ht & Hinv & H).
    + destruct Hmiss as [Hmiss | Hmiss]; [congruence|]. rewrite Hmiss. simpl.
      exists Verify.script_not_found, w1.
      split_and!; [done | | done | done |].
      * eexists. split; [reflexivity | by right].
      * intros _ _. split; [by right | congruence].
    + destruct H as [m ->]. simpl.
      exists (Verify.issue_not_found m), w1.
      split_and!; [done | | done | done |].
      * eexists. split; [reflexivity | by right].
      * intros _ _. split; [left|]; by exists m.
  - exists Verify.bad_request, w.
    split_and!; [done | | done | done | done].
    eexists. split; [reflexivity | by left].
  - exists Verify.bad_request, w.
    split_and!; [done | | done | done | done].
    eexists. split; [reflexivity | by left].
Qed.

Example unknown_script_is_refused :
  Verify.run Demo.scripts (Demo.request "no-such-script")
    (Demo.world_of Demo.closable [])
  = (Ok Verify.script_not_found,
     answered (tracker (Demo.world_of Demo.closable []))
       (Demo.world_of Demo.closable [])).
Proof. vm_compute. reflexivity. Qed.

Example unknown_issue_is_refused :
  Verify.run Demo.scripts
    (Verify.mkRequest "PROJ-404" "sample-test" [] None)
    (Demo.world_of Demo.closable [])
  = (Ok (Verify.issue_not_found "Issue Does Not Exist"),
     mkWorld (tracker (Demo.world_of Demo.closable [])) [] true true []).
Proof. vm_compute. reflexivity. Qed.

(** C8. A script id is joined to the path of the scripts directory as it
    is, so it can name a file outside the collection. The collection of
    the example holds the checks sample-test, timeout, flaky and broken;
    no check has the id "../utils/config". A request with that id is
    nevertheless not refused as CheckNotFound: [fs.access] finds the
    application's own utils/config.js, the module is loaded, it exports no
    [verify], and the failure branch writes a comment on the issue and
    answers 200. *)
Theorem C8_script_id_escapes_the_collection :
  let w := Demo.world_of Demo.closable [] in
  let r := Verify.run Demo.scripts (Demo.request "../utils/config") w in
  readdir Demo.scripts =
    Some ["sample-test.js"; "timeout.js"; "flaky.js"; "broken.js";
          "syntax.js"; "README.md"] /\
  match payload (fst (Verify.get_scripts Demo.scripts)) with
  | ScriptsBody defs => info_id <$> defs
  | _ => []
  end = ["sample-test"; "timeout"; "flaky"; "broken"] /\
  script_path Demo.scripts ("../utils/config" +:+ ".js")
    = ["srv"; "jira-helper"; "utils"; "config.js"] /\
  access Demo.scripts ("../utils/config" +:+ ".js") = true /\
  fst r = Ok (Verify.commented_fail no_verify_result) /\
  ~ (exists resp, fst r = Ok resp /\ request_error resp) /\
  journal (tracker (snd r)) =
    [CommentAdded Demo.key
       (mkComment 1
          "[Verification] Script error: Script does not export a verify function")] /\
  comments <$> (issues (tracker (snd r)) !! Demo.key) =
    Some [mkComment 1
            "[Verification] Script error: Script does not export a verify function"].
Proof.
  split_and!; try (vm_compute; reflexivity).
  intros (resp & H & e & He & _). vm_compute in H. injection H as <-.
  discriminate He.
Qed.

(** ** C5: one tagged comment, rewritten in place *)

Lemma run_script_tracker (dir : ScriptDir) (req : Verify.Request)
    (w w' : World) (r : Res JsVal) :
  Verify.run_script dir req w = (r, w') -> tracker w' = tracker w.
Proof.
  unfold Verify.run_script, try_catch, Verify.call_verify, bind, message_of,
    ret, throw.
  intros H. repeat case_match; simplify_eq; reflexivity.
Qed.

(** A request answered with CommentedFail has reconciled the comments of
    its issue under its tag, by one request to the tracker. *)
Lemma run_commented_fail (dir : ScriptDir) (req : Verify.Request)
    (w w' : World) (v : JsVal) :
  Verify.run dir req w = (Ok (Verify.commented_fail v), w') ->
  isSuccess v = false /\
  exists i,
    issues (tracker w) !! Verify.issueKey req = Some i /\
    issues (tracker w') =
      <[Verify.issueKey req :=
          with_comments i
            (reconcile (Verify.prefix_of req)
               (Verify.prefix_of req +:+ " " +:+ render v) (comments i))]>
        (issues (tracker w)) /\
    length (journal (tracker w')) = S (length (journal (tracker w))).
Proof.
  unfold Verify.run, try_catch, bind, ret.
  destruct (negb _ || negb _); [intros ?; simplify_eq|].
  destruct (JiraAPI.getIssue (Verify.issueKey req) w) as [[i|e] w1] eqn:E1;
    apply getIssue_inv in E1 as (Ht1 & _ & H1).
  2:{ destruct H1 as [m ->]. simpl. intros ?; simplify_eq. }
  destruct (negb _); [intros ?; simplify_eq|].
  destruct (Verify.run_script dir req w1) as [[vr|e] w2] eqn:E2;
    apply run_script_tracker in E2 as Ht2.
  2:{ destruct e; simpl; intros ?; simplify_eq. }
  destruct (resolve_total (Verify.issueKey req) (Verify.prefix_of req) vr w2)
    as (resp & w3 & Hr & _ & Hb).
  rewrite Hr.
  rewrite (res_json_resolved vr resp w3 (resolve_resolved _ _ _ _ _ _ Hr)).
  destruct (json_error vr); [simpl; intros ?; simplify_eq|].
  intros ?; simplify_eq.
  destruct (isSuccess vr) eqn:Hv.
  - destruct Hb as [[t Hb] | [Hb | [m Hb]]]; discriminate Hb.
  - destruct Hb as [Hb | [m Hb]]; [|discriminate Hb].
    injection Hb as ->. split; [done|].
    apply resolve_fail_commented in Hr as (i' & Hi' & Hiss & Hj); [|done].
    rewrite Ht2, Ht1 in Hi', Hiss, Hj. eauto.
Qed.

Section Reconcile.
Context (tag : string).

Lemma find_untagged (cs : list Comment) :
  filter (Verify.tagged tag) cs = [] -> List.find (Verify.tagged tag) cs = None.
Proof.
  induction cs as [|c cs IH]; [done|]. simpl.
  rewrite filter_cons. destruct (decide (Verify.tagged tag c)) as [H|H].
  - done.
  - intros Hf. destruct (Verify.tagged tag c); [by destruct H | auto].
Qed.

Lemma find_last_tagged (cs : list Comment) (c : Comment) :
  filter (Verify.tagged tag) cs = [] -> Verify.tagged tag c = true ->
  List.find (Verify.tagged tag) (cs ++ [c]) = Some c.
Proof.
  intros Hf Hc. induction cs as [|c' cs IH]; simpl.
  - by rewrite Hc.
  - rewrite filter_cons in Hf.
    destruct (decide (Verify.tagged tag c')) as [H|H]; [done|].
    destruct (Verify.tagged tag c'); [by destruct H | auto].
Qed.

Lemma cid_below_fresh (cs : list Comment) :
  Forall (fun c => cid c < fresh_cid cs) cs.
Proof.
  apply Forall_forall. intros c Hc. unfold fresh_cid.
  assert (cid c ≤ max_list (cid <$> cs)); [|lia].
  apply max_list_elem_of_le, list_elem_of_fmap. eauto.
Qed.

Lemma set_body_other (cs : list Comment) (n : nat) (text : string) :
  Forall (fun c => cid c < n) cs -> set_body n text <$> cs = cs.
Proof.
  induction 1 as [|c cs Hc _ IH]; [done|].
  rewrite fmap_cons, IH. f_equal. unfold set_body.
  destruct (decide (cid c = n)); [lia | done].
Qed.

Lemma reconcile_first (cs : list Comment) (text : string) :
  filter (Verify.tagged tag) cs = [] ->
  reconcile tag text cs = cs ++ [mkComment (fresh_cid cs) text].
Proof. intros H. unfold reconcile. by rewrite find_untagged. Qed.

Lemma reconcile_again (cs : list Comment) (old text : string) :
  filter (Verify.tagged tag) cs = [] ->
  Js.startsWith old tag = true ->
  reconcile tag text (cs ++ [mkComment (fresh_cid cs) old])
  = cs ++ [mkComment (fresh_cid cs) text].
Proof.
  intros Hf Ho. unfold reconcile.
  rewrite (find_last_tagged cs (mkComment (fresh_cid cs) old) Hf Ho). simpl.
  rewrite fmap_app, (set_body_other cs _ _ (cid_below_fresh cs)). simpl.
  unfold set_body. simpl. by rewrite decide_True.
Qed.

Lemma filter_one_tagged (cs : list Comment) (c : Comment) :
  filter (Verify.tagged tag) cs = [] -> Verify.tagged tag c = true ->
  filter (Verify.tagged tag) (cs ++ [c]) = [c].
Proof.
  intros Hf Hc. rewrite filter_app, Hf, filter_cons. simpl.
  rewrite decide_True; [done | by rewrite Hc].
Qed.

End Reconcile.

Lemma run_all_cons (dir : ScriptDir) (req : Verify.Request)
    (runs : list (ScriptDir * Verify.Request)) (w w' : World)
    (r : Res Response) (rs : list (Res Response)) :
  Verify.run_all ((dir, req) :: runs) w = (r :: rs, w') ->
  exists w1, Verify.run dir req w = (r, w1) /\ Verify.run_all runs w1 = (rs, w').
Proof.
  simpl. destruct (Verify.run dir req w) as [r1 w1].
  destruct (Verify.run_all runs w1) as [rs2 w2] eqn:E.
  intros ?; simplify_eq. by exists w1.
Qed.

Lemma later_failures_rewrite (key tag : string) (i : Issue) (cs : list Comment)
    (runs : list (ScriptDir * Verify.Request)) :
  filter (Verify.tagged tag) cs = [] ->
  Forall (same_target key tag) runs ->
  forall (vs : list JsVal) (w w' : World) (old : string),
    Js.startsWith old tag = true ->
    issues (tracker w) !! key =
      Some (with_comments i (cs ++ [mkComment (fresh_cid cs) old])) ->
    Verify.run_all runs w = ((fun v => Ok (Verify.commented_fail v)) <$> vs, w') ->
    issues (tracker w') !! key =
      Some (with_comments i
              (cs ++ [mkComment (fresh_cid cs)
                        (default old (failure_text tag <$> last vs))])).
Proof.
  intros Hcs Hruns. induction Hruns as [|[dir req] runs [Hk Hp] _ IH];
    intros vs w w' old Hold Hi Hrun.
  - simpl in Hrun. destruct vs; simplify_eq. done.
  - destruct vs as [|v vs]; [simpl in Hrun; repeat case_match; simplify_eq|].
    rewrite fmap_cons in Hrun.
    apply run_all_cons in Hrun as (w1 & H1 & Hrest).
    apply run_commented_fail in H1 as (_ & i0 & Hi0 & Hiss & _).
    simpl in Hk, Hp. subst key tag. rewrite Hi in Hi0. injection Hi0 as <-.
    simpl in Hiss. rewrite (reconcile_again _ cs old _ Hcs Hold) in Hiss.
    specialize (IH vs w1 w' (failure_text _ v) (startsWith_append _ _)).
    rewrite Hiss, lookup_insert_eq in IH.
    rewrite (IH eq_refl Hrest). rewrite last_cons.
    by destruct (last vs).
Qed.

Lemma reported_failures (runs : list (ScriptDir * Verify.Request))
    (outs : list (Res Response)) (w w' : World) (v : JsVal) :
  Verify.run_all runs w = (outs, w') ->
  Ok (Verify.commented_fail v) ∈ outs -> isSuccess v = false.
Proof.
  revert outs w. induction runs as [|[dir req] runs IH]; intros outs w Hrun Hin.
  - simpl in Hrun. simplify_eq. by apply elem_of_nil in Hin.
  - destruct outs as [|o outs]; [by apply elem_of_nil in Hin|].
    apply run_all_cons in Hrun as (w1 & H1 & Hrest).
    apply elem_of_cons in Hin as [<- | Hin].
    + by apply run_commented_fail in H1 as [? _].
    + by eapply IH.
Qed.

(** C5 (amended). Take an issue without a comment starting with the tag
    and N >= 1 runs on it with that tag, each of which reports a Fail
    outcome and whose comment update went through (CommentedFail). After
    the N runs the issue carries exactly one comment starting with the
    tag, its body is tag + " " + the latest reason, and the issue has one
    comment more than before: the later runs rewrote the comment of the
    first. *)
Theorem C5_single_tagged_comment (key tag : string)
    (runs : list (ScriptDir * Verify.Request)) (w w' : World) (i : Issue)
    (vs : list JsVal) (v : JsVal) :
  issues (tracker w) !! key = Some i ->
  filter (Verify.tagged tag) (comments i) = [] ->
  Forall (same_target key tag) runs ->
  Verify.run_all runs w = ((fun v => Ok (Verify.commented_fail v)) <$> vs, w') ->
  last vs = Some v ->
  classify v = Fail (render v) /\
  exists i' c,
    issues (tracker w') !! key = Some i' /\
    filter (Verify.tagged tag) (comments i') = [c] /\
    body c = tag +:+ " " +:+ render v /\
    length (comments i') = S (length (comments i)).
Proof.
  intros Hi Hcs Hruns Hrun Hlast.
  assert (Hv : isSuccess v = false).
  { apply (reported_failures _ _ _ _ _ Hrun), list_elem_of_fmap.
    exists v. split; [done | by apply last_Some_elem_of]. }
  destruct vs as [|v0 vs]; [done|].
  destruct Hruns as [|[dir req] runs [Hk Hp] Hruns];
    [simpl in Hrun; simplify_eq|].
  rewrite fmap_cons in Hrun.
  apply run_all_cons in Hrun as (w1 & H1 & Hrest).
  apply run_commented_fail in H1 as (Hv0 & i0 & Hi0 & Hiss & _).
  simpl in Hk, Hp. subst key tag. rewrite Hi in Hi0. injection Hi0 as <-.
  rewrite (reconcile_first _ _ _ Hcs) in Hiss.
  pose proof (later_failures_rewrite _ _ i (comments i) runs Hcs Hruns
                vs w1 w' (failure_text _ v0) (startsWith_append _ _)) as Hl.
  rewrite Hiss, lookup_insert_eq in Hl. specialize (Hl eq_refl Hrest).
  rewrite last_cons in Hlast.
  assert (Htext : default (failure_text (Verify.prefix_of req) v0)
                    (failure_text (Verify.prefix_of req) <$> last vs)
                  = failure_text (Verify.prefix_of req) v).
  { destruct (last vs); simplify_eq; done. }
  rewrite Htext in Hl. split.
  - unfold classify. by rewrite Hv.
  - eexists _, _. split; [exact Hl|]. simpl.
    split_and!.
    + apply filter_one_tagged; [done | apply startsWith_append].
    + done.
    + by rewrite length_app, Nat.add_1_r.
Qed.

Lemma C5_witness :
  classify (VStr "Script error: connect ECONNREFUSED")
    = Fail (render (VStr "Script error: connect ECONNREFUSED")) /\
  exists i' c,
    issues (tracker (snd (Verify.run_all
                            [(Demo.scripts, Demo.request "timeout");
                             (Demo.scripts, Demo.request "flaky")]
                            (Demo.world_of Demo.closable [])))) !! Demo.key
      = Some i' /\
    filter (Verify.tagged "[Verification]") (comments i') = [c] /\
    body c = "[Verification]" +:+ " " +:+
               render (VStr "Script error: connect ECONNREFUSED") /\
    length (comments i') = S (length (comments Demo.closable)).
Proof.
  apply (C5_single_tagged_comment Demo.key "[Verification]"
           [(Demo.scripts, Demo.request "timeout");
            (Demo.scripts, Demo.request "flaky")]
           (Demo.world_of Demo.closable []) _ Demo.closable
           [VStr "timeout"; VStr "Script error: connect ECONNREFUSED"]).
  - vm_compute. reflexivity.
  - vm_compute. reflexivity.
  - repeat constructor.
  - vm_compute. reflexivity.
  - reflexivity.
Defined.

(** C5, as stated, fails: a single run with the Fail outcome "timeout"
    during which the tracker cannot be reached leaves the issue without
    any tagged comment. *)
Lemma C5_counterexample :
  let w := Demo.world_of Demo.closable [None; Some "Network Error"] in
  let r := Verify.run_all [(Demo.scripts, Demo.request "timeout")] w in
  filter (Verify.tagged "[Verification]") (comments Demo.closable) = [] /\
  fst r = [Ok (Verify.update_failed (VStr "timeout") "Network Error")] /\
  outcome_of <$> fst r = [Some (Fail "timeout")] /\
  exists i',
    issues (tracker (snd r)) !! Demo.key = Some i' /\
    filter (Verify.tagged "[Verification]") (comments i') = [].
Proof.
  split_and!; try (vm_compute; reflexivity).
  exists Demo.closable. split; vm_compute; reflexivity.
Qed.

(** ** C6: the success branch *)

Lemma transport_ok_tail (n : nat) (f : list (option string)) :
  transport_ok (S n) f -> transport_ok n (tail f).
Proof.
  destruct f as [|[m|] f]; simpl; [|done|done].
  intros _. by destruct n.
Qed.

Lemma transport_ok_first (n : nat) (f : list (option string)) :
  transport_ok (S n) f -> transport_ok 1 f.
Proof. destruct f as [|[m|] f]; simpl; done. Qed.

Lemma truthy_append (s1 s2 : string) :
  Js.truthy s2 = true -> Js.truthy (s1 +:+ s2) = true.
Proof. destruct s1; [done | reflexivity]. Qed.

Lemma find_close_elem (ts : list Transition) (t : Transition) :
  find_close ts = Some t -> t ∈ ts.
Proof.
  induction ts as [|x ts IH]; simpl; [done|].
  destruct (close_capable x); intros H; simplify_eq; [left | right; auto].
Qed.

Lemma find_by_tid (ts : list Transition) (t : Transition) :
  t ∈ ts ->
  exists x, List.find (fun x => bool_decide (tid x = tid t)) ts = Some x /\
            tid x = tid t.
Proof.
  induction 1 as [t ts | t x ts _ IH]; simpl.
  - exists t. by rewrite bool_decide_eq_true_2.
  - destruct (bool_decide (tid x = tid t)) eqn:E; [|done].
    exists x. split; [done | by apply bool_decide_eq_true in E].
Qed.

(** C6 (amended). On a Pass outcome, with the issue on the tracker and the
    two requests of the branch going through: when a close-capable
    transition is found, exactly that transition is applied, together
    with the comment tag + " Verification passed. Issue auto-closed.", and
    the result is Closed; when none is found, exactly one comment, tag +
    " Verification passed, but no close transition available.", is added
    and the result is CommentedPassNoTransition. In both cases this is the
    only change made to the tracker. *)
Theorem C6_pass_resolution (key prefix : string) (v : JsVal) (w : World)
    (i : Issue) :
  isSuccess v = true ->
  ready w ->
  transport_ok 2 (faults w) ->
  issues (tracker w) !! key = Some i ->
  exists w' i',
    match find_close (transitions i) with
    | Some t =>
        Verify.resolve key prefix v w = (Ok (Verify.closed v t), w') /\
        issues (tracker w') = <[key := i']> (issues (tracker w)) /\
        journal (tracker w') =
          journal (tracker w) ++
            [Transitioned key (tid t) (Some (closing_comment prefix))] /\
        comments i' =
          comments i ++
            [mkComment (fresh_cid (comments i)) (closing_comment prefix)]
    | None =>
        Verify.resolve key prefix v w = (Ok (Verify.commented_pass v), w') /\
        issues (tracker w') = <[key := i']> (issues (tracker w)) /\
        journal (tracker w') =
          journal (tracker w) ++
            [CommentAdded key
               (mkComment (fresh_cid (comments i)) (no_transition_comment prefix))] /\
        i' = with_comments i
               (comments i ++
                  [mkComment (fresh_cid (comments i))
                             (no_transition_comment prefix)])
    end.
Proof.
  intros Hv Hr Hf Hi.
  unfold Verify.resolve, try_catch, Verify.pass_body,
    JiraAPI.findCloseTransition, bind, ret.
  rewrite Hv. unfold JiraAPI.getTransitions.
  rewrite (makeRequest_ok _ w (transitions i) (tracker w) Hr
             (transport_ok_first _ _ Hf)); [|unfold serve_getTransitions; by rewrite Hi].
  set (w1 := answered (tracker w) w).
  assert (Hr1 : ready w1) by by left.
  assert (Hf1 : transport_ok 1 (faults w1)) by by apply transport_ok_tail.
  destruct (find_close (transitions i)) as [t|] eqn:Et.
  - destruct (find_by_tid _ _ (find_close_elem _ _ Et)) as (x & Hx & Hid).
    unfold JiraAPI.transitionIssue.
    rewrite (truthy_append prefix " Verification passed. Issue auto-closed." eq_refl).
    erewrite (makeRequest_ok _ w1 tt _ Hr1 Hf1);
      [|unfold serve_transition; simpl; by rewrite Hi, Hx].
    eexists _, _. split_and!; [reflexivity | reflexivity | reflexivity | reflexivity].
  - unfold JiraAPI.addComment.
    erewrite (makeRequest_ok _ w1 _ _ Hr1 Hf1);
      [|unfold serve_addComment; simpl; by rewrite Hi].
    eexists _, _. split_and!; [reflexivity | reflexivity | reflexivity | reflexivity].
Qed.

Lemma C6_witness :
  exists w' i',
    match find_close (transitions Demo.closable) with
    | Some t =>
        Verify.resolve Demo.key "[Verification]" (VStr "ok")
          (Demo.world_of Demo.closable []) = (Ok (Verify.closed (VStr "ok") t), w') /\
        issues (tracker w') =
          <[Demo.key := i']> (issues (tracker (Demo.world_of Demo.closable []))) /\
        journal (tracker w') =
          journal (tracker (Demo.world_of Demo.closable [])) ++
            [Transitioned Demo.key (tid t) (Some (closing_comment "[Verification]"))] /\
        comments i' =
          comments Demo.closable ++
            [mkComment (fresh_cid (comments Demo.closable))
                       (closing_comment "[Verification]")]
    | None =>
        Verify.resolve Demo.key "[Verification]" (VStr "ok")
          (Demo.world_of Demo.closable []) = (Ok (Verify.commented_pass (VStr "ok")), w') /\
        issues (tracker w') =
          <[Demo.key := i']> (issues (tracker (Demo.world_of Demo.closable []))) /\
        journal (tracker w') =
          journal (tracker (Demo.world_of Demo.closable [])) ++
            [CommentAdded Demo.key
               (mkComment (fresh_cid (comments Demo.closable))
                          (no_transition_comment "[Verification]"))] /\
        i' = with_comments Demo.closable
               (comments Demo.closable ++
                  [mkComment (fresh_cid (comments Demo.closable))
                             (no_transition_comment "[Verification]")])
    end.
Proof.
  apply (C6_pass_resolution Demo.key "[Verification]" (VStr "ok")
           (Demo.world_of Demo.closable []) Demo.closable).
  - reflexivity.
  - right. reflexivity.
  - exact I.
  - vm_compute. reflexivity.
Defined.

(** C6, as stated, fails: the close-capable transition "Close Issue" is
    found, the tracker then rejects the request that applies it, and the
    result is VerifiedNoUpdate, not Closed; nothing was applied. *)
Lemma C6_counterexample :
  let w := Demo.world_of Demo.closable [None; Some "Network Error"] in
  let r := Verify.resolve Demo.key "[Verification]" (VStr "ok") w in
  classify (VStr "ok") = Pass "ok" /\
  fst (JiraAPI.findCloseTransition Demo.key w) = Ok (Some Demo.close_issue) /\
  fst r = Ok (Verify.verified_no_update (VStr "ok") "Network Error") /\
  fst r <> Ok (Verify.closed (VStr "ok") Demo.close_issue) /\
  journal (tracker (snd r)) = [].
Proof.
  split_and!; try (vm_compute; reflexivity).
  vm_compute. discriminate.
Qed.

(** The scenario of the specification without a matching transition. *)
Example pass_without_close_transition :
  let w := Demo.world_of Demo.stuck [] in
  let r := Verify.resolve Demo.key "[Verification]" (VStr "OK") w in
  fst r = Ok (Verify.commented_pass (VStr "OK")) /\
  journal (tracker (snd r)) =
    [CommentAdded Demo.key
       (mkComment 1
          "[Verification] Verification passed, but no close transition available.")].
Proof. split; vm_compute; reflexivity. Qed.

(** ** C7: a failing remote update *)



(** ** C9: listing the scripts *)

Lemma endsWith_spec (s suf : string) :
  Js.endsWith s suf = true <-> exists stem, s = stem +:+ suf.
Proof.
  split.
  - induction s as [|c s IH]; simpl.
    + destruct (decide ("" = suf)) as [<-|]; [by exists "" | done].
    + destruct (decide (String c s = suf)) as [<-|]; [by exists ""|].
      intros H. destruct (IH H) as [stem ->]. by exists (String c stem).
  - intros [stem ->]. induction stem as [|c stem IH].
    + rewrite append_nil_l. destruct suf; simpl; try case_decide; done.
    + rewrite append_cons. simpl. try case_decide; done.
Qed.

Lemma strip_suffix_spec (s suf : string) :
  Js.endsWith s suf = true -> s = Js.strip_suffix s suf +:+ suf.
Proof.
  induction s as [|c s IH]; simpl.
  - by destruct (decide ("" = suf)) as [<-|].
  - destruct (decide (String c s = suf)) as [<-|]; [done|].
    intros H. rewrite append_cons. by rewrite <- (IH H).
Qed.

(** The record the handler pushes is the definition of the unit. *)
Lemma script_info_defines (file : string) (script : Script) :
  Js.endsWith file ".js" = true ->
  defines file script (Verify.script_info file script).
Proof.
  intros H. unfold defines, Verify.script_info, Js.basename. rewrite H. simpl.
  split_and!.
  - by apply strip_suffix_spec.
  - by destruct (sname script) as [[|c n]|].
  - by destruct (sdescription script) as [[|c t]|].
  - done.
Qed.

Lemma scan_listed (dir : ScriptDir) (files : list string) :
  forall (scripts : list ScriptInfo) (console : list string),
  exists defs log,
    Verify.scan dir files scripts console = (scripts ++ defs, console ++ log) /\
    listed dir files defs log.
Proof.
  induction files as [|file files IH]; intros scripts console; simpl.
  - exists [], []. rewrite !app_nil_r. split; [done | constructor].
  - destruct (Js.endsWith file ".js") eqn:E.
    + assert (Hc : candidate file) by by apply endsWith_spec.
      destruct (require dir file) as [e|script] eqn:Er.
      * destruct (IH scripts
                    (console ++ ["Error loading script " +:+ file +:+ ":"]))
          as (defs & log & -> & Hl).
        eexists defs, (_ :: log). rewrite <- app_assoc. split; [done|].
        by eapply listed_broken.
      * destruct (IH (scripts ++ [Verify.script_info file script]) console)
          as (defs & log & -> & Hl).
        eexists (_ :: defs), log. rewrite <- app_assoc. split; [done|].
        eapply listed_unit; [done | done | by apply script_info_defines | done].
    + destruct (IH scripts console) as (defs & log & -> & Hl).
      exists defs, log. split; [done|].
      apply listed_other; [|done].
      intros Hc. apply endsWith_spec in Hc. congruence.
Qed.

(** C9 (amended). Whatever the collection holds, when it can be
    enumerated, listing answers 200 and never an error. The answer holds,
    in the order of the enumeration, exactly the definitions of the units
    (names ending in ".js") whose loading does not throw; each unit whose
    loading throws is skipped and leaves one line on the console. A unit
    that loads is listed with the id, name, description and parameters it
    exposes, whether or not it has a [verify]. *)
Theorem C9_listing_skips_units_that_throw (dir : ScriptDir)
    (files : list string) :
  readdir dir = Some files ->
  exists defs log,
    Verify.get_scripts dir = (mkResponse 200 (ScriptsBody defs), log) /\
    listed dir files defs log.
Proof.
  intros H. unfold Verify.get_scripts. rewrite H.
  destruct (scan_listed dir files [] []) as (defs & log & -> & Hl).
  by exists defs, log.
Qed.

(** Of three units of which the second throws when it is loaded, the two
    others are listed, each with what it exposes. *)
Lemma C9_witness :
  Verify.get_scripts Demo.three_units =
    (mkResponse 200
       (ScriptsBody
          [mkScriptInfo "sample-test" "Sample Test" "Always passes"
             [mkParamSpec "successRate" "number" "Success rate (0-100)"
                false (Some "70")];
           mkScriptInfo "timeout" "Deployment Check"
             "No description available" []]),
     ["Error loading script syntax.js:"]) /\
  listed Demo.three_units ["sample-test.js"; "syntax.js"; "timeout.js"]
    [mkScriptInfo "sample-test" "Sample Test" "Always passes"
       [mkParamSpec "successRate" "number" "Success rate (0-100)"
          false (Some "70")];
     mkScriptInfo "timeout" "Deployment Check" "No description available" []]
    ["Error loading script syntax.js:"].
Proof.
  destruct (C9_listing_skips_units_that_throw Demo.three_units
              ["sample-test.js"; "syntax.js"; "timeout.js"] eq_refl)
    as (defs & log & Hget & Hl).
  vm_compute in Hget. injection Hget as <- <-.
  split; [vm_compute; reflexivity | exact Hl].
Defined.

(** C9, as stated, fails for the unit the specification gives as its
    example of one that fails to load: of three units of which the second
    has no [verify], all three are listed, the second among them, and
    nothing is recorded. *)
Lemma C9_counterexample :
  let r := Verify.get_scripts Demo.three_with_stub in
  readdir Demo.three_with_stub = Some ["sample-test.js"; "broken.js"; "timeout.js"] /\
  require Demo.three_with_stub "broken.js" = Exports Demo.no_verify /\
  verify Demo.no_verify = None /\
  fst r =
    mkResponse 200
      (ScriptsBody
         [mkScriptInfo "sample-test" "Sample Test" "Always passes"
            [mkParamSpec "successRate" "number" "Success rate (0-100)"
               false (Some "70")];
          mkScriptInfo "broken" "Broken" "No description available" [];
          mkScriptInfo "timeout" "Deployment Check"
            "No description available" []]) /\
  snd r = [].
Proof. split_and!; vm_compute; reflexivity. Qed.

Example listing_of_the_demo_directory :
  match payload (fst (Verify.get_scripts Demo.scripts)) with
  | ScriptsBody defs => info_id <$> defs
  | _ => []
  end = ["sample-test"; "timeout"; "flaky"; "broken"].
Proof. reflexivity. Qed.

(** ** C10: the stored API token *)

Section Token.
Context {cipher : Config.Cipher} {json : Config.Json}.
Context (laws : Config.Lawful cipher json).

Lemma encrypt_truthy salt t :
  Config.encryptable t = true -> Js.truthy (Config.encrypt salt t) = true.
Proof.
  intros He. pose proof (Config.encrypt_longer salt t He) as H.
  destruct (Config.encrypt salt t); [simpl in H; lia | done].
Qed.

Lemma encrypt_differs salt t :
  Config.encryptable t = true -> Config.encrypt salt t <> t.
Proof.
  intros He H. pose proof (Config.encrypt_longer salt t He) as Hl.
  rewrite H in Hl. lia.
Qed.

(** A save that succeeded has encrypted the token and written the file. *)
Lemma saved_file (s : Config.Settings) salt (d d' : Config.Disk) :
  Js.truthy (Config.apiToken s) = true ->
  Config.saveSettings s salt d = (true, d') ->
  Config.encryptable (Config.apiToken s) = true /\
  Config.config_file d' =
    Some (Config.stringify
            (Config.with_token s (Config.encrypt salt (Config.apiToken s)))).
Proof.
  intros Ht. unfold Config.saveSettings. rewrite Ht.
  destruct (Config.encryptable (Config.apiToken s)); simpl; [|done].
  destruct (Config.writable d); intros ?; by simplify_eq.
Qed.

End Token.

(** C10. With a cipher whose decryption undoes its encryption and whose
    output is longer than its input, and a lossless JSON codec: after
    settings with a non-empty API token were saved, reading the settings
    gives the same token (and the same settings), while the file holds,
    in the token field, the encrypted token, which is not the token. *)
Theorem C10_token_round_trip (cipher : Config.Cipher) (json : Config.Json)
    (laws : Config.Lawful cipher json) (s : Config.Settings)
    (salt : Config.Salt) (d d' : Config.Disk) :
  Config.apiToken s <> "" ->
  Config.saveSettings s salt d = (true, d') ->
  Config.apiToken (Config.getSettings d') = Config.apiToken s /\
  Config.getSettings d' = s /\
  exists stored,
    Config.config_file d' = Some (Config.stringify stored) /\
    Config.apiToken stored = Config.encrypt salt (Config.apiToken s) /\
    Config.apiToken stored <> Config.apiToken s.
Proof.
  intros Hne Hsave.
  assert (Ht : Js.truthy (Config.apiToken s) = true).
  { destruct (Config.apiToken s); [done | reflexivity]. }
  pose proof (saved_file s salt d d' Ht Hsave) as [He Hfile].
  assert (Hget : Config.getSettings d' = s).
  { unfold Config.getSettings. rewrite Hfile, Config.parse_stringify. simpl.
    rewrite (encrypt_truthy laws _ _ He), (Config.decrypt_encrypt _ _ He).
    by destruct s. }
  split_and!; [by rewrite Hget | done |].
  eexists. split_and!;
    [exact Hfile | reflexivity | by apply (encrypt_differs laws)].
Qed.

Lemma mark_objects_lawful : Config.Lawful Demo.mark Demo.objects.
Proof. split; [done | intros; simpl; lia | done]. Qed.

Lemma C10_witness :
  Config.apiToken (@Config.getSettings Demo.mark Demo.objects Demo.saved_disk)
  = Config.apiToken Demo.settings /\
  @Config.getSettings Demo.mark Demo.objects Demo.saved_disk = Demo.settings /\
  exists stored,
    Config.config_file Demo.saved_disk
    = Some (@Config.stringify Demo.objects stored) /\
    Config.apiToken stored = @Config.encrypt Demo.mark 7 "s3cret" /\
    Config.apiToken stored <> Config.apiToken Demo.settings.
Proof.
  apply (C10_token_round_trip Demo.mark Demo.objects mark_objects_lawful
           Demo.settings 7 Demo.empty_disk Demo.saved_disk).
  - discriminate.
  - reflexivity.
Defined.

(** * Further properties of the verification routes *)

(** ** What each client call does to the tracker *)

Section Calls.
Context (key : string) (w w' : World).

Lemma getComments_inv (r : Res (list Comment)) :
  JiraAPI.getComments key w = (r, w') ->
  tracker w' = tracker w /\
  invocations w' = invocations w /\
  match r with
  | Ok cs => exists i, issues (tracker w) !! key = Some i /\ cs = comments i
  | Throw e => exists m, e = ErrorObj m
  end.
Proof.
  intros H. apply makeRequest_inv in H as [Hi H].
  unfold serve_getComments in H. destruct r as [cs|e]; [|tauto].
  destruct (issues (tracker w) !! key) as [i|]; [|done].
  injection H as <- Ht. rewrite <- Ht. eauto.
Qed.

Lemma getTransitions_inv (r : Res (list Transition)) :
  JiraAPI.getTransitions key w = (r, w') ->
  tracker w' = tracker w /\
  invocations w' = invocations w /\
  match r with
  | Ok ts => exists i, issues (tracker w) !! key = Some i /\ ts = transitions i
  | Throw e => exists m, e = ErrorObj m
  end.
Proof.
  intros H. apply makeRequest_inv in H as [Hi H].
  unfold serve_getTransitions in H. destruct r as [ts|e]; [|tauto].
  destruct (issues (tracker w) !! key) as [i|]; [|done].
  injection H as <- Ht. rewrite <- Ht. eauto.
Qed.

Lemma addComment_inv (text : string) (r : Res Comment) :
  JiraAPI.addComment key text w = (r, w') ->
  invocations w' = invocations w /\
  match r with
  | Ok c =>
      exists i,
        issues (tracker w) !! key = Some i /\
        c = mkComment (fresh_cid (comments i)) text /\
        tracker w' = record (CommentAdded key c) key
                       (with_comments i (comments i ++ [c])) (tracker w)
  | Throw e => (exists m, e = ErrorObj m) /\ tracker w' = tracker w
  end.
Proof.
  intros H. apply makeRequest_inv in H as [Hi H].
  unfold serve_addComment in H. destruct r as [c|e]; [|tauto].
  destruct (issues (tracker w) !! key) as [i|]; [|done].
  injection H as <- Ht. split; [done|]. exists i. by rewrite <- Ht.
Qed.

Lemma updateComment_inv (id : nat) (text : string) (r : Res Comment) :
  JiraAPI.updateComment key id text w = (r, w') ->
  invocations w' = invocations w /\
  match r with
  | Ok c =>
      exists i,
        issues (tracker w) !! key = Some i /\
        tracker w' = record (CommentUpdated key id text) key
                       (with_comments i (set_body id text <$> comments i))
                       (tracker w)
  | Throw e => (exists m, e = ErrorObj m) /\ tracker w' = tracker w
  end.
Proof.
  intros H. apply makeRequest_inv in H as [Hi H].
  unfold serve_updateComment in H. destruct r as [c|e]; [|tauto].
  destruct (issues (tracker w) !! key) as [i|]; [|done].
  destruct (existsb _ _); [|done].
  injection H as <- Ht. split; [done|]. exists i. by rewrite <- Ht.
Qed.

Lemma transitionIssue_inv (tr : string) (comment : option string)
    (r : Res unit) :
  JiraAPI.transitionIssue key tr comment w = (r, w') ->
  invocations w' = invocations w /\
  match r with
  | Ok _ =>
      exists i x,
        issues (tracker w) !! key = Some i /\
        x ∈ transitions i /\ tid x = tr /\
        let attached := match comment with
                        | Some text => if Js.truthy text then Some text else None
                        | None => None
                        end in
        tracker w' =
          record (Transitioned key tr attached) key
            (mkIssue (to_status x)
               (comments i ++
                  match attached with
                  | Some text => [mkComment (fresh_cid (comments i)) text]
                  | None => []
                  end)
               (transitions i))
            (tracker w)
  | Throw e => (exists m, e = ErrorObj m) /\ tracker w' = tracker w
  end.
Proof.
  intros H. apply makeRequest_inv in H as [Hi H].
  unfold serve_transition in H. destruct r as [[]|e]; [|tauto].
  split; [done|].
  destruct (issues (tracker w) !! key) as [i|]; [|done].
  destruct (List.find _ (transitions i)) as [x|] eqn:Ex; [|done].
  apply find_some in Ex as [Hin Hx]. apply bool_decide_eq_true in Hx.
  injection H as Ht. exists i, x.
  split_and!; [done | by apply list_elem_of_In | done |].
  simpl. rewrite <- Ht.
  destruct comment as [text|]; [destruct (Js.truthy text)|];
    by rewrite ?app_nil_r.
Qed.

End Calls.

(** ** One run, one issue, at most one change *)

Lemma pass_body_effect (key prefix : string) (v : JsVal) (w w' : World)
    (r : Res Response) :
  Verify.pass_body key prefix v w = (r, w') ->
  match r with
  | Ok _ =>
      exists i i' m c,
        issues (tracker w) !! key = Some i /\
        mutation_key m = key /\
        tracker w' = record m key i' (tracker w) /\
        comments i' = comments i ++ [c] /\
        Verify.tagged prefix c = true
  | Throw _ => tracker w' = tracker w
  end.
Proof.
  unfold Verify.pass_body, JiraAPI.findCloseTransition, bind, ret.
  destruct (JiraAPI.getTransitions key w) as [[ts|e] w1] eqn:E1;
    apply getTransitions_inv in E1 as (Ht1 & _ & H1);
    [|intros ?; by simplify_eq].
  destruct (find_close ts) as [t|].
  - destruct (JiraAPI.transitionIssue _ _ _ w1) as [[[]|e] w2] eqn:E2;
      apply transitionIssue_inv in E2 as [_ H2]; intros ?; simplify_eq.
    + destruct H2 as (i & x & Hi & _ & _ & Ht2). simpl in Ht2.
      rewrite truthy_append in Ht2 by done. rewrite Ht1 in Hi, Ht2.
      exists i. do 3 eexists.
      refine (conj Hi (conj _ (conj Ht2 (conj _ _))));
        [reflexivity | reflexivity | apply startsWith_append].
    + destruct H2 as [_ ->]. exact Ht1.
  - destruct (JiraAPI.addComment _ _ w1) as [[c|e] w2] eqn:E2;
      apply addComment_inv in E2 as [_ H2]; intros ?; simplify_eq.
    + destruct H2 as (i & Hi & -> & Ht2). rewrite Ht1 in Hi, Ht2.
      exists i. do 3 eexists.
      refine (conj Hi (conj _ (conj Ht2 (conj _ _))));
        [reflexivity | reflexivity | apply startsWith_append].
    + destruct H2 as [_ ->]. exact Ht1.
Qed.

Lemma fail_body_effect (key prefix : string) (v : JsVal) (w w' : World)
    (r : Res Response) :
  Verify.fail_body key prefix v w = (r, w') ->
  match r with
  | Ok _ =>
      exists i i' m,
        issues (tracker w) !! key = Some i /\
        mutation_key m = key /\
        tracker w' = record m key i' (tracker w)
  | Throw _ => tracker w' = tracker w
  end.
Proof.
  unfold Verify.fail_body, bind, ret.
  destruct (JiraAPI.getComments key w) as [[cs|e] w1] eqn:E1;
    apply getComments_inv in E1 as (Ht1 & _ & H1);
    [|intros ?; by simplify_eq].
  cbv beta zeta. destruct (List.find (Verify.tagged prefix) cs) as [c|].
  - destruct (JiraAPI.updateComment _ _ _ w1) as [[c'|e] w2] eqn:E2;
      apply updateComment_inv in E2 as [_ H2]; intros ?; simplify_eq.
    + destruct H2 as (i & Hi & Ht2). rewrite Ht1 in Hi, Ht2.
      exists i. do 2 eexists. refine (conj Hi (conj _ Ht2)). reflexivity.
    + destruct H2 as [_ ->]. exact Ht1.
  - destruct (JiraAPI.addComment _ _ w1) as [[c'|e] w2] eqn:E2;
      apply addComment_inv in E2 as [_ H2]; intros ?; simplify_eq.
    + destruct H2 as (i & Hi & -> & Ht2). rewrite Ht1 in Hi, Ht2.
      exists i. do 2 eexists. refine (conj Hi (conj _ Ht2)). reflexivity.
    + destruct H2 as [_ ->]. exact Ht1.
Qed.

(** What the resolution did, read off its answer: the three results that
    report a change made exactly one, the two degraded ones made none. *)
Lemma resolve_effect (key prefix : string) (v : JsVal) (w w' : World)
    (resp : Response) :
  Verify.resolve key prefix v w = (Ok resp, w') ->
  ((exists m, resp = Verify.verified_no_update v m \/
              resp = Verify.update_failed v m) /\
   tracker w' = tracker w) \/
  (((exists t, resp = Verify.closed v t) \/ resp = Verify.commented_pass v \/
    resp = Verify.commented_fail v) /\
   exists i i' m,
     issues (tracker w) !! key = Some i /\
     mutation_key m = key /\
     tracker w' = record m key i' (tracker w)).
Proof.
  unfold Verify.resolve, try_catch. destruct (isSuccess v).
  - destruct (Verify.pass_body key prefix v w) as [[r|e] w1] eqn:E.
    + pose proof (pass_body_inv _ _ _ _ _ _ E) as [_ Hr].
      apply pass_body_effect in E as (i & i' & m & c & Hi & Hm & Ht & _).
      intros ?; simplify_eq. right. split; [tauto | eauto 10].
    + pose proof (pass_body_inv _ _ _ _ _ _ E) as [_ [m ->]].
      apply pass_body_effect in E. unfold message_of, bind, ret.
      intros ?; simplify_eq. left. eauto.
  - destruct (Verify.fail_body key prefix v w) as [[r|e] w1] eqn:E.
    + pose proof (fail_body_inv _ _ _ _ _ _ E) as [_ [-> _]].
      apply fail_body_effect in E as (i & i' & m & Hi & Hm & Ht).
      intros ?; simplify_eq. right. split; [tauto | eauto 10].
    + pose proof (fail_body_inv _ _ _ _ _ _ E) as [_ [m ->]].
      apply fail_body_effect in E. unfold message_of, bind, ret.
      intros ?; simplify_eq. left. eauto.
Qed.

Lemma run_script_inv (dir : ScriptDir) (req : Verify.Request) (w w' : World)
    (r : Res JsVal) :
  Verify.run_script dir req w = (r, w') ->
  tracker w' = tracker w /\
  (invocations w' = invocations w \/
   invocations w' =
     invocations w ++ [(Verify.scriptId req, Verify.issueKey req)]).
Proof.
  unfold Verify.run_script, try_catch, Verify.call_verify, bind, message_of,
    ret, throw.
  intros H. repeat case_match; simplify_eq; simpl; auto.
Qed.

(** The paths of POST /run: an error body sent before the resolution, the
    answer of the resolution, or, when that answer cannot be serialised,
    the 500 of the outer [catch] after the resolution has run. *)
Lemma run_cases (dir : ScriptDir) (req : Verify.Request) (w w' : World)
    (r : Res Response) :
  Verify.run dir req w = (r, w') ->
  exists resp,
    r = Ok resp /\
    (invocations w' = invocations w \/
     invocations w' =
       invocations w ++ [(Verify.scriptId req, Verify.issueKey req)]) /\
    (((exists e, payload resp = ErrorBody e) /\
      (code resp = 400 \/ code resp = 404 \/ code resp = 500) /\
      tracker w' = tracker w) \/
     (exists v w2,
        Verify.resolve (Verify.issueKey req) (Verify.prefix_of req) v w2
          = (Ok resp, w') /\
        tracker w2 = tracker w /\
        json_error v = None) \/
     (exists v w2 unsent m,
        Verify.resolve (Verify.issueKey req) (Verify.prefix_of req) v w2
          = (Ok unsent, w') /\
        tracker w2 = tracker w /\
        json_error v = Some m /\
        resp = mkResponse 500
                 (ErrorBody ("Failed to run verification: " +:+ m)))).
Proof.
  unfold Verify.run, try_catch, bind, ret.
  destruct (negb _ || negb _).
  { intros ?; simplify_eq. eexists. split_and!; [done | by left |].
    left. split_and!; [by eexists | by left | done]. }
  destruct (JiraAPI.getIssue (Verify.issueKey req) w) as [[i|e] w1] eqn:E1;
    apply getIssue_inv in E1 as (Ht1 & Hi1 & H1).
  2:{ destruct H1 as [m ->]. simpl. intros ?; simplify_eq.
      eexists. split_and!; [done | by left |].
      left. split_and!; [by eexists | right; by left | done]. }
  destruct (negb _).
  { intros ?; simplify_eq. eexists. split_and!; [done | by left |].
    left. split_and!; [by eexists | right; by left | done]. }
  destruct (Verify.run_script dir req w1) as [[v|e] w2] eqn:E2.
  - apply run_script_inv in E2 as [Ht2 Hi2].
    destruct (resolve_total (Verify.issueKey req) (Verify.prefix_of req) v w2)
      as (resp & w3 & Hr & Hi3 & _).
    rewrite Hr.
    rewrite (res_json_resolved v resp w3 (resolve_resolved _ _ _ _ _ _ Hr)).
    destruct (json_error v) as [m|] eqn:Ej; simpl; intros ?; simplify_eq.
    + eexists. split_and!; [done | | ].
      * rewrite Hi3, <- Hi1. exact Hi2.
      * right. right. exists v, w2, resp, m.
        split_and!; [done | congruence | done | done].
    + exists resp. split_and!; [done | | ].
      * rewrite Hi3, <- Hi1. exact Hi2.
      * right. left. exists v, w2. split_and!; [done | congruence | done].
  - pose proof (run_script_throws _ _ _ _ _ E2) as [m ->].
    apply run_script_inv in E2 as [Ht2 Hi2]. simpl.
    intros ?; simplify_eq. eexists. split_and!; [done | by rewrite <- Hi1 |].
    left. split_and!; [by eexists | right; by right | congruence].
Qed.

(** ** X1: a run touches only the issue it names *)

(** X1. For an issue key of the form PROJECT-NUMBER, whatever the script
    id, the scripts and the state of the tracker, the requests that POST
    /run sends leave every issue other than the one of the request exactly
    as it was, and they create no issue. (What a check does to the tracker
    on its own is not the handler's doing and is not covered.) *)
Theorem run_touches_only_its_issue (dir : ScriptDir) (req : Verify.Request)
    (w w' : World) (r : Res Response) (k : string) :
  plain_key (Verify.issueKey req) = true ->
  Verify.run dir req w = (r, w') ->
  (k <> Verify.issueKey req ->
   issues (tracker w') !! k = issues (tracker w) !! k) /\
  (issues (tracker w) !! k = None -> issues (tracker w') !! k = None).
Proof.
  intros _ H. apply run_cases in H as (resp & -> & _ & [(_ & _ & Ht) | H]).
  { by rewrite Ht. }
  assert (exists v w2 sent,
            Verify.resolve (Verify.issueKey req) (Verify.prefix_of req) v w2
              = (Ok sent, w') /\ tracker w2 = tracker w)
    as (v & w2 & sent & Hr & Ht).
  { destruct H as [(v & w2 & Hr & Ht & _) | (v & w2 & u & m & Hr & Ht & _)];
      eauto 6. }
  apply resolve_effect in Hr as [[_ Ht'] | [_ (i & i' & m & Hi & _ & Ht')]];
    rewrite Ht in *; rewrite Ht'; [done|].
  simpl. split.
  - intros Hk. by rewrite lookup_insert_ne.
  - intros Hn. rewrite lookup_insert_ne; [done|]. intros <-. congruence.
Qed.

Lemma run_touches_only_its_issue_witness :
  ("PROJ-2" <> Verify.issueKey (Demo.request "timeout") ->
   issues (tracker (snd (Verify.run Demo.scripts (Demo.request "timeout")
                           (Demo.world_of Demo.closable [])))) !! "PROJ-2"
   = issues (tracker (Demo.world_of Demo.closable [])) !! "PROJ-2") /\
  (issues (tracker (Demo.world_of Demo.closable [])) !! "PROJ-2" = None ->
   issues (tracker (snd (Verify.run Demo.scripts (Demo.request "timeout")
                           (Demo.world_of Demo.closable [])))) !! "PROJ-2"
   = None).
Proof.
  apply (run_touches_only_its_issue Demo.scripts (Demo.request "timeout")
           (Demo.world_of Demo.closable []) _
           (fst (Verify.run Demo.scripts (Demo.request "timeout")
                   (Demo.world_of Demo.closable []))));
    vm_compute; reflexivity.
Defined.

(** ** X2: at most one change, and only when the answer says so *)

(** X2. Apart from what a check does on its own, POST /run changes the
    tracker at most once per request. It changes it exactly once when the
    answer is the success "closed" or "commented", and not at all when the
    answer is 400 or 404. *)
Theorem run_changes_at_most_once (dir : ScriptDir) (req : Verify.Request)
    (w w' : World) (r : Res Response) :
  Verify.run dir req w = (r, w') ->
  (tracker w' = tracker w \/
   exists m, journal (tracker w') = journal (tracker w) ++ [m]) /\
  (forall rr, r = Ok (mkResponse 200 (RunBody rr)) ->
     action rr = Some "closed" \/ action rr = Some "commented" ->
     exists m, journal (tracker w') = journal (tracker w) ++ [m]) /\
  (forall resp, r = Ok resp -> code resp = 400 \/ code resp = 404 ->
     tracker w' = tracker w).
Proof.
  intros H. apply run_cases in H as (resp & -> & _ & [((e & He) & _ & Ht) | H]).
  { split_and!; [by left | | done].
    intros rr Hrr. injection Hrr as ->. simpl in He. discriminate He. }
  destruct H as [(v & w2 & Hr & Ht & _) | (v & w2 & u & e & Hr & Ht & _ & ->)].
  2:{ split_and!.
      - apply resolve_effect in Hr
          as [[_ Ht'] | [_ (i & i' & m & Hi & Hm & Ht')]].
        + left. congruence.
        + right. exists m. rewrite Ht'. simpl. by rewrite Ht.
      - intros rr Hrr. discriminate Hrr.
      - intros resp' Hrr Hc. injection Hrr as <-. simpl in Hc. lia. }
  apply resolve_effect in Hr
    as [[(m & Hresp) Ht'] | [Hresp (i & i' & m & Hi & Hm & Ht')]].
  - split_and!; [left; congruence | |].
    + intros rr Hrr Ha. injection Hrr as ->.
      destruct Hresp as [Hresp | Hresp]; injection Hresp as ->;
        simpl in Ha; destruct Ha; discriminate.
    + intros resp' Hrr Hc. injection Hrr as <-.
      destruct Hresp as [-> | ->]; simpl in Hc; lia.
  - rewrite Ht in Ht'. rewrite Ht'. simpl.
    split_and!; [right; by exists m | intros; by exists m |].
    intros resp' Hrr Hc. injection Hrr as <-.
    destruct Hresp as [[t ->] | [-> | ->]]; simpl in Hc; lia.
Qed.

Lemma run_changes_at_most_once_witness :
  let w := Demo.world_of Demo.closable [] in
  let out := Verify.run Demo.scripts (Demo.request "timeout") w in
  (tracker (snd out) = tracker w \/
   exists m, journal (tracker (snd out)) = journal (tracker w) ++ [m]) /\
  (forall rr, fst out = Ok (mkResponse 200 (RunBody rr)) ->
     action rr = Some "closed" \/ action rr = Some "commented" ->
     exists m, journal (tracker (snd out)) = journal (tracker w) ++ [m]) /\
  (forall resp, fst out = Ok resp -> code resp = 400 \/ code resp = 404 ->
     tracker (snd out) = tracker w).
Proof.
  apply (run_changes_at_most_once Demo.scripts (Demo.request "timeout")
           (Demo.world_of Demo.closable [])).
  apply surjective_pairing.
Defined.

(** A result that cannot be serialised: the comment is written, then
    [res.json] throws, in the [try] and again in the [catch], and the outer
    [catch] answers 500. *)
Example unserialisable_result :
  let r := Verify.run (Demo.only "count.js" Demo.counting)
             (Demo.request "count") (Demo.world_of Demo.closable []) in
  fst r =
    Ok (mkResponse 500
          (ErrorBody
             "Failed to run verification: Do not know how to serialize a BigInt")) /\
  journal (tracker (snd r)) =
    [CommentAdded Demo.key (mkComment 1 "[Verification] 42")].
Proof. split; vm_compute; reflexivity. Qed.

(** ** X3: one execution of the check per request *)

(** X3. POST /run calls the [verify] function of the requested script at
    most once, for the issue of the request, and calls no other script:
    there is no retry. *)
Theorem run_verifies_at_most_once (dir : ScriptDir) (req : Verify.Request)
    (w w' : World) (r : Res Response) :
  Verify.run dir req w = (r, w') ->
  invocations w' = invocations w \/
  invocations w' = invocations w ++ [(Verify.scriptId req, Verify.issueKey req)].
Proof. intros H. by apply run_cases in H as (resp & _ & Hi & _). Qed.

Lemma run_verifies_at_most_once_witness :
  invocations (snd (Verify.run Demo.scripts (Demo.request "flaky")
                      (Demo.world_of Demo.closable [])))
  = invocations (Demo.world_of Demo.closable []) \/
  invocations (snd (Verify.run Demo.scripts (Demo.request "flaky")
                      (Demo.world_of Demo.closable [])))
  = invocations (Demo.world_of Demo.closable [])
      ++ [(Verify.scriptId (Demo.request "flaky"),
           Verify.issueKey (Demo.request "flaky"))].
Proof.
  apply (run_verifies_at_most_once Demo.scripts (Demo.request "flaky")
           (Demo.world_of Demo.closable []) _
           (fst (Verify.run Demo.scripts (Demo.request "flaky")
                   (Demo.world_of Demo.closable [])))).
  vm_compute. reflexivity.
Defined.

(** ** X4: a passing run keeps the earlier comments *)

(** X4. When POST /run answers "closed", or "commented" after a pass, the
    issue has exactly one comment more than before; it begins with the
    tag, and every earlier comment, an earlier failure comment included,
    is still there, unchanged and in the same place. *)
Theorem passing_run_keeps_comments (dir : ScriptDir) (req : Verify.Request)
    (w w' : World) (resp : Response) (v : JsVal) :
  Verify.run dir req w = (Ok resp, w') ->
  (exists t, resp = Verify.closed v t) \/ resp = Verify.commented_pass v ->
  exists i i' c,
    issues (tracker w) !! Verify.issueKey req = Some i /\
    issues (tracker w') !! Verify.issueKey req = Some i' /\
    comments i' = comments i ++ [c] /\
    Js.startsWith (body c) (Verify.prefix_of req) = true.
Proof.
  intros H Hresp.
  apply run_cases in H as (resp' & [= <-] & _ & [((e & He) & _) | H]).
  { destruct Hresp as [[t ->] | ->]; discriminate He. }
  destruct H as [(v' & w2 & Hr & Ht & _) | (v' & w2 & u & e & _ & _ & _ & ->)].
  2:{ destruct Hresp as [[t H] | H]; discriminate H. }
  unfold Verify.resolve, try_catch in Hr. destruct (isSuccess v').
  - destruct (Verify.pass_body _ _ v' w2) as [[r|e] w3] eqn:E.
    + apply pass_body_effect in E as (i & i' & m & c & Hi & _ & Ht' & Hc & Htag).
      simplify_eq. rewrite Ht in Hi, Ht'. exists i, i', c.
      rewrite Ht'. simpl. by rewrite lookup_insert_eq.
    + apply pass_body_inv in E as [_ [m ->]].
      unfold message_of, bind, ret in Hr. simplify_eq.
      destruct Hresp as [[t H] | H]; discriminate H.
  - destruct (Verify.fail_body _ _ v' w2) as [[r|e] w3] eqn:E.
    + apply fail_body_inv in E as [_ [-> _]]. simplify_eq.
      destruct Hresp as [[t H] | H]; discriminate H.
    + apply fail_body_inv in E as [_ [m ->]].
      unfold message_of, bind, ret in Hr. simplify_eq.
      destruct Hresp as [[t H] | H]; discriminate H.
Qed.

Lemma passing_run_keeps_comments_witness :
  exists i i' c,
    issues (tracker (Demo.world_of Demo.closable [])) !!
      Verify.issueKey (Demo.request "sample-test") = Some i /\
    issues (tracker (snd (Verify.run Demo.scripts (Demo.request "sample-test")
                            (Demo.world_of Demo.closable [])))) !!
      Verify.issueKey (Demo.request "sample-test") = Some i' /\
    comments i' = comments i ++ [c] /\
    Js.startsWith (body c) (Verify.prefix_of (Demo.request "sample-test")) = true.
Proof.
  apply (passing_run_keeps_comments Demo.scripts (Demo.request "sample-test")
           (Demo.world_of Demo.closable []) _
           (Verify.closed (VStr "ok") Demo.close_issue) (VStr "ok")).
  - vm_compute. reflexivity.
  - left. by eexists.
Defined.

(** ** X5: the handler always answers *)


(** ** X6, X7: the verification history *)

Lemma get_history_inv (key : string) (commentPrefix : option string)
    (w w' : World) (r : Res VerifyHistory.Response) :
  VerifyHistory.get_history key commentPrefix w = (r, w') ->
  tracker w' = tracker w /\
  invocations w' = invocations w /\
  ((exists m, r = Ok (VerifyHistory.Failure 500
                        ("Failed to get verification history: " +:+ m))) \/
   (exists i,
      issues (tracker w) !! key = Some i /\
      r = Ok (VerifyHistory.History key
                (List.map VerifyHistory.entry_of
                   (List.filter (Verify.tagged (history_prefix commentPrefix))
                      (comments i)))
                (length (List.filter
                           (Verify.tagged (history_prefix commentPrefix))
                           (comments i)))))).
Proof.
  unfold VerifyHistory.get_history, try_catch, bind, ret.
  fold (history_prefix commentPrefix).
  destruct (JiraAPI.getComments key w) as [[cs|e] w1] eqn:E;
    apply getComments_inv in E as (Ht & Hi & H); intros ?; simplify_eq.
  - destruct H as (i & Hi' & ->). split_and!; [done | done |].
    right. exists i. by rewrite length_map.
  - destruct H as [m ->]. simpl in *. simplify_eq.
    split_and!; [done | done | left; by eexists].
Qed.

(** X6. GET /history is a pure read that always answers: it changes
    nothing on the tracker and calls no script. Its answer is a 500 error
    body, or the list of exactly those comments of the issue whose body
    begins with the tag, with [total] their number. *)
Theorem history_is_a_pure_read (key : string) (commentPrefix : option string)
    (w w' : World) (r : Res VerifyHistory.Response) :
  VerifyHistory.get_history key commentPrefix w = (r, w') ->
  tracker w' = tracker w /\
  invocations w' = invocations w /\
  exists resp,
    r = Ok resp /\
    match resp with
    | VerifyHistory.Failure status _ => status = 500
    | VerifyHistory.History k entries total =>
        k = key /\
        total = length entries /\
        exists i,
          issues (tracker w) !! key = Some i /\
          forall id text,
            VerifyHistory.mkEntry id text ∈ entries <->
            mkComment id text ∈ comments i /\
            Js.startsWith text (history_prefix commentPrefix) = true
    end.
Proof.
  intros H. apply get_history_inv in H as (Ht & Hi & [[m ->] | (i & Hl & ->)]).
  - split_and!; [done | done |]. by eexists.
  - split_and!; [done | done |]. eexists. split; [done|].
    split_and!; [done | by rewrite length_map |].
    exists i. split; [done|]. intros id text.
    rewrite list_elem_of_In, in_map_iff. split.
    + intros ([id' text'] & [= -> ->] & Hin).
      apply filter_In in Hin as [Hin Htag]. by rewrite list_elem_of_In.
    + intros [Hin Htag]. exists (mkComment id text). split; [done|].
      apply filter_In. by rewrite <- list_elem_of_In.
Qed.

Lemma history_is_a_pure_read_witness :
  tracker (snd (VerifyHistory.get_history Demo.key None
                  (Demo.world_of Demo.closable [])))
  = tracker (Demo.world_of Demo.closable []) /\
  invocations (snd (VerifyHistory.get_history Demo.key None
                      (Demo.world_of Demo.closable [])))
  = invocations (Demo.world_of Demo.closable []) /\
  exists resp,
    fst (VerifyHistory.get_history Demo.key None
           (Demo.world_of Demo.closable [])) = Ok resp /\
    match resp with
    | VerifyHistory.Failure status _ => status = 500
    | VerifyHistory.History k entries total =>
        k = Demo.key /\
        total = length entries /\
        exists i,
          issues (tracker (Demo.world_of Demo.closable [])) !! Demo.key = Some i /\
          forall id text,
            VerifyHistory.mkEntry id text ∈ entries <->
            mkComment id text ∈ comments i /\
            Js.startsWith text (history_prefix None) = true
    end.
Proof.
  apply (history_is_a_pure_read Demo.key None (Demo.world_of Demo.closable [])).
  vm_compute. reflexivity.
Defined.

Lemma filter_head_of_find {A} (f : A -> bool) (l : list A) (x : A) :
  List.find f l = Some x -> exists rest, List.filter f l = x :: rest.
Proof.
  induction l as [|y l IH]; simpl; [done|].
  destruct (f y); [intros [= ->]; by eexists | auto].
Qed.

Lemma find_snoc_none {A} (f : A -> bool) (l : list A) (c : A) :
  List.find f l = None ->
  List.find f (l ++ [c]) = if f c then Some c else None.
Proof.
  induction l as [|y l IH]; simpl; [done|]. destruct (f y); [done | auto].
Qed.

Lemma set_body_same (id : nat) (text : string) (x : Comment) :
  cid x = id -> set_body id text x = mkComment id text.
Proof. intros H. unfold set_body. by rewrite decide_True. Qed.

Lemma set_body_diff (id : nat) (text : string) (x : Comment) :
  cid x <> id -> set_body id text x = x.
Proof. intros H. unfold set_body. by rewrite decide_False. Qed.

Lemma first_tagged_rewritten (prefix text : string) (cs : list Comment)
    (c : Comment) :
  Js.startsWith text prefix = true ->
  List.find (Verify.tagged prefix) cs = Some c ->
  exists c',
    List.find (Verify.tagged prefix) (set_body (cid c) text <$> cs) = Some c' /\
    body c' = text.
Proof.
  intros Ht.
  assert (Hnew : forall id, Verify.tagged prefix (mkComment id text) = true)
    by (intros id; exact Ht).
  induction cs as [|x cs IH]; [done|].
  rewrite fmap_cons. cbn [List.find].
  destruct (Verify.tagged prefix x) eqn:Ex.
  - intros [= ->]. rewrite (set_body_same _ _ _ eq_refl), Hnew.
    eexists. split; reflexivity.
  - intros Hc. destruct (decide (cid x = cid c)) as [Hid|Hid].
    + rewrite (set_body_same _ _ _ Hid), Hnew. eexists. split; reflexivity.
    + rewrite (set_body_diff _ _ _ Hid), Ex. auto.
Qed.

Lemma first_tagged_after_reconcile (prefix text : string) (cs : list Comment) :
  Js.startsWith text prefix = true ->
  exists c,
    List.find (Verify.tagged prefix) (reconcile prefix text cs) = Some c /\
    body c = text.
Proof.
  intros Ht. unfold reconcile.
  destruct (List.find (Verify.tagged prefix) cs) as [c|] eqn:E.
  - by apply first_tagged_rewritten.
  - exists (mkComment (fresh_cid cs) text). split; [|done].
    rewrite (find_snoc_none _ _ _ E). unfold Verify.tagged. simpl. by rewrite Ht.
Qed.

(** X7. After a run that was answered CommentedFail, the history of the
    issue under the same tag is not empty, and its first entry reads
    tag + " " + the reason of that run, whatever comments the issue
    carried before. *)
Theorem history_shows_latest_failure (dir : ScriptDir) (req : Verify.Request)
    (w w1 w2 : World) (v : JsVal) (k : string)
    (entries : list VerifyHistory.Entry) (total : nat) :
  Verify.run dir req w = (Ok (Verify.commented_fail v), w1) ->
  VerifyHistory.get_history (Verify.issueKey req) (Verify.commentPrefix req) w1
    = (Ok (VerifyHistory.History k entries total), w2) ->
  exists e rest,
    entries = e :: rest /\
    VerifyHistory.entry_body e = Verify.prefix_of req +:+ " " +:+ render v.
Proof.
  intros Hrun Hhist.
  apply run_commented_fail in Hrun as (_ & i & Hi & Hiss & _).
  apply get_history_inv in Hhist as (_ & _ & [[m ?] | (i' & Hi' & Hh)]);
    [done|].
  rewrite Hiss, lookup_insert_eq in Hi'. injection Hi' as <-.
  injection Hh as _ -> _. simpl.
  change (history_prefix (Verify.commentPrefix req)) with (Verify.prefix_of req).
  destruct (first_tagged_after_reconcile (Verify.prefix_of req)
              (Verify.prefix_of req +:+ " " +:+ render v) (comments i)
              (startsWith_append _ _)) as (c & Hc & Hb).
  apply filter_head_of_find in Hc as [rest Hf]. rewrite Hf. simpl.
  eexists _, _. split; [reflexivity|]. by simpl.
Qed.

Lemma history_shows_latest_failure_witness :
  exists e rest,
    [VerifyHistory.mkEntry 1 "[Verification] timeout"] = e :: rest /\
    VerifyHistory.entry_body e
    = Verify.prefix_of (Demo.request "timeout") +:+ " " +:+ render (VStr "timeout").
Proof.
  apply (history_shows_latest_failure Demo.scripts (Demo.request "timeout")
           (Demo.world_of Demo.closable [])
           (snd (Verify.run Demo.scripts (Demo.request "timeout")
                   (Demo.world_of Demo.closable [])))
           (snd (VerifyHistory.get_history Demo.key None
                   (snd (Verify.run Demo.scripts (Demo.request "timeout")
                           (Demo.world_of Demo.closable [])))))
           (VStr "timeout") Demo.key _ 1);
    vm_compute; reflexivity.
Defined.

(** * Properties of utils/csvUtils.js *)

(** ** X8: which headers pass the validation *)

Lemma check_required_spec (headers required errors : list string) :
  Csv.check_required headers required errors =
    errors ++ (Csv.missing_header <$>
                 List.filter (fun r => negb (Csv.includes headers r)) required).
Proof.
  revert errors. induction required as [|r required IH]; intros errors; simpl.
  - by rewrite app_nil_r.
  - rewrite IH. destruct (Csv.includes headers r); simpl; [done|].
    by rewrite <- app_assoc.
Qed.

Lemma check_valid_spec (headers errors : list string) :
  Csv.check_valid headers errors =
    errors ++ (Csv.invalid_header <$>
                 List.filter (fun h => negb (Csv.includes Csv.validHeaders h)) headers).
Proof.
  revert errors. induction headers as [|h headers IH]; intros errors; simpl.
  - by rewrite app_nil_r.
  - rewrite IH. destruct (Csv.includes Csv.validHeaders h); simpl; [done|].
    by rewrite <- app_assoc.
Qed.

(** X8. [validateIssueCSVHeaders] accepts a header list exactly when it
    contains "summary" and every header is one of the nine valid names,
    spelled exactly so. Its errors are one line for a missing "summary",
    first, then one line for each invalid header, in their order. *)
Theorem headers_valid_iff (headers : list string) :
  (Csv.valid (Csv.validateIssueCSVHeaders headers) = true <->
   "summary" ∈ headers /\ Forall (fun h => h ∈ Csv.validHeaders) headers) /\
  Csv.errors (Csv.validateIssueCSVHeaders headers) =
    (if bool_decide ("summary" ∈ headers) then []
     else ["Missing required header: summary"])
    ++ (Csv.invalid_header <$>
          List.filter (fun h => negb (bool_decide (h ∈ Csv.validHeaders))) headers).
Proof.
  assert (He : Csv.errors (Csv.validateIssueCSVHeaders headers) =
    (if bool_decide ("summary" ∈ headers) then []
     else ["Missing required header: summary"])
    ++ (Csv.invalid_header <$>
          List.filter (fun h => negb (bool_decide (h ∈ Csv.validHeaders))) headers)).
  { unfold Csv.validateIssueCSVHeaders. simpl.
    rewrite check_valid_spec. reflexivity. }
  split; [|exact He].
  unfold Csv.validateIssueCSVHeaders in *. simpl in *.
  rewrite bool_decide_eq_true, He. clear He.
  rewrite length_app, length_fmap. split.
  - intros Hl.
    destruct (bool_decide ("summary" ∈ headers)) eqn:Es; [|simpl in Hl; lia].
    apply bool_decide_eq_true in Es. split; [done|].
    simpl in Hl. apply length_zero_iff_nil in Hl.
    apply Forall_forall. intros h Hh.
    destruct (decide (h ∈ Csv.validHeaders)) as [|Hn]; [done|].
    assert (Hin : In h (List.filter
                 (fun h => negb (bool_decide (h ∈ Csv.validHeaders))) headers)).
    { apply filter_In. split; [by apply list_elem_of_In|].
      by rewrite bool_decide_eq_false_2. }
    rewrite Hl in Hin. destruct Hin.
  - intros [Hs Hall]. rewrite bool_decide_eq_true_2 by done. simpl.
    apply length_zero_iff_nil. clear Hs.
    induction Hall as [|h hs Hh _ IH]; simpl; [done|].
    by rewrite bool_decide_eq_true_2.
Qed.

(** ** X9: the shape of the processed data *)

Lemma process_rows_spec (template : option Templates.Template)
    (csvData : list Csv.Row) (index : nat)
    (processedData : list Csv.ProcessedRow) (errors : list Csv.RowErrors) :
  Csv.process_rows template index csvData processedData errors =
    (processedData ++ imap (fun i => Csv.process_row template (index + i)) csvData,
     errors ++ omap reported
                 (imap (fun i => Csv.process_row template (index + i)) csvData)).
Proof.
  revert index processedData errors.
  induction csvData as [|row rest IH]; intros index processedData errors; simpl.
  - by rewrite !app_nil_r.
  - rewrite IH, Nat.add_0_r. simpl.
    assert (Hi : imap (fun i => Csv.process_row template (S (index + i))) rest
               = imap ((fun i => Csv.process_row template (index + i)) ∘ S) rest).
    { apply imap_ext. intros i x _. simpl. f_equal. lia. }
    rewrite Hi. unfold reported at 2.
    destruct (Csv.row_errors (Csv.process_row template index row)); simpl;
      by rewrite <- ?app_assoc.
Qed.

Lemma rowNumber_process_cells (row : Csv.Row) (r : Csv.ProcessedRow) :
  Csv.rowNumber (Csv.process_cells row r) = Csv.rowNumber r.
Proof.
  revert r. induction row as [|[key cell] row IH]; intros r; simpl; [done|].
  rewrite IH. unfold Csv.process_cell.
  repeat (case_match; simpl; try done).
Qed.

Lemma rowNumber_process_row (template : option Templates.Template)
    (index : nat) (row : Csv.Row) :
  Csv.rowNumber (Csv.process_row template index row) = index + 1.
Proof.
  unfold Csv.process_row. case_match; simpl; by rewrite rowNumber_process_cells.
Qed.

Lemma processed_length (csvData : list Csv.Row)
    (template : option Templates.Template) :
  length (Csv.processedData (Csv.processIssueCSVData csvData template))
  = length csvData.
Proof.
  unfold Csv.processIssueCSVData. rewrite process_rows_spec. simpl.
  by rewrite length_imap.
Qed.

Lemma processed_numbered (csvData : list Csv.Row)
    (template : option Templates.Template) (i : nat) (r : Csv.ProcessedRow) :
  Csv.processedData (Csv.processIssueCSVData csvData template) !! i = Some r ->
  Csv.rowNumber r = i + 1.
Proof.
  unfold Csv.processIssueCSVData. rewrite process_rows_spec. simpl.
  rewrite list_lookup_imap. intros Hr.
  destruct (csvData !! i); simplify_eq/=. apply rowNumber_process_row.
Qed.

Lemma processed_errors (csvData : list Csv.Row)
    (template : option Templates.Template) :
  Csv.rowErrors (Csv.processIssueCSVData csvData template)
  = omap reported
      (Csv.processedData (Csv.processIssueCSVData csvData template)).
Proof.
  unfold Csv.processIssueCSVData. by rewrite process_rows_spec.
Qed.

Lemma processed_valid (csvData : list Csv.Row)
    (template : option Templates.Template) :
  Csv.all_valid (Csv.processIssueCSVData csvData template) = true <->
  Forall (fun r => Csv.row_errors r = [])
    (Csv.processedData (Csv.processIssueCSVData csvData template)).
Proof.
  unfold Csv.processIssueCSVData. rewrite process_rows_spec. simpl.
  rewrite bool_decide_eq_true.
  generalize (imap (fun i => Csv.process_row template i) csvData).
  intros rows. induction rows as [|r rows IH]; simpl; [done|].
  unfold reported at 1. destruct (Csv.row_errors r) eqn:E; simpl.
  - rewrite IH. split; [by constructor | by inversion 1].
  - split; [done | inversion 1; congruence].
Qed.

(** X9. [processIssueCSVData] returns one processed row for each CSV row,
    in order, numbered from 1. Its error list holds, in order, exactly the
    rows that have errors, each with its number and its errors, and the
    data are valid exactly when no row has an error. *)
Theorem processed_rows_shape (csvData : list Csv.Row)
    (template : option Templates.Template) :
  let p := Csv.processIssueCSVData csvData template in
  length (Csv.processedData p) = length csvData /\
  (forall i r, Csv.processedData p !! i = Some r -> Csv.rowNumber r = i + 1) /\
  Csv.rowErrors p = omap reported (Csv.processedData p) /\
  (Csv.all_valid p = true <->
   Forall (fun r => Csv.row_errors r = []) (Csv.processedData p)).
Proof.
  intros p. split_and!.
  - apply processed_length.
  - apply processed_numbered.
  - apply processed_errors.
  - apply processed_valid.
Qed.

(** ** X10: the errors of a row *)

Lemma summary_after_cell (key cell : string) (r : Csv.ProcessedRow) :
  Templates.present (Csv.summary (Csv.data (Csv.process_cell key cell r))) =
    summary_cell (key, cell)
    || Templates.present (Csv.summary (Csv.data r)).
Proof.
  unfold summary_cell. simpl.
  destruct (Js.truthy (JsStr.trim cell)) eqn:Ev.
  - destruct (decide (Js.toLowerCase key = "summary")) as [Hk|Hk].
    + rewrite bool_decide_eq_true_2 by done. simpl.
      unfold Csv.process_cell. rewrite Ev. simpl. by rewrite decide_True.
    + rewrite bool_decide_eq_false_2 by done. simpl.
      unfold Csv.process_cell. rewrite Ev. simpl. rewrite decide_False by done.
      repeat (case_decide || case_match); reflexivity.
  - rewrite andb_false_r. simpl. unfold Csv.process_cell. by rewrite Ev.
Qed.

Lemma errors_after_cell (key cell : string) (r : Csv.ProcessedRow) :
  Csv.row_errors (Csv.process_cell key cell r) =
    Csv.row_errors r ++ option_list (date_error (key, cell)).
Proof.
  unfold date_error, due_date_cell. simpl.
  destruct (Js.truthy (JsStr.trim cell)) eqn:Ev.
  2:{ rewrite andb_false_r. simpl. unfold Csv.process_cell. rewrite Ev. simpl.
      by rewrite app_nil_r. }
  rewrite andb_true_r. unfold Csv.process_cell. rewrite Ev. simpl.
  destruct (decide (Js.toLowerCase key = "duedate")) as [H1|H1].
  { rewrite H1. simpl.
    destruct (JsStr.date_format (JsStr.trim cell)); simpl; by rewrite ?app_nil_r. }
  destruct (decide (Js.toLowerCase key = "due_date")) as [H2|H2].
  { rewrite H2. simpl.
    destruct (JsStr.date_format (JsStr.trim cell)); simpl; by rewrite ?app_nil_r. }
  rewrite !bool_decide_eq_false_2 by done. simpl. rewrite app_nil_r.
  repeat (case_decide || case_match); try reflexivity.
  all: by destruct_or!.
Qed.

Lemma cells_summary (row : Csv.Row) (r : Csv.ProcessedRow) :
  Templates.present (Csv.summary (Csv.data (Csv.process_cells row r))) =
    existsb summary_cell row || Templates.present (Csv.summary (Csv.data r)).
Proof.
  revert r. induction row as [|[key cell] row IH]; intros r; simpl; [done|].
  rewrite IH, summary_after_cell.
  destruct (summary_cell (key, cell)), (existsb summary_cell row); simpl;
    try done; by rewrite ?orb_true_r.
Qed.

Lemma cells_errors (row : Csv.Row) (r : Csv.ProcessedRow) :
  Csv.row_errors (Csv.process_cells row r) =
    Csv.row_errors r ++ omap date_error row.
Proof.
  revert r. induction row as [|[key cell] row IH]; intros r; simpl.
  - by rewrite app_nil_r.
  - rewrite IH, errors_after_cell, <- app_assoc. f_equal.
    by destruct (date_error (key, cell)).
Qed.

(** X10. The errors of a processed row are exactly these, in this order:
    one line for each non-blank cell of a due-date column that is not of
    the form YYYY-MM-DD, in column order, then "Summary is required" when
    no column named summary (in any letter case) has a non-blank cell.
    The template has no part in it: its summary does not count. *)
Theorem row_errors_exactly (template : option Templates.Template)
    (index : nat) (row : Csv.Row) :
  Csv.row_errors (Csv.process_row template index row) =
    omap date_error row
    ++ (if existsb summary_cell row then [] else ["Summary is required"]).
Proof.
  unfold Csv.process_row. rewrite cells_summary.
  assert (Hs : Templates.present
                 (Csv.summary (match template with
                               | Some t => Csv.from_template t
                               | None => Csv.empty
                               end)) = false) by by destruct template.
  simpl. rewrite Hs, orb_false_r.
  destruct (existsb summary_cell row); simpl; rewrite cells_errors; simpl;
    by rewrite ?app_nil_r.
Qed.

(** A template with a summary does not make up for a missing summary
    column. *)
Example template_summary_is_not_used :
  Forall (fun t =>
            Csv.row_errors
              (Csv.process_row (Some t) 0 [("description", "no summary here")])
            = ["Summary is required"])
         Templates.getDefaultTemplates.
Proof. repeat constructor. Qed.

(** ** X11: accepted due dates *)

Lemma date_format_length (d : string) :
  JsStr.date_format d = true -> String.length d = 10.
Proof.
  unfold JsStr.date_format.
  do 11 (destruct d as [|? d]; try discriminate). reflexivity.
Qed.

Lemma dueDate_after_cell (key cell : string) (r : Csv.ProcessedRow) (d : string) :
  Csv.dueDate (Csv.data (Csv.process_cell key cell r)) = Some d ->
  Csv.dueDate (Csv.data r) = Some d \/
  (due_date_cell (key, cell) = true /\ d = JsStr.trim cell /\
   JsStr.date_format d = true).
Proof.
  unfold Csv.process_cell.
  destruct (Js.truthy (JsStr.trim cell)) eqn:Ev; simpl; [|by left].
  repeat (case_decide || case_match); simpl; try (by left).
  all: intros [= <-]; right; split_and!; try done.
  all: unfold due_date_cell; simpl.
  all: rewrite Ev, andb_true_r, orb_true_iff, !bool_decide_eq_true; tauto.
Qed.

Lemma dueDate_after_cells (row : Csv.Row) (r : Csv.ProcessedRow) (d : string) :
  Csv.dueDate (Csv.data (Csv.process_cells row r)) = Some d ->
  Csv.dueDate (Csv.data r) = Some d \/
  (exists cell, cell ∈ row /\ due_date_cell cell = true /\
                d = JsStr.trim cell.2 /\ JsStr.date_format d = true).
Proof.
  revert r. induction row as [|[key cell] row IH]; intros r; simpl; [by left|].
  intros H. apply IH in H as [H | (c & Hin & Hc)].
  - apply dueDate_after_cell in H as [H | (Hd & -> & Hf)]; [by left|].
    right. exists (key, cell). split; [left | done].
  - right. exists c. split; [by right | done].
Qed.

(** X11. A processed row has a due date only if its CSV row has a
    non-blank due-date cell whose trimmed text has the form YYYY-MM-DD
    (ten characters); the due date is that text, and no template supplies
    one. The check is on the form alone: 2024-13-45 is accepted. *)
Theorem due_date_is_well_formed (template : option Templates.Template)
    (index : nat) (row : Csv.Row) (d : string) :
  Csv.dueDate (Csv.data (Csv.process_row template index row)) = Some d ->
  JsStr.date_format d = true /\
  String.length d = 10 /\
  exists cell, cell ∈ row /\ due_date_cell cell = true /\ d = JsStr.trim cell.2.
Proof.
  unfold Csv.process_row. intros H.
  assert (H' : Csv.dueDate (Csv.data (Csv.process_cells row
            (Csv.mkProcessedRow (index + 1)
               (match template with
                | Some t => Csv.from_template t
                | None => Csv.empty
                end) []))) = Some d).
  { revert H. by case_match. }
  apply dueDate_after_cells in H' as [H' | (c & Hin & Hc & -> & Hf)].
  - by destruct template.
  - split_and!; [done | by apply date_format_length | by exists c].
Qed.

Lemma due_date_is_well_formed_witness :
  JsStr.date_format "2024-13-45" = true /\
  String.length "2024-13-45" = 10 /\
  exists cell,
    cell ∈ [("Summary", "Fix login"); ("Due_Date", " 2024-13-45 ")] /\
    due_date_cell cell = true /\ "2024-13-45" = JsStr.trim cell.2.
Proof.
  apply (due_date_is_well_formed None 0
           [("Summary", "Fix login"); ("Due_Date", " 2024-13-45 ")]).
  reflexivity.
Defined.

(** ** X12: labels and components read from a cell *)

Lemma split_list_clean (value : string) :
  Forall (fun x => x <> "" /\ exists piece, x = JsStr.trim piece)
         (Csv.split_list value).
Proof.
  unfold Csv.split_list. apply Forall_forall. intros x Hx.
  apply list_elem_of_In, filter_In in Hx as [Hx Ht].
  apply in_map_iff in Hx as (piece & <- & _).
  split; [|by eexists]. by destruct (JsStr.trim piece).
Qed.

Lemma labels_after_cell (key cell : string) (r : Csv.ProcessedRow) :
  Csv.labels (Csv.data (Csv.process_cell key cell r)) = Csv.labels (Csv.data r) \/
  (exists value, Js.truthy value = true /\
     Csv.labels (Csv.data (Csv.process_cell key cell r))
     = Some (Csv.split_list value)).
Proof.
  unfold Csv.process_cell.
  destruct (Js.truthy (JsStr.trim cell)) eqn:Ev; simpl; [|by left].
  repeat (case_decide || case_match); simpl; try (by left).
  right. by eexists.
Qed.

Lemma components_after_cell (key cell : string) (r : Csv.ProcessedRow) :
  Csv.components (Csv.data (Csv.process_cell key cell r))
  = Csv.components (Csv.data r) \/
  (exists value, Js.truthy value = true /\
     Csv.components (Csv.data (Csv.process_cell key cell r))
     = Some (Csv.split_list value)).
Proof.
  unfold Csv.process_cell.
  destruct (Js.truthy (JsStr.trim cell)) eqn:Ev; simpl; [|by left].
  repeat (case_decide || case_match); simpl; try (by left).
  right. by eexists.
Qed.

Lemma lists_after_cells (row : Csv.Row) (r : Csv.ProcessedRow) :
  (Csv.labels (Csv.data (Csv.process_cells row r)) = Csv.labels (Csv.data r) \/
   exists value, Csv.labels (Csv.data (Csv.process_cells row r))
                 = Some (Csv.split_list value)) /\
  (Csv.components (Csv.data (Csv.process_cells row r))
   = Csv.components (Csv.data r) \/
   exists value, Csv.components (Csv.data (Csv.process_cells row r))
                 = Some (Csv.split_list value)).
Proof.
  revert r. induction row as [|[key cell] row IH]; intros r; simpl; [tauto|].
  destruct (IH (Csv.process_cell key cell r)) as [Hl Hc]. split.
  - destruct Hl as [-> | Hl]; [|by right].
    destruct (labels_after_cell key cell r) as [-> | (v & _ & ->)];
      [by left | right; by eexists].
  - destruct Hc as [-> | Hc]; [|by right].
    destruct (components_after_cell key cell r) as [-> | (v & _ & ->)];
      [by left | right; by eexists].
Qed.

(** X12. The components of a processed row, and its labels unless they
    are still the ones the template gave, never hold an empty entry: each
    entry is a trimmed, non-empty piece of a comma-separated cell. A cell
    holding only commas and blanks gives the empty list. *)
Theorem cell_lists_are_clean (template : option Templates.Template)
    (index : nat) (row : Csv.Row) (l : list string) :
  let clean x := x <> "" /\ exists piece, x = JsStr.trim piece in
  (Csv.labels (Csv.data (Csv.process_row template index row)) = Some l ->
   Some l = initial_labels template \/ Forall clean l) /\
  (Csv.components (Csv.data (Csv.process_row template index row)) = Some l ->
   Forall clean l) /\
  Csv.split_list " , ,, " = [].
Proof.
  simpl. unfold Csv.process_row.
  set (start := Csv.mkProcessedRow _ _ _).
  destruct (lists_after_cells row start) as [Hl Hc].
  assert (Hd : forall P : Csv.Data -> Prop,
            P (Csv.data (Csv.process_cells row start)) ->
            P (Csv.data (if Templates.present
                              (Csv.summary (Csv.data (Csv.process_cells row start)))
                         then Csv.process_cells row start
                         else Csv.mkProcessedRow
                                (Csv.rowNumber (Csv.process_cells row start))
                                (Csv.data (Csv.process_cells row start))
                                (Csv.row_errors (Csv.process_cells row start)
                                   ++ ["Summary is required"])))).
  { intros P HP. by case_match. }
  split_and!.
  - apply (Hd (fun d => Csv.labels d = Some l -> _)). intros H.
    destruct Hl as [Hl | [v Hl]]; rewrite Hl in H.
    + left. rewrite <- H. by destruct template.
    + right. injection H as <-. apply split_list_clean.
  - apply (Hd (fun d => Csv.components d = Some l -> _)). intros H.
    destruct Hc as [Hc | [v Hc]]; rewrite Hc in H.
    + by destruct template.
    + injection H as <-. apply split_list_clean.
  - reflexivity.
Qed.

Lemma cell_lists_are_clean_witness :
  let clean x := x <> "" /\ exists piece, x = JsStr.trim piece in
  (Csv.labels (Csv.data (Csv.process_row None 0
                           [("summary", "s"); ("labels", "bug, ,mobile ,")]))
   = Some ["bug"; "mobile"] ->
   Some ["bug"; "mobile"] = initial_labels None \/
   Forall clean ["bug"; "mobile"]) /\
  (Csv.components (Csv.data (Csv.process_row None 0
                               [("summary", "s"); ("labels", "bug, ,mobile ,")]))
   = Some ["bug"; "mobile"] ->
   Forall clean ["bug"; "mobile"]) /\
  Csv.split_list " , ,, " = [].
Proof.
  exact (cell_lists_are_clean None 0
           [("summary", "s"); ("labels", "bug, ,mobile ,")] ["bug"; "mobile"]).
Defined.

(** ** X13: cells without influence *)

Lemma irrelevant_cell_ignored (key cell : string) (r : Csv.ProcessedRow) :
  relevant_cell (key, cell) = false -> Csv.process_cell key cell r = r.
Proof.
  unfold relevant_cell, known_columns, Csv.process_cell. simpl.
  destruct (Js.truthy (JsStr.trim cell)); simpl; [|done].
  rewrite orb_false_iff, bool_decide_eq_false. intros [Hk Hc]. rewrite Hc.
  repeat case_decide; try done; exfalso; apply Hk;
    rewrite !elem_of_cons; tauto.
Qed.

(** X13. Blank cells, and cells of a column that is neither one of the
    known columns (in any letter case) nor named customfield_..., have no
    influence: the row is processed as if they were not there. *)
Theorem irrelevant_cells_are_ignored (template : option Templates.Template)
    (index : nat) (row : Csv.Row) :
  Csv.process_row template index row =
  Csv.process_row template index (List.filter relevant_cell row).
Proof.
  unfold Csv.process_row.
  set (start := Csv.mkProcessedRow _ _ _).
  assert (H : Csv.process_cells row start
              = Csv.process_cells (List.filter relevant_cell row) start).
  { generalize start. clear. induction row as [|[key cell] row IH]; intros r;
      simpl; [done|].
    destruct (relevant_cell (key, cell)) eqn:E; simpl.
    - apply IH.
    - rewrite irrelevant_cell_ignored by done. apply IH. }
  by rewrite H.
Qed.

(** * Properties of routes/create.js *)

Section CreateRoutes.
Context {Buffer : Type} (parseCSV : Buffer -> Thrown + list Csv.Row).
Context {json : Templates.Json}.
Context (serve_createIssue : Create.IssueData -> Tracker -> Reply Create.Created).

Lemma create_row_inv (row : Csv.ProcessedRow)
    (results : list Create.CreatedRow) (errors : list Create.FailedRow)
    (w w' : World) (r : Res (list Create.CreatedRow * list Create.FailedRow)) :
  Csv.row_errors row = [] ->
  Create.create_row serve_createIssue row (results, errors) w = (r, w') ->
  (exists c, r = Ok (results ++ [c], errors) /\
             Create.created_row c = Csv.rowNumber row) \/
  (exists m, r = Ok (results, errors ++ [Create.RowFailed (Csv.rowNumber row) m])).
Proof.
  intros He. unfold Create.create_row, try_catch, bind, ret, Create.createIssue.
  rewrite He. simpl.
  destruct (JiraAPI.makeRequest _ w) as [[c|e] w1] eqn:E.
  - intros ?; simplify_eq. left. by eexists.
  - apply makeRequest_inv in E as [_ [[m ->] _]]. simpl.
    intros ?; simplify_eq. right. by eexists.
Qed.

Lemma create_rows_inv (rows : list Csv.ProcessedRow) :
  Forall (fun row => Csv.row_errors row = []) rows ->
  forall (results : list Create.CreatedRow) (errors : list Create.FailedRow)
         (w w' : World)
         (r : Res (list Create.CreatedRow * list Create.FailedRow)),
    Create.create_rows serve_createIssue rows (results, errors) w = (r, w') ->
    exists results' errors',
      r = Ok (results ++ results', errors ++ errors') /\
      (Create.created_row <$> results') ++ (Create.failed_row <$> errors')
        ≡ₚ Csv.rowNumber <$> rows /\
      Forall (fun f => exists n m, f = Create.RowFailed n m) errors'.
Proof.
  induction 1 as [|row rows Hrow _ IH]; intros results errors w w' r;
    cbn [Create.create_rows].
  - unfold ret. intros ?; simplify_eq. exists [], [].
    by rewrite !app_nil_r.
  - unfold bind.
    destruct (Create.create_row serve_createIssue row (results, errors) w)
      as [r1 w1] eqn:E1.
    apply create_row_inv in E1 as [(c & -> & Hc) | (m & ->)]; [| |done].
    + intros H. apply IH in H as (rs & es & -> & Hp & Hf).
      exists (c :: rs), es. rewrite <- app_assoc. split_and!; [done | | done].
      simpl. by rewrite Hc, Hp.
    + intros H. apply IH in H as (rs & es & -> & Hp & Hf).
      exists rs, (Create.RowFailed (Csv.rowNumber row) m :: es).
      rewrite <- app_assoc. split_and!; [done | | ].
      * simpl. rewrite <- Hp. by rewrite <- Permutation_middle.
      * constructor; [by eexists _, _ | done].
Qed.

Lemma row_numbers (template : option Templates.Template)
    (csvData : list Csv.Row) (k : nat) :
  Csv.rowNumber <$> imap (fun i => Csv.process_row template (k + i)) csvData
  = seq (k + 1) (length csvData).
Proof.
  revert k. induction csvData as [|row rest IH]; intros k; simpl; [done|].
  rewrite rowNumber_process_row, Nat.add_0_r. f_equal.
  change (S (k + 1)) with (S k + 1). rewrite <- (IH (S k)).
  change (list_fmap Csv.ProcessedRow nat Csv.rowNumber) with
    (fmap (M := list) Csv.rowNumber).
  f_equal. apply imap_ext. intros i x _. simpl. f_equal. lia.
Qed.

Lemma processed_row_numbers (template : option Templates.Template)
    (csvData : list Csv.Row) :
  Csv.rowNumber <$> Csv.processedData (Csv.processIssueCSVData csvData template)
  = seq 1 (length csvData).
Proof.
  unfold Csv.processIssueCSVData. rewrite process_rows_spec. simpl.
  apply (row_numbers template csvData 0).
Qed.

(** X14. Bulk creation contacts Jira only after the whole file passed:
    unless the answer is the completion report, nothing was sent to Jira.
    This covers a missing file, an unknown template, a file csv-parser
    rejects, an empty file, and a file in which any row has an error; in
    the last case the answer lists the errors of the rows. The handler
    answers in every case but one: a rejection of csv-parser that carries
    [null] or [undefined] escapes it. *)
Theorem bulk_validates_before_creating (req : Create.BulkRequest)
    (d : Templates.Disk) (w w' : World) (r : Res Create.BulkAnswer) :
  Create.bulk parseCSV serve_createIssue req d w = (r, w') ->
  match r with
  | Ok (Create.Completed _ _ _ _ _ _) => True
  | Ok (Create.BulkRefused status _) =>
      w' = w /\ (status = 400 \/ status = 404 \/ status = 500)
  | Ok (Create.ValidationFailed errors) =>
      w' = w /\ errors <> [] /\
      exists buffer csvData template,
        Create.file req = Some buffer /\
        parseCSV buffer = inr csvData /\
        errors = omap reported
                   (Csv.processedData
                      (Csv.processIssueCSVData csvData template))
  | Throw _ =>
      w' = w /\
      exists buffer n, Create.file req = Some buffer /\
                       parseCSV buffer = inl (Nullish n)
  end.
Proof.
  unfold Create.bulk, try_catch, bind, ret, throw.
  destruct (Create.file req) as [buffer|];
    [|intros ?; simplify_eq; simpl; auto].
  set (lookup := match Create.given (Create.templateId req) with
                 | Some tid => _ | None => _ end).
  destruct lookup as [[]|template]; [intros ?; simplify_eq; simpl; auto|].
  destruct (parseCSV buffer) as [e|csvData] eqn:Ep.
  { destruct e; simpl; intros ?; simplify_eq; simpl; eauto 6. }
  destruct (length csvData =? 0); [intros ?; simplify_eq; simpl; auto|].
  destruct (Csv.all_valid (Csv.processIssueCSVData csvData template)) eqn:Ev;
    simpl.
  - destruct (Create.create_rows serve_createIssue _ _ w) as [r1 w1] eqn:El.
    apply create_rows_inv in El as (rs & es & -> & _);
      [|by apply (processed_valid csvData template)].
    simpl. by intros ?; simplify_eq.
  - intros ?; simplify_eq. simpl.
    split_and!; [done | | ].
    + intros Hn. unfold Csv.processIssueCSVData in Ev, Hn.
      destruct (Csv.process_rows template 0 csvData [] []) as [pd errs].
      simpl in *. subst errs. by rewrite bool_decide_eq_true_2 in Ev.
    + exists buffer, csvData, template. split_and!; [done | done |].
      apply (processed_errors csvData template).
Qed.

Lemma create_rows_requests (rows : list Csv.ProcessedRow) :
  Forall (fun row => Csv.row_errors row = []) rows ->
  forall (results : list Create.CreatedRow) (errors : list Create.FailedRow)
         (w : World),
    Create.create_rows serve_createIssue rows (results, errors) w =
      (Ok (results ++
             omap Create.created_entry
               (zip rows (Create.row_requests serve_createIssue rows w).1),
           errors ++
             omap Create.failed_entry
               (zip rows (Create.row_requests serve_createIssue rows w).1)),
       (Create.row_requests serve_createIssue rows w).2).
Proof.
  induction 1 as [|row rows Hrow _ IH]; intros results errors w;
    cbn [Create.create_rows Create.row_requests].
  - unfold ret. simpl. by rewrite !app_nil_r.
  - unfold bind, Create.create_row, try_catch, ret. rewrite Hrow. simpl.
    unfold bind.
    destruct (Create.createIssue serve_createIssue
                (Create.row_data (Csv.data row)) w) as [[c|e] w1] eqn:E.
    + rewrite IH.
      destruct (Create.row_requests serve_createIssue rows w1) as [rs w2].
      simpl. by rewrite <- !app_assoc.
    + apply makeRequest_inv in E as E'. destruct E' as [_ [[m ->] _]].
      simpl. rewrite IH.
      destruct (Create.row_requests serve_createIssue rows w1) as [rs w2].
      simpl. by rewrite <- !app_assoc.
Qed.

Lemma row_requests_length (rows : list Csv.ProcessedRow) (w : World) :
  length (Create.row_requests serve_createIssue rows w).1 = length rows.
Proof.
  revert w. induction rows as [|row rows IH]; intros w; simpl; [done|].
  destruct (Create.createIssue _ _ w) as [r w1].
  specialize (IH w1).
  destruct (Create.row_requests serve_createIssue rows w1) as [rs w2].
  simpl in *. by rewrite IH.
Qed.

(** X15. When bulk creation completes, every row of the file is accounted
    for exactly once: the rows reported as created and the rows reported
    as failed are together the rows 1 to n of the file, so successful +
    failed = total. The requests are made row by row, in order; a row
    whose request fails does not stop the rows after it. A created row
    carries the key and id Jira returned for it, a failed row the message
    of the Error its request threw. *)
Theorem bulk_accounts_for_every_row (req : Create.BulkRequest)
    (d : Templates.Disk) (w w' : World) (message : string)
    (created : list Create.CreatedRow) (errors : list Create.FailedRow)
    (total successful failed : nat) :
  Create.bulk parseCSV serve_createIssue req d w
    = (Ok (Create.Completed message created errors total successful failed), w') ->
  successful = length created /\
  failed = length errors /\
  successful + failed = total /\
  (Create.created_row <$> created) ++ (Create.failed_row <$> errors)
    ≡ₚ seq 1 total /\
  message = Create.completed_message successful failed /\
  exists buffer csvData template answers,
    Create.file req = Some buffer /\ parseCSV buffer = inr csvData /\
    total = length csvData /\
    let rows := Csv.processedData (Csv.processIssueCSVData csvData template) in
    Create.row_requests serve_createIssue rows w = (answers, w') /\
    length answers = total /\
    created = omap Create.created_entry (zip rows answers) /\
    errors = omap Create.failed_entry (zip rows answers).
Proof.
  unfold Create.bulk, try_catch, bind, ret, throw.
  destruct (Create.file req) as [buffer|]; [|intros ?; simplify_eq].
  set (lookup := match Create.given (Create.templateId req) with
                 | Some tid => _ | None => _ end).
  destruct lookup as [[]|template]; [intros ?; simplify_eq|].
  destruct (parseCSV buffer) as [e|csvData] eqn:Ep.
  { destruct e; simpl; intros ?; simplify_eq. }
  destruct (length csvData =? 0); [intros ?; simplify_eq|].
  destruct (Csv.all_valid (Csv.processIssueCSVData csvData template)) eqn:Ev;
    simpl; [|intros ?; simplify_eq].
  pose proof (proj1 (processed_valid csvData template) Ev) as Hvalid.
  destruct (Create.create_rows serve_createIssue _ _ w) as [r1 w1] eqn:El.
  pose proof (create_rows_requests _ Hvalid [] [] w) as Hreq.
  rewrite El in Hreq. simpl in Hreq.
  apply create_rows_inv in El as (rs & es & -> & Hp & Hf); [|done].
  rewrite processed_row_numbers in Hp.
  pose proof (Permutation_length Hp) as Hlen.
  rewrite length_app, !length_fmap, length_seq in Hlen.
  pose proof (processed_length csvData template) as Hn.
  injection Hreq as Hrs Hes Hw.
  assert (Hans : length (Create.row_requests serve_createIssue
                           (Csv.processedData
                              (Csv.processIssueCSVData csvData template)) w).1
                 = length csvData).
  { by rewrite row_requests_length. }
  simpl. intros ?; simplify_eq. rewrite Hn.
  split_and!; try done.
  eexists buffer, csvData, template, _.
  split_and!; [done | done | done | apply surjective_pairing | done | done | done].
Qed.

End CreateRoutes.

Lemma bulk_validates_before_creating_witness :
  match fst (Create.bulk DemoCreate.parse DemoCreate.serve
               (DemoCreate.upload DemoCreate.bad_rows) DemoCreate.no_templates
               (Demo.world_of Demo.closable [])) with
  | Ok (Create.Completed _ _ _ _ _ _) => True
  | Ok (Create.BulkRefused status _) =>
      snd (Create.bulk DemoCreate.parse DemoCreate.serve
             (DemoCreate.upload DemoCreate.bad_rows) DemoCreate.no_templates
             (Demo.world_of Demo.closable []))
      = Demo.world_of Demo.closable [] /\
      (status = 400 \/ status = 404 \/ status = 500)
  | Ok (Create.ValidationFailed errors) =>
      snd (Create.bulk DemoCreate.parse DemoCreate.serve
             (DemoCreate.upload DemoCreate.bad_rows) DemoCreate.no_templates
             (Demo.world_of Demo.closable []))
      = Demo.world_of Demo.closable [] /\
      errors <> [] /\
      exists buffer csvData template,
        Create.file (DemoCreate.upload DemoCreate.bad_rows) = Some buffer /\
        DemoCreate.parse buffer = inr csvData /\
        errors = omap reported
                   (Csv.processedData
                      (Csv.processIssueCSVData csvData template))
  | Throw _ =>
      snd (Create.bulk DemoCreate.parse DemoCreate.serve
             (DemoCreate.upload DemoCreate.bad_rows) DemoCreate.no_templates
             (Demo.world_of Demo.closable []))
      = Demo.world_of Demo.closable [] /\
      exists buffer n,
        Create.file (DemoCreate.upload DemoCreate.bad_rows) = Some buffer /\
        DemoCreate.parse buffer = inl (Nullish n)
  end.
Proof.
  apply (bulk_validates_before_creating DemoCreate.parse DemoCreate.serve
           (DemoCreate.upload DemoCreate.bad_rows) DemoCreate.no_templates
           (Demo.world_of Demo.closable [])).
  apply surjective_pairing.
Defined.

Lemma bulk_accounts_for_every_row_witness :
  1 = length [Create.mkCreatedRow 1 "PROJ-7" "10007" (Some "Fix login bug")] /\
  1 = length [Create.RowFailed 2 "Request failed with status code 400"] /\
  1 + 1 = 2 /\
  (Create.created_row <$>
     [Create.mkCreatedRow 1 "PROJ-7" "10007" (Some "Fix login bug")])
  ++ (Create.failed_row <$>
        [Create.RowFailed 2 "Request failed with status code 400"])
    ≡ₚ seq 1 2 /\
  "Bulk creation completed. 1 issues created, 1 failed."
  = Create.completed_message 1 1 /\
  exists buffer csvData template answers,
    Create.file (DemoCreate.upload DemoCreate.two_rows) = Some buffer /\
    DemoCreate.parse buffer = inr csvData /\
    2 = length csvData /\
    let rows := Csv.processedData (Csv.processIssueCSVData csvData template) in
    Create.row_requests DemoCreate.serve rows (Demo.world_of Demo.closable [])
      = (answers,
         snd (Create.bulk DemoCreate.parse DemoCreate.serve
                (DemoCreate.upload DemoCreate.two_rows)
                DemoCreate.no_templates (Demo.world_of Demo.closable []))) /\
    length answers = 2 /\
    [Create.mkCreatedRow 1 "PROJ-7" "10007" (Some "Fix login bug")]
      = omap Create.created_entry (zip rows answers) /\
    [Create.RowFailed 2 "Request failed with status code 400"]
      = omap Create.failed_entry (zip rows answers).
Proof.
  apply (bulk_accounts_for_every_row DemoCreate.parse DemoCreate.serve
           (DemoCreate.upload DemoCreate.two_rows) DemoCreate.no_templates
           (Demo.world_of Demo.closable [])
           (snd (Create.bulk DemoCreate.parse DemoCreate.serve
                   (DemoCreate.upload DemoCreate.two_rows)
                   DemoCreate.no_templates (Demo.world_of Demo.closable [])))).
  vm_compute. reflexivity.
Defined.

(** ** X16: creating a single issue *)

Section Single.
Context (serve_createIssue : Create.IssueData -> Tracker -> Reply Create.Created).

(** X16. POST /single always answers. When the project, the issue type or
    the summary is missing or empty it answers 400 and nothing is sent to
    Jira. An "issue created" answer means that the three were given, that
    Jira accepted an issue with exactly that project, type and summary,
    and that the answer carries what Jira returned. When the request to
    Jira fails, the answer is 500 and reads "Failed to create issue: "
    followed by the message of the Error the request threw, and the
    tracker is unchanged. *)
Theorem single_create_answers (req : Create.SingleRequest) (w w' : World)
    (r : Res Create.Answer) :
  Create.single serve_createIssue req w = (r, w') ->
  exists answer,
    r = Ok answer /\
    match answer with
    | Create.IssueCreated message issue =>
        message = "Issue created successfully" /\
        exists data p t s,
          serve_createIssue data (tracker w) = Served issue (tracker w') /\
          Create.createIssue serve_createIssue data w = (Ok issue, w') /\
          Create.s_project req = Some p /\ p <> "" /\
          Create.s_issueType req = Some t /\ t <> "" /\
          Create.s_summary req = Some s /\ s <> "" /\
          Create.project_key data = Some p /\
          Create.issuetype_name data = t /\
          Create.summary data = Some s
    | Create.Refused status error =>
        tracker w' = tracker w /\
        ((status = 400 /\
          error = "Project, issue type, and summary are required" /\
          w' = w /\
          Templates.present (Create.s_project req)
          && Templates.present (Create.s_issueType req)
          && Templates.present (Create.s_summary req) = false) \/
         (status = 500 /\
          Templates.present (Create.s_project req)
          && Templates.present (Create.s_issueType req)
          && Templates.present (Create.s_summary req) = true /\
          exists m,
            Create.createIssue serve_createIssue (Create.single_data req) w
              = (Throw (ErrorObj m), w') /\
            m <> "" /\
            error = "Failed to create issue: " +:+ m))
    end.
Proof.
  unfold Create.single, try_catch, bind, ret.
  destruct (Create.s_project req) as [[|a p]|] eqn:Ep; simpl;
    try (intros ?; simplify_eq; eexists; split; [reflexivity|];
         simpl; split; [done|]; left; by split_and!).
  destruct (Create.s_issueType req) as [[|b t]|] eqn:Et; simpl;
    try (intros ?; simplify_eq; eexists; split; [reflexivity|];
         simpl; split; [done|]; left; by split_and!).
  destruct (Create.s_summary req) as [[|c s]|] eqn:Es; simpl;
    try (intros ?; simplify_eq; eexists; split; [reflexivity|];
         simpl; split; [done|]; left; by split_and!).
  destruct (Create.createIssue serve_createIssue (Create.single_data req) w)
    as [[issue|e] w1] eqn:E.
  - pose proof E as E'. apply makeRequest_inv in E' as [_ H].
    intros ?; simplify_eq. eexists. split; [reflexivity|].
    simpl. split; [done|]. eexists _, _, _, _.
    split; [exact H|]. split; [exact E|].
    unfold Create.single_data. rewrite Ep, Et, Es. simpl.
    split_and!; done.
  - pose proof E as E'. apply makeRequest_inv in E' as [_ [[m ->] Ht]].
    pose proof (makeRequest_throws_message _ _ _ _ E) as Hm.
    simpl. intros ?; simplify_eq.
    eexists. split; [reflexivity|]. simpl. split; [done|]. right.
    split_and!; [done | done |]. exists m. split_and!; [done | | done].
    destruct Hm as (m' & Hm' & Hne). by simplify_eq.
Qed.

End Single.

Lemma single_create_answers_witness :
  exists answer,
    Ok (Create.Refused 500
          "Failed to create issue: Request failed with status code 400")
      = Ok answer /\
    match answer with
    | Create.IssueCreated message issue =>
        message = "Issue created successfully" /\
        exists data p t s,
          DemoCreate.serve data (tracker (Demo.world_of Demo.closable []))
            = Served issue
                (tracker (answered (tracker (Demo.world_of Demo.closable []))
                            (Demo.world_of Demo.closable []))) /\
          Create.createIssue DemoCreate.serve data
            (Demo.world_of Demo.closable [])
            = (Ok issue,
               answered (tracker (Demo.world_of Demo.closable []))
                 (Demo.world_of Demo.closable [])) /\
          Create.s_project DemoCreate.unknown_project = Some p /\ p <> "" /\
          Create.s_issueType DemoCreate.unknown_project = Some t /\ t <> "" /\
          Create.s_summary DemoCreate.unknown_project = Some s /\ s <> "" /\
          Create.project_key data = Some p /\
          Create.issuetype_name data = t /\
          Create.summary data = Some s
    | Create.Refused status error =>
        tracker (answered (tracker (Demo.world_of Demo.closable []))
                   (Demo.world_of Demo.closable []))
        = tracker (Demo.world_of Demo.closable []) /\
        ((status = 400 /\
          error = "Project, issue type, and summary are required" /\
          answered (tracker (Demo.world_of Demo.closable []))
            (Demo.world_of Demo.closable [])
          = Demo.world_of Demo.closable [] /\
          Templates.present (Create.s_project DemoCreate.unknown_project)
          && Templates.present (Create.s_issueType DemoCreate.unknown_project)
          && Templates.present (Create.s_summary DemoCreate.unknown_project)
          = false) \/
         (status = 500 /\
          Templates.present (Create.s_project DemoCreate.unknown_project)
          && Templates.present (Create.s_issueType DemoCreate.unknown_project)
          && Templates.present (Create.s_summary DemoCreate.unknown_project)
          = true /\
          exists m,
            Create.createIssue DemoCreate.serve
              (Create.single_data DemoCreate.unknown_project)
              (Demo.world_of Demo.closable [])
              = (Throw (ErrorObj m),
                 answered (tracker (Demo.world_of Demo.closable []))
                   (Demo.world_of Demo.closable [])) /\
            m <> "" /\
            error = "Failed to create issue: " +:+ m))
    end.
Proof.
  apply (single_create_answers DemoCreate.serve DemoCreate.unknown_project
           (Demo.world_of Demo.closable [])).
  vm_compute. reflexivity.
Defined.

(** * Properties of routes/settings.js *)

Lemma strip_slash_trailing (r : string) : Settings.strip_slash (r +:+ "/") = r.
Proof.
  induction r as [|c r IH]; [reflexivity|].
  rewrite append_cons. simpl. rewrite IH.
  destruct (r +:+ "/") eqn:E; [|done].
  destruct r; discriminate E.
Qed.

Lemma strip_slash_none (s : string) :
  Js.endsWith s "/" = false -> Settings.strip_slash s = s.
Proof.
  induction s as [|c s IH]; [done|]. simpl.
  destruct (decide (String c s = "/")) as [|Hn]; [done|].
  intros He. destruct s as [|c' s'].
  - destruct (decide (c = "/"%char)); [by subst | done].
  - by rewrite IH.
Qed.

Lemma strip_slash_empty (s : string) :
  Settings.strip_slash s = "" -> s = "" \/ s = "/".
Proof.
  destruct s as [|c [|c' s]]; simpl; [by left | | done].
  destruct (decide (c = "/"%char)); [subst; by right | done].
Qed.

Section SettingsRoutes.
Context {cipher : Config.Cipher} {json : Config.Json}.
Context (laws : Config.Lawful cipher json).
Context (valid_url : string -> bool).
(** [new URL("/")] throws *)
Hypothesis no_bare_slash : valid_url "/" = false.

Lemma get_after_save (s : Config.Settings) salt (d d' : Config.Disk) :
  Js.truthy (Config.apiToken s) = true ->
  Config.saveSettings s salt d = (true, d') ->
  Config.getSettings d' = s.
Proof.
  intros Ht Hsave. pose proof (saved_file s salt d d' Ht Hsave) as [He Hfile].
  unfold Config.getSettings. rewrite Hfile, Config.parse_stringify. simpl.
  rewrite (encrypt_truthy laws _ _ He), (Config.decrypt_encrypt _ _ He).
  by destruct s.
Qed.

(** X17. After POST /api/settings has answered that the settings were
    saved, GET reports the submitted URL without one trailing slash, the
    submitted user name, [configured] and [hasApiToken]; the client has
    been marked uninitialised, and its next [initialize] succeeds and
    logs in with exactly the submitted user name and token, recovered
    from the encrypted file. *)
Theorem saved_settings_are_used (body : Settings.Body) (salt : Config.Salt)
    (d d' : Config.Disk) (c c' : Settings.Client) (message : string) :
  Settings.post valid_url body salt d c = (Settings.Saved message, d', c') ->
  Settings.initialized c' = false /\
  Settings.get d' =
    Settings.mkSafeSettings (Settings.strip_slash (Settings.b_jiraUrl body))
      (Settings.b_username body) true true /\
  Settings.initialize d' c' =
    (true,
     Settings.mkClient
       (Some (Settings.strip_slash
                (Settings.strip_slash (Settings.b_jiraUrl body))))
       (Some (Settings.b_username body, Settings.b_apiToken body))
       true).
Proof.
  unfold Settings.post.
  destruct (Js.truthy (Settings.b_jiraUrl body)) eqn:Eu; [|done].
  destruct (Js.truthy (Settings.b_username body)) eqn:En; [|done].
  destruct (Js.truthy (Settings.b_apiToken body)) eqn:Et; [|done]. simpl.
  destruct (valid_url (Settings.b_jiraUrl body)) eqn:Ev; [|done]. simpl.
  destruct (Config.saveSettings _ salt d) as [[] d1] eqn:Es; [|done]. simpl.
  intros ?; simplify_eq.
  apply get_after_save in Es; [|done].
  assert (Hs : Js.truthy (Settings.strip_slash (Settings.b_jiraUrl body)) = true).
  { destruct (Settings.strip_slash (Settings.b_jiraUrl body)) eqn:E; [|done].
    apply strip_slash_empty in E as [E | E]; rewrite E in *; [done|].
    congruence. }
  split_and!; [done | |].
  - unfold Settings.get. rewrite Es. simpl. by rewrite Et.
  - unfold Settings.initialize. rewrite Es. simpl. by rewrite Hs, En, Et.
Qed.

(** X18. A settings request that is refused changes nothing: the file and
    the client are as before. It is refused with 400 exactly when a field
    is empty or the URL does not parse, and with 500 exactly when all
    fields are fine and the token cannot be encrypted or the file cannot
    be written; in every other case the settings are saved. *)
Theorem refused_settings_change_nothing (body : Settings.Body)
    (salt : Config.Salt) (d : Config.Disk) (c : Settings.Client) :
  let complete :=
    Js.truthy (Settings.b_jiraUrl body) && Js.truthy (Settings.b_username body)
    && Js.truthy (Settings.b_apiToken body)
    && valid_url (Settings.b_jiraUrl body) in
  let storable :=
    Config.encryptable (Settings.b_apiToken body) && Config.writable d in
  match Settings.post valid_url body salt d c with
  | (Settings.Refused status error, d', c') =>
      d' = d /\ c' = c /\
      ((complete = false /\ status = 400) \/
       (complete = true /\ storable = false /\ status = 500))
  | (Settings.Saved _, d', c') =>
      complete = true /\ storable = true /\
      Settings.initialized c' = false
  end.
Proof.
  unfold Settings.post, Config.saveSettings.
  destruct (Js.truthy (Settings.b_jiraUrl body)); simpl; [|auto].
  destruct (Js.truthy (Settings.b_username body)); simpl; [|auto].
  destruct (Js.truthy (Settings.b_apiToken body)); simpl; [|auto].
  destruct (valid_url (Settings.b_jiraUrl body)); simpl; [|auto].
  destruct (Config.encryptable (Settings.b_apiToken body)); simpl;
    [|split_and!; [done | done |]; right; by split_and!].
  destruct (Config.writable d) eqn:Ew; simpl.
  - done.
  - split_and!; [done | done |]. right. by split_and!.
Qed.

End SettingsRoutes.

Section TemplateRoutes.
Context {json : Templates.Json} (lossless : Templates.Lossless json).

Lemma default_templates_well_formed :
  forallb Settings.well_formed Templates.getDefaultTemplates = true.
Proof. reflexivity. Qed.

(** X19. POST /api/settings/templates stores a list only if every template
    in it has a non-empty id and name; GET then returns exactly the list
    that was posted. A refused request (no array, a template without id
    or name, a file that cannot be written) leaves the file as it was. *)
Theorem posted_templates_are_returned
    (body : option (list Templates.Template)) (d d' : Templates.Disk)
    (answer : Settings.Answer) :
  Settings.post_templates body d = (answer, d') ->
  match answer with
  | Settings.Saved _ =>
      exists ts, body = Some ts /\
                 forallb Settings.well_formed ts = true /\
                 Settings.get_templates d' = ts
  | Settings.Refused status _ =>
      d' = d /\ (status = 400 \/ status = 500)
  end.
Proof.
  unfold Settings.post_templates, Templates.saveTemplates.
  destruct body as [ts|]; [|intros ?; simplify_eq; auto].
  destruct (forallb Settings.well_formed ts) eqn:Ew; simpl;
    [|intros ?; simplify_eq; auto].
  destruct (Templates.writable d); simpl; intros ?; simplify_eq; [|auto].
  exists ts. split_and!; [done | done |].
  unfold Settings.get_templates, Templates.getTemplates. simpl.
  by rewrite lossless.
Qed.

(** X20. Starting without a templates file, whatever sequence of POST
    /templates requests is made, every template that GET /templates
    returns has a non-empty id and a non-empty name: the three default
    templates have them, and no request can store one that has not. *)
Theorem templates_always_have_id_and_name
    (bodies : list (option (list Templates.Template))) (d : Templates.Disk) :
  Templates.templates_file d = None ->
  forallb Settings.well_formed
    (Settings.get_templates (Settings.post_all bodies d)) = true.
Proof.
  intros Hd.
  assert (H0 : forallb Settings.well_formed (Settings.get_templates d) = true).
  { unfold Settings.get_templates, Templates.getTemplates. by rewrite Hd. }
  clear Hd. revert d H0. induction bodies as [|body bodies IH]; intros d H0;
    simpl; [done|].
  apply IH.
  destruct (Settings.post_templates body d) as [answer d'] eqn:E.
  simpl. unfold Settings.post_templates, Templates.saveTemplates in E.
  destruct body as [ts|]; [|by simplify_eq].
  destruct (forallb Settings.well_formed ts) eqn:Ew; simpl in E;
    [|by simplify_eq].
  destruct (Templates.writable d); simpl in E; simplify_eq; [|done].
  unfold Settings.get_templates, Templates.getTemplates. simpl.
  by rewrite lossless.
Qed.

End TemplateRoutes.

Lemma lists_lossless : Templates.Lossless DemoCreate.lists.
Proof. by intros ts. Qed.

Lemma saved_settings_are_used_witness :
  Settings.initialized (Settings.mkClient None None false) = false /\
  @Settings.get Demo.mark Demo.objects Demo.saved_disk =
    Settings.mkSafeSettings
      (Settings.strip_slash (Settings.b_jiraUrl DemoSettings.body))
      (Settings.b_username DemoSettings.body) true true /\
  @Settings.initialize Demo.mark Demo.objects Demo.saved_disk
    (Settings.mkClient None None false) =
    (true,
     Settings.mkClient
       (Some (Settings.strip_slash
                (Settings.strip_slash (Settings.b_jiraUrl DemoSettings.body))))
       (Some (Settings.b_username DemoSettings.body,
              Settings.b_apiToken DemoSettings.body))
       true).
Proof.
  apply (saved_settings_are_used (cipher := Demo.mark) (json := Demo.objects)
           mark_objects_lawful DemoSettings.valid_url eq_refl
           DemoSettings.body 7 Demo.empty_disk Demo.saved_disk
           DemoSettings.client (Settings.mkClient None None false)
           "Settings saved successfully").
  reflexivity.
Defined.

(** A token with a lone surrogate cannot be encrypted: the request is
    refused with 500 although the file could have been written. *)
Example unencryptable_token_is_refused :
  Config.writable Demo.saved_disk = true /\
  @Settings.post Demo.mark Demo.objects DemoSettings.valid_url
    (Settings.mkBody "https://jira.example.com/" "alice"
       ("s3" +:+ Demo.lone_surrogate))
    7 Demo.saved_disk DemoSettings.client
  = (Settings.Refused 500 "Failed to save settings", Demo.saved_disk,
     DemoSettings.client).
Proof. split; reflexivity. Qed.

Lemma posted_templates_are_returned_witness :
  match (Settings.post_templates (Some [DemoSettings.nameless])
           DemoCreate.no_templates).1 with
  | Settings.Saved _ =>
      exists ts, Some [DemoSettings.nameless] = Some ts /\
                 forallb Settings.well_formed ts = true /\
                 Settings.get_templates
                   (Settings.post_templates (Some [DemoSettings.nameless])
                      DemoCreate.no_templates).2 = ts
  | Settings.Refused status _ =>
      (Settings.post_templates (Some [DemoSettings.nameless])
         DemoCreate.no_templates).2 = DemoCreate.no_templates /\
      (status = 400 \/ status = 500)
  end.
Proof.
  apply (posted_templates_are_returned lists_lossless
           (Some [DemoSettings.nameless]) DemoCreate.no_templates).
  reflexivity.
Defined.

Lemma templates_always_have_id_and_name_witness :
  forallb Settings.well_formed
    (Settings.get_templates
       (Settings.post_all
          [Some [DemoSettings.nameless]; None;
           Some (List.tl Templates.getDefaultTemplates)]
          DemoCreate.no_templates)) = true.
Proof.
  apply (templates_always_have_id_and_name lists_lossless).
  reflexivity.
Defined.


(** * Properties of routes/search.js, POST /issue/:issueKey/comment *)

Lemma add_comment_inv (key : string) (comment : option string) (w : World) :
  exists a w',
    Search.add_comment key comment w = (Ok a, w') /\
    invocations w' = invocations w /\
    match a with
    | Search.Refused status _ =>
        (status = 400 /\ w' = w /\
         forall text, comment = Some text -> JsStr.trim text = "") \/
        (status = 500 /\ tracker w' = tracker w /\
         exists text, comment = Some text /\ JsStr.trim text <> "")
    | Search.CommentAdded _ c =>
        exists text i,
          comment = Some text /\ JsStr.trim text <> "" /\
          issues (tracker w) !! key = Some i /\
          c = mkComment (fresh_cid (comments i)) text /\
          tracker w' = record (CommentAdded key c) key
                         (with_comments i (comments i ++ [c])) (tracker w)
    end.
Proof.
  unfold Search.add_comment, try_catch, bind, ret.
  destruct comment as [text|].
  2:{ eexists _, _. split_and!; [done | done |]. left. by split_and!. }
  destruct (Js.truthy text) eqn:Et; simpl.
  2:{ destruct text; [|done]. eexists _, _. split_and!; [done | done |].
      left. split_and!; [done | done |]. intros ? [= <-]. reflexivity. }
  case_bool_decide as Hb.
  { eexists _, _. split_and!; [done | done |]. left.
    split_and!; [done | done |]. by intros ? [= <-]. }
  destruct (JiraAPI.addComment key text w) as [[c|e] w1] eqn:E;
    apply addComment_inv in E as [Hi H].
  - destruct H as (i & Hl & -> & Ht).
    eexists _, _. split_and!; [done | done |]. exists text, i. by split_and!.
  - destruct H as [[m ->] Ht]. simpl.
    eexists _, _. split_and!; [done | done |]. right. split_and!; eauto.
Qed.

(** X21. Adding a comment never throws.  A missing, empty or blank comment
    is refused with 400 before Jira is contacted (the world is unchanged);
    otherwise either the issue gets one new last comment whose body is the
    submitted text, untrimmed, or the answer is 500 and the tracker is
    unchanged. *)
Theorem add_comment_stores_text_verbatim (key : string)
    (comment : option string) (w : World) :
  exists a w',
    Search.add_comment key comment w = (Ok a, w') /\
    match a with
    | Search.Refused status _ =>
        (status = 400 /\ w' = w /\
         forall text, comment = Some text -> JsStr.trim text = "") \/
        (status = 500 /\ tracker w' = tracker w /\
         exists text, comment = Some text /\ JsStr.trim text <> "")
    | Search.CommentAdded _ c =>
        exists text i,
          comment = Some text /\ JsStr.trim text <> "" /\
          body c = text /\
          issues (tracker w) !! key = Some i /\
          issues (tracker w') !! key
            = Some (with_comments i (comments i ++ [c])) /\
          forall k, k <> key ->
            issues (tracker w') !! k = issues (tracker w) !! k
    end.
Proof.
  destruct (add_comment_inv key comment w) as (a & w' & H & _ & Ha).
  exists a, w'. split; [done|].
  destruct a as [status msg | msg c]; [done|].
  destruct Ha as (text & i & Hc & Ht & Hi & -> & Hw).
  exists text, i. split_and!; [done | done | done | done | |].
  - rewrite Hw. simpl. by rewrite lookup_insert_eq.
  - intros k Hk. rewrite Hw. simpl. by rewrite lookup_insert_ne.
Qed.

(** ** A hand-written comment that carries the tag *)

(** X22. When an issue has no tagged comment, a user adds a comment that
    starts with the tag, and a run on the issue is then answered
    CommentedFail, the run rewrites the user's comment: the issue has the
    comments it had before plus one, under the id of the user's comment,
    whose body is tag + " " + the reason. *)
Theorem tagged_user_comment_is_overwritten (dir : ScriptDir)
    (req : Verify.Request) (text msg : string) (c : Comment) (v : JsVal)
    (i : Issue) (w w1 w2 : World) :
  issues (tracker w) !! Verify.issueKey req = Some i ->
  filter (Verify.tagged (Verify.prefix_of req)) (comments i) = [] ->
  Js.startsWith text (Verify.prefix_of req) = true ->
  Search.add_comment (Verify.issueKey req) (Some text) w
    = (Ok (Search.CommentAdded msg c), w1) ->
  Verify.run dir req w1 = (Ok (Verify.commented_fail v), w2) ->
  body c = text /\
  issues (tracker w2) !! Verify.issueKey req
    = Some (with_comments i
              (comments i ++
                 [mkComment (cid c)
                    (Verify.prefix_of req +:+ " " +:+ render v)])).
Proof.
  intros Hi Hf Hs Hadd Hrun.
  destruct (add_comment_inv (Verify.issueKey req) (Some text) w)
    as (a & w' & H & _ & Ha).
  rewrite Hadd in H. injection H as <- <-.
  destruct Ha as (text' & i' & [= <-] & _ & Hi' & -> & Hw).
  rewrite Hi in Hi'. injection Hi' as <-.
  split; [done|].
  apply run_commented_fail in Hrun as (_ & j & Hj & Hiss & _).
  rewrite Hw in Hj. simpl in Hj. rewrite lookup_insert_eq in Hj.
  injection Hj as <-.
  rewrite Hiss, lookup_insert_eq. simpl.
  by rewrite (reconcile_again _ _ _ _ Hf Hs).
Qed.

Lemma tagged_user_comment_is_overwritten_witness :
  body (mkComment 1 "[Verification] checked by hand")
    = "[Verification] checked by hand" /\
  issues (tracker
            (Verify.run Demo.scripts (Demo.request "timeout")
               (Search.add_comment Demo.key
                  (Some "[Verification] checked by hand")
                  (Demo.world_of Demo.closable [])).2).2)
    !! Verify.issueKey (Demo.request "timeout")
  = Some (with_comments Demo.closable
            (comments Demo.closable ++
               [mkComment (cid (mkComment 1 "[Verification] checked by hand"))
                  (Verify.prefix_of (Demo.request "timeout") +:+ " " +:+
                   render (VStr "timeout"))])).
Proof.
  apply (tagged_user_comment_is_overwritten Demo.scripts
           (Demo.request "timeout") "[Verification] checked by hand"
           "Comment added successfully"
           (mkComment 1 "[Verification] checked by hand") (VStr "timeout")
           Demo.closable (Demo.world_of Demo.closable [])
           (Search.add_comment Demo.key
              (Some "[Verification] checked by hand")
              (Demo.world_of Demo.closable [])).2);
    vm_compute; reflexivity.
Defined.

(** * Properties of utils/jiraApi.js *)

(** X23. While the client is not initialised and the stored settings are
    incomplete, no route contacts Jira: a run is answered 404 with the
    configuration message, the history and the comment route 500 with
    it, and the world is left as it was. *)
Theorem unconfigured_client_is_reported (dir : ScriptDir)
    (req : Verify.Request) (text : string) (w : World) :
  initialized w = false ->
  has_settings w = false ->
  Js.truthy (Verify.issueKey req) = true ->
  Js.truthy (Verify.scriptId req) = true ->
  JsStr.trim text <> "" ->
  Verify.run dir req w
    = (Ok (Verify.issue_not_found JiraAPI.not_configured), w) /\
  VerifyHistory.get_history (Verify.issueKey req) (Verify.commentPrefix req) w
    = (Ok (VerifyHistory.Failure 500
             ("Failed to get verification history: "
              +:+ JiraAPI.not_configured)), w) /\
  Search.add_comment (Verify.issueKey req) (Some text) w
    = (Ok (Search.Refused 500
             ("Failed to add comment: " +:+ JiraAPI.not_configured)), w).
Proof.
  intros Hi Hs Hk Hid Ht.
  split_and!.
  - unfold Verify.run, try_catch, bind, ret. rewrite Hk, Hid. simpl.
    unfold JiraAPI.getIssue, JiraAPI.makeRequest, bind,
      JiraAPI.ensure_initialized.
    by rewrite Hi, Hs.
  - unfold VerifyHistory.get_history, try_catch, bind, ret.
    unfold JiraAPI.getComments, JiraAPI.makeRequest, bind,
      JiraAPI.ensure_initialized.
    by rewrite Hi, Hs.
  - unfold Search.add_comment, try_catch, bind, ret.
    assert (Js.truthy text = true) as -> by (by destruct text).
    simpl. rewrite bool_decide_eq_false_2 by done.
    unfold JiraAPI.addComment, JiraAPI.makeRequest, bind,
      JiraAPI.ensure_initialized.
    by rewrite Hi, Hs.
Qed.

Lemma unconfigured_client_is_reported_witness :
  let w := mkWorld (mkTracker {[ Demo.key := Demo.closable ]} [])
             [] false false [] in
  Verify.run Demo.scripts (Demo.request "timeout") w
    = (Ok (Verify.issue_not_found JiraAPI.not_configured), w) /\
  VerifyHistory.get_history (Verify.issueKey (Demo.request "timeout"))
    (Verify.commentPrefix (Demo.request "timeout")) w
    = (Ok (VerifyHistory.Failure 500
             ("Failed to get verification history: "
              +:+ JiraAPI.not_configured)), w) /\
  Search.add_comment (Verify.issueKey (Demo.request "timeout"))
    (Some "a note") w
    = (Ok (Search.Refused 500
             ("Failed to add comment: " +:+ JiraAPI.not_configured)), w).
Proof.
  apply (unconfigured_client_is_reported Demo.scripts
           (Demo.request "timeout") "a note"
           (mkWorld (mkTracker {[ Demo.key := Demo.closable ]} [])
              [] false false []));
    try reflexivity.
  vm_compute. discriminate.
Defined.

(** X24. A request that fails throws an Error whose message is not empty,
    whether the client is unconfigured, the transport failed or the server
    refused, and even when the failure itself carried an empty message. *)
Theorem request_errors_have_a_message {A : Type} (serve : Tracker -> Reply A)
    (w w' : World) (e : Thrown) :
  JiraAPI.makeRequest serve w = (Throw e, w') ->
  exists m, e = ErrorObj m /\ m <> "".
Proof. apply makeRequest_throws_message. Qed.

Lemma request_errors_have_a_message_witness :
  exists m, ErrorObj "Jira API request failed" = ErrorObj m /\ m <> "".
Proof.
  apply (request_errors_have_a_message (serve_getIssue Demo.key)
           (Demo.world_of Demo.closable [Some ""])
           (set_initialized true
              (set_faults [] (Demo.world_of Demo.closable [Some ""])))).
  reflexivity.
Defined.
